(** * SmartReads recommendation engine: a shallow embedding

    The definitions below follow [recommendation_engine.py] function by
    function.  Conventions of the embedding:

    - Python [float] values (scores, weights, similarities) are exact
      rationals [Q]; rounding is outside the model.
    - Python [str] values are [string]s; the text is ASCII (code points
      below 128), on which [Py.lower] and [Py.split] are [str.lower] and
      [str.split].  Case mapping and white space of other code points
      are outside the model.
    - Python [dict]s are insertion-ordered association lists ([Dict]):
      re-binding a key keeps its position, a new key goes last.
    - A Python [set] is a duplicate-free list in first-occurrence order.
      CPython leaves the iteration order of a set unspecified.  The order
      of the labels of the interaction matrix is an explicit argument of
      [CollaborativeFilter.fit_with]; elsewhere the engine only tests
      membership in a set, or quotes one of its elements in a reason text.
    - A Python exception is [None] in an [option] result.
    - [cosine_similarity] and [TfidfVectorizer.fit_transform] are calls into
      scikit-learn (square roots, logarithms): they are Section variables.
    - [Engine] is the class [SmartReadsRecommendationEngine]. *)

From Stdlib Require Import ZArith QArith Qminmax Lia Lqa List String Ascii Bool.
From Stdlib Require Import Permutation Sorted.
Import ListNotations.

Local Open Scope string_scope.
Local Open Scope Z_scope.

(** ** Python built-ins used by the engine *)

Module Py.

(** [l[:n]], for any integer [n] (a negative [n] counts from the end). *)
Definition slice_to {A} (n : Z) (l : list A) : list A :=
  if 0 <=? n then firstn (Z.to_nat n) l
  else firstn (List.length l - Z.to_nat (- n)) l.

(** [l[-k:]] for a positive literal [k]. *)
Definition last_n {A} (k : nat) (l : list A) : list A :=
  skipn (List.length l - k) l.

(** [l[1:]]. *)
Definition drop_first {A} (l : list A) : list A := tl l.

(** [x in l] on strings. *)
Definition mem (x : string) (l : list string) : bool :=
  existsb (String.eqb x) l.

(** [l.index(x)], [None] standing for [ValueError]. *)
Fixpoint index_of (x : string) (l : list string) : option nat :=
  match l with
  | [] => None
  | y :: l' => if String.eqb x y then Some O
               else option_map S (index_of x l')
  end.

(** [list(set(l))] in first-occurrence order. *)
Fixpoint set_list (l : list string) : list string :=
  match l with
  | [] => []
  | x :: l' => x :: filter (fun y => negb (String.eqb x y)) (set_list l')
  end.

(** [a & b] on sets. *)
Definition set_inter (a b : list string) : list string :=
  filter (fun x => mem x b) a.

(** [a - b] on sets. *)
Definition set_diff (a b : list string) : list string :=
  filter (fun x => negb (mem x b)) a.

Definition Qltb (a b : Q) : bool := negb (Qle_bool b a).

(** [min(a, b)]: the first argument unless the second is strictly smaller. *)
Definition min (a b : Q) : Q := if Qltb b a then b else a.

(** [sorted(l, key=key, reverse=True)]: stable, descending.  An element is
    inserted in front of the first element whose key is not strictly
    greater, so equal keys keep their input order. *)
Section Sorted.
Context {A : Type} (key : A -> Q).

Fixpoint insert_desc (x : A) (l : list A) : list A :=
  match l with
  | [] => [x]
  | y :: l' => if Qltb (key x) (key y) then y :: insert_desc x l'
               else x :: y :: l'
  end.

Definition sorted_desc (l : list A) : list A :=
  fold_right insert_desc [] l.

(** The order [sorted_desc] produces: [a] may stand before [b]. *)
Definition desc (a b : A) : Prop := (key b <= key a)%Q.
End Sorted.

(** [s.lower()] on ASCII text: the letters A-Z are mapped, every other
    character below 128 is left as it is. *)
Definition lower_ascii (c : ascii) : ascii :=
  let n := nat_of_ascii c in
  if ((65 <=? n) && (n <=? 90))%nat then ascii_of_nat (n + 32) else c.

Fixpoint lower (s : string) : string :=
  match s with
  | EmptyString => EmptyString
  | String c s' => String (lower_ascii c) (lower s')
  end.

(** The characters below 128 that [str.split()] treats as separators:
    tab to carriage return (9-13), the four information separators (28-31)
    and the space (32). *)
Definition is_space (c : ascii) : bool :=
  let n := nat_of_ascii c in
  (((9 <=? n) && (n <=? 13)) || ((28 <=? n) && (n <=? 32)))%nat.

Definition flush (cur : option string) : list string :=
  match cur with Some w => [w] | None => [] end.

Fixpoint split_go (s : string) (cur : option string) : list string :=
  match s with
  | EmptyString => flush cur
  | String c s' =>
      if is_space c then (flush cur ++ split_go s' None)%list
      else split_go s' (Some (match cur with
                              | Some w => w ++ String c EmptyString
                              | None => String c EmptyString
                              end))
  end.

(** [s.split()]: maximal runs of non-space characters. *)
Definition split (s : string) : list string := split_go s None.

(** [sep.join(l)]. *)
Definition join (sep : string) (l : list string) : string :=
  String.concat sep l.

End Py.

(** ** Insertion-ordered dictionaries with string keys *)

Module Dict.
Section Dict.
Context {V : Type}.

Definition t := list (string * V).

Definition empty : t := [].

Fixpoint get (k : string) (d : t) : option V :=
  match d with
  | [] => None
  | (k', v) :: d' => if String.eqb k k' then Some v else get k d'
  end.

Definition mem (k : string) (d : t) : bool :=
  match get k d with Some _ => true | None => false end.

(** [d[k] = v]. *)
Fixpoint set (k : string) (v : V) (d : t) : t :=
  match d with
  | [] => [(k, v)]
  | (k', v') :: d' =>
      if String.eqb k k' then (k', v) :: d' else (k', v') :: set k v d'
  end.

Definition keys (d : t) : list string := map fst d.
Definition values (d : t) : list V := map snd d.
Definition items (d : t) : list (string * V) := d.
End Dict.
Arguments t : clear implicits.
End Dict.

(** ** Data model (the four dataclasses)

    Field names are the source's; where two classes share a field name the
    later one has a prefix ([s_reading_level], [r_student_id],
    [r_book_id]). *)

Record Book := mkBook {
  book_id : string;
  title : string;
  author : string;
  isbn : string;
  genre : list string;
  subject : list string;
  reading_level : string;
  description : string;
  publication_year : Z;
  page_count : Z;
  language : string;
  available_copies : Z;
  total_copies : Z;
  popularity_score : Q
}.

Definition set_popularity_score (b : Book) (p : Q) : Book :=
  mkBook (book_id b) (title b) (author b) (isbn b) (genre b) (subject b)
         (reading_level b) (description b) (publication_year b)
         (page_count b) (language b) (available_copies b) (total_copies b) p.

Record Student := mkStudent {
  student_id : string;
  grade_level : Z;
  s_reading_level : string;
  preferred_genres : list string;
  interests : list string;
  reading_history : list string
}.

(** The two dates play no part in any computation and are kept as opaque
    day numbers. *)
Record BorrowingRecord := mkRecord {
  r_student_id : string;
  r_book_id : string;
  borrow_date : Z;
  return_date : option Z;
  rating : option Z;
  completed : bool
}.

Record Recommendation := mkRec {
  book : Book;
  score : Q;
  reason : string;
  strategy : string;
  confidence : Q
}.

(** ** LLMRecommender *)

Module LLMRecommender.

(** [_mock_llm_enhancement], lines 276-307: the boost and the reason clauses
    are accumulated rule by rule. *)
Definition genre_rule (student : Student) (b : Book) (acc : Q * list string)
  : Q * list string :=
  let matched_genres :=
    filter (fun g => Py.mem g (preferred_genres student)) (genre b) in
  match matched_genres with
  | g :: _ =>
      ((fst acc + 0.1)%Q,
       (snd acc ++ [("matches your preferred genre of " ++ g)%string])%list)
  | [] => acc
  end.

Definition level_rule (student : Student) (b : Book) (acc : Q * list string)
  : Q * list string :=
  if String.eqb (reading_level b) (s_reading_level student)
  then ((fst acc + 0.05)%Q, (snd acc ++ ["is at your reading level"])%list)
  else acc.

Definition interest_keywords (student : Student) : list string :=
  Py.set_list
    (flat_map (fun interest => map Py.lower (Py.split interest))
              (interests student)).

Definition description_words (b : Book) : list string :=
  Py.set_list (Py.split (Py.lower (description b))).

Definition interest_rule (student : Student) (b : Book)
  (acc : Q * list string) : Q * list string :=
  match Py.set_inter (interest_keywords student) (description_words b) with
  | matched :: _ =>
      ((fst acc + 0.15)%Q,
       (snd acc ++ [("relates to your interest in " ++ matched)%string])%list)
  | [] => acc
  end.

Definition explanation (reasons : list string) : string :=
  match reasons with
  | [] => "This book offers a new reading experience to expand your horizons."
  | _ => "This book is recommended because it "
           ++ Py.join " and " reasons ++ "."
  end.

Definition mock_llm_enhancement (student : Student) (b : Book)
  (base_score : Q) : Q * string :=
  let acc := interest_rule student b
               (level_rule student b (genre_rule student b (0%Q, []))) in
  let score_boost := fst acc in
  let reasons := snd acc in
  (Py.min 1 (base_score + score_boost)%Q, explanation reasons).

(** [enhance_recommendation] with [use_mock = True], the only way the engine
    constructs the recommender. *)
Definition enhance_recommendation := mock_llm_enhancement.

(** The three rule conditions on their own. *)
Definition genre_match (student : Student) (b : Book) : bool :=
  existsb (fun g => Py.mem g (preferred_genres student)) (genre b).

Definition level_match (student : Student) (b : Book) : bool :=
  String.eqb (reading_level b) (s_reading_level student).

Definition interest_match (student : Student) (b : Book) : bool :=
  existsb (fun w => Py.mem w (description_words b))
          (interest_keywords student).

(** The sum of the applicable boosts, as the specification words it. *)
Definition applicable_boosts (student : Student) (b : Book) : Q :=
  ((if genre_match student b then 0.1 else 0)
   + (if level_match student b then 0.05 else 0)
   + (if interest_match student b then 0.15 else 0))%Q.

End LLMRecommender.

(** ** Exceptions

    A Python exception ([KeyError], [IndexError]) is [None]. *)

Definition bind {A B} (m : option A) (k : A -> option B) : option B :=
  match m with Some a => k a | None => None end.

Notation "x <- m ;; k" := (bind m (fun x => k))
  (at level 61, m at next level, right associativity).

Fixpoint mapM {A B} (f : A -> option B) (l : list A) : option (list B) :=
  match l with
  | [] => Some []
  | a :: l' => b <- f a ;; bs <- mapM f l' ;; Some (b :: bs)
  end.

Fixpoint foldM {A S} (f : S -> A -> option S) (l : list A) (s : S)
  : option S :=
  match l with
  | [] => Some s
  | a :: l' => s' <- f s a ;; foldM f l' s'
  end.

(** ** Labelled matrices and series (the part of pandas the engine uses) *)

Definition Series := list (string * Q).

Definition Qsum (l : list Q) : Q := fold_left Qplus l 0%Q.

(** [s.nlargest(n)] with pandas' default [keep='first']: the [n] largest
    values in descending order, equal values in order of appearance. *)
Definition nlargest (n : Z) (s : Series) : Series :=
  firstn (Z.to_nat n) (Py.sorted_desc snd s).

Record DataFrame := mkDF {
  df_index : list string;
  df_columns : list string;
  df_rows : Dict.t (Dict.t Q)
}.

(** [pd.DataFrame(0, index=index, columns=columns)]. *)
Definition new_frame (index columns : list string) : DataFrame :=
  mkDF index columns
       (map (fun u => (u, map (fun b => (b, 0%Q)) columns)) index).

(** [df.loc[u]]. *)
Definition loc_row (df : DataFrame) (u : string) : option Series :=
  Dict.get u (df_rows df).

(** [df.loc[u, b]]. *)
Definition loc (df : DataFrame) (u b : string) : option Q :=
  r <- loc_row df u ;; Dict.get b r.

(** [df.loc[u, b] = v], for labels the frame has (pandas would enlarge the
    frame on a new label; [fit] only writes labels it created). *)
Definition set_loc (df : DataFrame) (u b : string) (v : Q) : DataFrame :=
  match Dict.get u (df_rows df) with
  | Some r => mkDF (df_index df) (df_columns df)
                   (Dict.set u (Dict.set b v r) (df_rows df))
  | None => df
  end.

(** [df[b]]: the column labelled [b] as a series over the index. *)
Definition column (df : DataFrame) (b : string) : option Series :=
  if Py.mem b (df_columns df)
  then mapM (fun u => v <- loc df u b ;; Some (u, v)) (df_index df)
  else None.

(** [df.values]: the rows as vectors. *)
Definition frame_values (df : DataFrame) : list (list Q) :=
  map (fun r => Dict.values (snd r)) (df_rows df).

(** [df.T.values]: the columns as vectors. *)
Definition frame_T_values (df : DataFrame) : list (list Q) :=
  map (fun b => map (fun r => match Dict.get b (snd r) with
                              | Some v => v
                              | None => 0%Q
                              end) (df_rows df))
      (df_columns df).

(** [df.sum(axis=0)]: one sum per column. *)
Definition sum_axis0 (df : DataFrame) : Series :=
  combine (df_columns df) (map Qsum (frame_T_values df)).

(** [pd.DataFrame(m, index=labels, columns=labels)] for a square [m]. *)
Definition square_frame (labels : list string) (m : list (list Q))
  : DataFrame :=
  mkDF labels labels (combine labels (map (combine labels) m)).

(** ** CollaborativeFilter *)

Module CollaborativeFilter.

(** The fitted [TruncatedSVD] object is stored and never read: it has no
    field here. *)
Record t := mk {
  user_item_matrix : option DataFrame;
  user_similarity_matrix : option DataFrame;
  item_similarity_matrix : option DataFrame
}.

(** [__init__]. *)
Definition init : t := mk None None None.

(** Lines 137-141: the weight a record writes into the matrix. *)
Definition record_value (r : BorrowingRecord) : Q :=
  match rating r with
  | Some z => if z =? 0 then (if completed r then 1.2 else 1)%Q
              else (inject_Z z / 5)%Q
  | None => if completed r then 1.2%Q else 1%Q
  end.

(** Lines 136-143: the filling loop. *)
Definition fill (records : list BorrowingRecord) (m : DataFrame) : DataFrame :=
  fold_left
    (fun m r => set_loc m (r_student_id r) (r_book_id r) (record_value r))
    records m.

Section Fit.
(** [cosine u v]: scikit-learn's cosine similarity of two row vectors. *)
Variable cosine : list Q -> list Q -> Q.

(** [cosine_similarity(X)]: all pairs of rows. *)
Definition cosine_similarity (X Y : list (list Q)) : list (list Q) :=
  map (fun x => map (cosine x) Y) X.

(** [fit], with the iteration orders of the two sets given. *)
Definition fit_with (user_ids book_ids : list string)
  (records : list BorrowingRecord) (self : t) : t :=
  let m := fill records (new_frame user_ids book_ids) in
  mk (Some m)
     (if (1 <? List.length user_ids)%nat
      then Some (square_frame user_ids
                   (cosine_similarity (frame_values m) (frame_values m)))
      else user_similarity_matrix self)
     (if (1 <? List.length book_ids)%nat
      then Some (square_frame book_ids
                   (cosine_similarity (frame_T_values m) (frame_T_values m)))
      else item_similarity_matrix self).

Definition fit (records : list BorrowingRecord) (self : t) : t :=
  fit_with (Py.set_list (map r_student_id records))
           (Py.set_list (map r_book_id records)) records self.
End Fit.

(** [recommendations[book_id] += x] on a [defaultdict(float)]. *)
Definition add_to (b : string) (x : Q) (recs : Dict.t Q) : Dict.t Q :=
  Dict.set b (match Dict.get b recs with Some y => y | None => 0 end + x)%Q
           recs.

(** Lines 192-194: the inner loop over one neighbour's books. *)
Definition add_book (m : DataFrame) (student_id : string)
  (similarity_score : Q) (recs : Dict.t Q) (br : string * Q)
  : option (Dict.t Q) :=
  cell <- loc m student_id (fst br) ;;
  Some (if Qeq_bool cell 0 then add_to (fst br) (snd br * similarity_score) recs
        else recs).

(** Lines 189-194: the loop body for one neighbour. *)
Definition add_user (m s : DataFrame) (student_id : string)
  (recs : Dict.t Q) (user : string) : option (Dict.t Q) :=
  similarity_score <- loc s student_id user ;;
  user_books <- loc_row m user ;;
  foldM (add_book m student_id similarity_score)
        (filter (fun br => Py.Qltb 0 (snd br)) user_books) recs.

(** Line 185: [nlargest(6).index[1:]]. *)
Definition similar_users (col : Series) : list string :=
  map fst (Py.drop_first (nlargest 6 col)).

(** [recommend], lines 172-200. *)
Definition recommend (self : t) (student_id : string) (n_recommendations : Z)
  : option (list (string * Q)) :=
  match user_item_matrix self with
  | None => Some []
  | Some m =>
      if negb (Py.mem student_id (df_index m)) then
        let popularity := sum_axis0 m in
        Some (nlargest n_recommendations popularity)
      else
        match user_similarity_matrix self with
        | Some s =>
            col <- column s student_id ;;
            recommendations <-
              foldM (add_user m s student_id) (similar_users col) Dict.empty ;;
            let sorted_recs := Py.sorted_desc snd recommendations in
            Some (Py.slice_to n_recommendations sorted_recs)
        | None => Some []
        end
  end.

End CollaborativeFilter.

(** ** ContentBasedFilter *)

Module ContentBasedFilter.

(** [book_features] is the TF-IDF matrix, one row per fitted book. *)
Record t := mk {
  book_features : option (list (list Q));
  book_ids : list string
}.

(** [__init__]. *)
Definition init : t := mk None [].

(** Line 219: the feature document of a book. *)
Definition feature_text (b : Book) : string :=
  (title b ++ " " ++ author b ++ " " ++ Py.join " " (genre b) ++ " "
   ++ Py.join " " (subject b) ++ " " ++ description b)%string.

Definition vadd (u v : list Q) : list Q :=
  map (fun p => (fst p + snd p)%Q) (combine u v).

(** [rows.mean(axis=0)]: the column means of a non-empty stack of rows. *)
Definition mean_axis0 (rows : list (list Q)) : list Q :=
  match rows with
  | [] => []
  | r :: rs =>
      map (fun x => (x / inject_Z (Z.of_nat (List.length rows)))%Q)
          (fold_left vadd rs r)
  end.

(** Lines 235-237: the positions of the last ten history ids that were
    fitted. *)
Definition history_indices (self : t) (student : Student) : list nat :=
  flat_map (fun id => match Py.index_of id (book_ids self) with
                      | Some i => [i]
                      | None => []
                      end)
           (Py.last_n 10 (reading_history student)).

(** Lines 251-254: one step of the loop over [enumerate(similarities)]. *)
Definition keep_unread (self : t) (student : Student)
  (recs : list (string * Q)) (ix : nat * Q) : option (list (string * Q)) :=
  id <- nth_error (book_ids self) (fst ix) ;;
  Some (if negb (Py.mem id (reading_history student))
        then (recs ++ [(id, snd ix)])%list else recs).

Section Fit.
(** [tfidf docs]: [TfidfVectorizer(max_features=1000,
    stop_words='english').fit_transform(docs)], one row per document. *)
Variable tfidf : list string -> list (list Q).

(** [fit], lines 210-226. *)
Definition fit (books : list Book) (self : t) : t :=
  let feature_texts := map feature_text books in
  mk (match feature_texts with
      | [] => book_features self
      | _ => Some (tfidf feature_texts)
      end)
     (map book_id books).
End Fit.

Section Recommend.
Variable cosine : list Q -> list Q -> Q.

(** [recommend], lines 228-257 ([books_dict] is not read). *)
Definition recommend (self : t) (student : Student)
  (n_recommendations : Z) : option (list (string * Q)) :=
  match book_features self with
  | None => Some []
  | Some features =>
      match reading_history student with
      | [] => Some []
      | _ =>
          match history_indices self student with
          | [] => Some []
          | indices =>
              history_vectors <- mapM (nth_error features) indices ;;
              let avg_profile := mean_axis0 history_vectors in
              let similarities := map (cosine avg_profile) features in
              recommendations <-
                foldM (keep_unread self student)
                      (combine (seq 0 (List.length similarities))
                               similarities) [] ;;
              Some (Py.slice_to n_recommendations
                      (Py.sorted_desc snd recommendations))
          end
      end
  end.
End Recommend.

End ContentBasedFilter.

(** ** SmartReadsRecommendationEngine *)

Module Engine.

Record t := mk {
  collaborative_filter : CollaborativeFilter.t;
  content_filter : ContentBasedFilter.t;
  books_catalog : Dict.t Book;
  students : Dict.t Student;
  borrowing_records : list BorrowingRecord
}.

(** [__init__]. *)
Definition init : t :=
  mk CollaborativeFilter.init ContentBasedFilter.init Dict.empty Dict.empty [].

(** Lines 350-351. *)
Definition store_books (books : list Book) (catalog : Dict.t Book)
  : Dict.t Book :=
  fold_left (fun c b => Dict.set (book_id b) b c) books catalog.

(** Lines 357-358. *)
Definition store_students (l : list Student) (store : Dict.t Student)
  : Dict.t Student :=
  fold_left (fun c s => Dict.set (student_id s) s c) l store.

(** Lines 367-369: [borrow_counts], a [defaultdict(int)]. *)
Definition count_borrow (counts : Dict.t Z) (r : BorrowingRecord)
  : Dict.t Z :=
  Dict.set (r_book_id r)
           (match Dict.get (r_book_id r) counts with
            | Some c => c
            | None => 0
            end + 1) counts.

Definition borrow_counts (records : list BorrowingRecord) : Dict.t Z :=
  fold_left count_borrow records Dict.empty.

(** Line 371: [max(borrow_counts.values()) if borrow_counts else 1]. *)
Definition max_count (counts : Dict.t Z) : Z :=
  match Dict.values counts with
  | [] => 1
  | c :: cs => fold_left Z.max cs c
  end.

(** Lines 372-374: the popularity of every counted book that is in the
    catalog is overwritten. *)
Definition update_popularity (counts : Dict.t Z) (catalog : Dict.t Book)
  : Dict.t Book :=
  fold_left
    (fun c kc =>
       match Dict.get (fst kc) c with
       | Some b =>
           Dict.set (fst kc)
             (set_popularity_score b
                (inject_Z (snd kc) / inject_Z (max_count counts))%Q) c
       | None => c
       end)
    (Dict.items counts) catalog.

(** [load_students], lines 355-359. *)
Definition load_students (l : list Student) (self : t) : t :=
  mk (collaborative_filter self) (content_filter self) (books_catalog self)
     (store_students l (students self)) (borrowing_records self).

(** Lines 453-462: the recommendation built for a popular book. *)
Definition popular_rec (b : Book) : Recommendation :=
  mkRec b (popularity_score b)
    "This is one of our most popular books that many students have enjoyed!"
    "popularity" 0.5%Q.

(** [_get_popular_books], lines 445-462. *)
Definition get_popular_books (self : t) (n : Z) : list Recommendation :=
  let popular_books :=
    Py.slice_to n
      (Py.sorted_desc popularity_score (Dict.values (books_catalog self))) in
  map popular_rec popular_books.

Definition history_len (student : Student) : Q :=
  inject_Z (Z.of_nat (List.length (reading_history student))).

Definition in_recs (id : string) (recs : list Recommendation) : bool :=
  existsb (fun r => String.eqb (book_id (book r)) id) recs.

(** Lines 392-402: one collaborative candidate. *)
Definition add_collab (self : t) (student : Student)
  (recs : list Recommendation) (c : string * Q) : list Recommendation :=
  match Dict.get (fst c) (books_catalog self) with
  | Some b =>
      let es := LLMRecommender.enhance_recommendation student b (snd c) in
      (recs ++ [mkRec b (fst es) (snd es) "collaborative"
                  (Py.min 1 (history_len student / 10)%Q)])%list
  | None => recs
  end.

(** Lines 406-418: one content candidate. *)
Definition add_content (self : t) (student : Student)
  (recs : list Recommendation) (c : string * Q) : list Recommendation :=
  match Dict.get (fst c) (books_catalog self) with
  | Some b =>
      if negb (in_recs (fst c) recs) then
        let es := LLMRecommender.enhance_recommendation student b (snd c) in
        (recs ++ [mkRec b (fst es) (snd es) "content"
                    (Py.min 1 (history_len student / 5)%Q)])%list
      else recs
  | None => recs
  end.

(** Lines 422-425: the genres of the history books found in the catalog. *)
Definition explored_genres (self : t) (student : Student) : list string :=
  Py.set_list
    (flat_map (fun id => match Dict.get id (books_catalog self) with
                         | Some b => genre b
                         | None => []
                         end)
              (reading_history student)).

Definition new_genres (explored : list string) (b : Book) : list string :=
  Py.set_diff (Py.set_list (genre b)) explored.

(** Lines 428-430: the test a catalog book passes to be appended. *)
Definition diverse (student : Student) (explored : list string) (b : Book)
  : bool :=
  negb (Py.mem (book_id b) (reading_history student))
  && (match new_genres explored b with [] => false | _ => true end
      && String.eqb (reading_level b) (s_reading_level student)).

(** Lines 431-437. *)
Definition diversity_rec (explored : list string) (b : Book)
  : Recommendation :=
  mkRec b (0.7 + popularity_score b * 0.3)%Q
    ("Explore a new genre: " ++ hd "" (new_genres explored b)
     ++ ". This highly-rated book will broaden your reading horizons.")%string
    "diversity" 0.6%Q.

(** Lines 427-439: the scan of the catalog, left by [break] as soon as the
    list has [n] entries. *)
Fixpoint diversity_scan (student : Student) (explored : list string) (n : Z)
  (books : list Book) (recs : list Recommendation) : list Recommendation :=
  match books with
  | [] => recs
  | b :: rest =>
      if diverse student explored b then
        let recs' := (recs ++ [diversity_rec explored b])%list in
        if n <=? Z.of_nat (List.length recs') then recs'
        else diversity_scan student explored n rest recs'
      else diversity_scan student explored n rest recs
  end.

(** Lines 420-439: strategy 3. *)
Definition diversity (self : t) (student : Student) (n : Z)
  (recs : list Recommendation) : list Recommendation :=
  if Z.of_nat (List.length recs) <? n then
    diversity_scan student (explored_genres self student) n
                   (Dict.values (books_catalog self)) recs
  else recs.

(** [get_analytics], lines 476-504. *)
Record Analytics := mkAnalytics {
  total_students : Z;
  total_books : Z;
  total_borrowing_records : Z;
  average_books_per_student : Q;
  genre_distribution : Dict.t Z;
  most_active_readers : list (string * Z);
  catalog_coverage : Q
}.

Definition incr (k : string) (d : Dict.t Z) : Dict.t Z :=
  Dict.set k (match Dict.get k d with Some c => c | None => 0 end + 1) d.

Definition get_analytics (self : t) : Analytics :=
  let total_students := Z.of_nat (List.length (students self)) in
  let total_books := Z.of_nat (List.length (books_catalog self)) in
  let total_borrows := Z.of_nat (List.length (borrowing_records self)) in
  let genre_distribution :=
    fold_left
      (fun d r => match Dict.get (r_book_id r) (books_catalog self) with
                  | Some b => fold_left (fun d g => incr g d) (genre b) d
                  | None => d
                  end)
      (borrowing_records self) Dict.empty in
  let student_activity :=
    fold_left (fun d r => incr (r_student_id r) d)
              (borrowing_records self) Dict.empty in
  let most_active :=
    Py.slice_to 5
      (Py.sorted_desc (fun x => inject_Z (snd x))
                      (Dict.items student_activity)) in
  mkAnalytics total_students total_books total_borrows
    (if 0 <? total_students
     then (inject_Z total_borrows / inject_Z total_students)%Q else 0%Q)
    genre_distribution most_active
    (if 0 <? total_books
     then (inject_Z
             (Z.of_nat
                (List.length
                   (Py.set_list (map r_book_id (borrowing_records self)))))
           / inject_Z total_books)%Q
     else 0%Q).

Section Oracles.
Variable tfidf : list string -> list (list Q).
Variable cosine : list Q -> list Q -> Q.

(** [load_catalog], lines 348-353. *)
Definition load_catalog (books : list Book) (self : t) : t :=
  mk (collaborative_filter self)
     (ContentBasedFilter.fit tfidf books (content_filter self))
     (store_books books (books_catalog self))
     (students self) (borrowing_records self).

(** [load_borrowing_history], lines 361-376. *)
Definition load_borrowing_history (records : list BorrowingRecord)
  (self : t) : t :=
  mk (CollaborativeFilter.fit cosine records (collaborative_filter self))
     (content_filter self)
     (update_popularity (borrow_counts records) (books_catalog self))
     (students self) records.

(** [recommend], lines 378-443. *)
Definition recommend (self : t) (student_id : string)
  (n_recommendations : Z) : option (list Recommendation) :=
  match Dict.get student_id (students self) with
  | None => Some (get_popular_books self n_recommendations)
  | Some student =>
      collab_recs <-
        CollaborativeFilter.recommend (collaborative_filter self)
          student_id (n_recommendations * 2) ;;
      let recs1 :=
        fold_left (add_collab self student)
          (Py.slice_to (n_recommendations / 2) collab_recs) [] in
      content_recs <-
        ContentBasedFilter.recommend cosine (content_filter self) student
          (n_recommendations * 2) ;;
      let recs2 :=
        fold_left (add_content self student)
          (Py.slice_to (n_recommendations / 2) content_recs) recs1 in
      let recs3 := diversity self student n_recommendations recs2 in
      Some (Py.slice_to n_recommendations (Py.sorted_desc score recs3))
  end.
End Oracles.

End Engine.

(** ** Well-formed fitted state

    Decidable checks of what [fit] establishes on a history with two users
    or more (lemmas [fit_frames] and [fit_fitted]).  A refit on a single
    user does not establish them: it leaves the similarity matrix of the
    earlier history behind. *)

Fixpoint nodupb (l : list string) : bool :=
  match l with
  | [] => true
  | x :: l' => negb (Py.mem x l') && nodupb l'
  end.

Definition list_eqb (a b : list string) : bool :=
  if list_eq_dec string_dec a b then true else false.

(** The frame is rectangular: one row per index label, one cell per column
    label, no label twice. *)
Definition frame_ok (df : DataFrame) : bool :=
  nodupb (df_index df) && nodupb (df_columns df)
  && list_eqb (Dict.keys (df_rows df)) (df_index df)
  && forallb (fun r => list_eqb (Dict.keys (snd r)) (df_columns df))
             (df_rows df).

(** The frame has a row labelled [u]. *)
Definition has_row (m : DataFrame) (u : string) : Prop :=
  Dict.get u (df_rows m) <> None.

(** A cell read where the label is known to exist. *)
Definition cell (df : DataFrame) (u b : string) : Q :=
  match loc df u b with Some v => v | None => 0%Q end.

(** Entries of a ranking: at or above the value [c], below it, and other
    than the user [t]. *)
Definition above (c : Q) (p : string * Q) : bool := Qle_bool c (snd p).
Definition below (c : Q) (p : string * Q) : bool := negb (above c p).
Definition other (t : string) (p : string * Q) : bool :=
  negb (String.eqb (fst p) t).

(** Users ranked at least as high as the target itself have no book the
    target lacks.  It follows from [fit] for a similarity that is [sharp]
    (lemma [fit_ties_inert]): cosine similarity reaches the value it has on
    the diagonal only for parallel rows, and no weight [fit] writes is 0,
    so such a row has the support of the target's row. *)
Definition ties_inert (m s : DataFrame) (t : string) : bool :=
  forallb
    (fun u =>
       implb (Qle_bool (cell s t t) (cell s u t))
             (forallb (fun b => implb (Py.Qltb 0 (cell m u b))
                                      (negb (Qeq_bool (cell m t b) 0)))
                      (df_columns m)))
    (df_index s).

Definition fitted (m s : DataFrame) (t : string) : bool :=
  frame_ok m && frame_ok s
  && list_eqb (df_index s) (df_index m)
  && list_eqb (df_columns s) (df_index s)
  && Py.mem t (df_index m)
  && ties_inert m s t.

(** What [ContentBasedFilter.fit] establishes when the vectoriser returns
    one row per document: the feature rows match the fitted ids, unless the
    last fit was on an empty catalog (which leaves the old rows behind). *)
Definition features_ok (self : ContentBasedFilter.t) : bool :=
  match ContentBasedFilter.book_features self with
  | None => true
  | Some f =>
      match ContentBasedFilter.book_ids self with
      | [] => true
      | ids => (List.length f =? List.length ids)%nat
      end
  end.

(** The feature rows form a matrix: they all have the width of the first
    one (a TF-IDF matrix has one column per vocabulary term). *)
Definition features_matrix (self : ContentBasedFilter.t) : bool :=
  match ContentBasedFilter.book_features self with
  | Some (r :: rs) =>
      forallb (fun r' => (List.length r' =? List.length r)%nat) rs
  | _ => true
  end.

(** ** Notions used by the statements about the stores and the tallies *)

(** How often [k] occurs in [l]. *)
Definition occurrences (k : string) (l : list string) : Z :=
  Z.of_nat (count_occ string_dec l k).

(** Every entry of a store is filed under its own id, and no id twice. *)
Definition store_ok {V} (id : V -> string) (d : Dict.t V) : Prop :=
  NoDup (Dict.keys d) /\ forall kv, In kv d -> id (snd kv) = fst kv.

(** The genres a borrowing record counts towards: those of its book, when
    the book is in the catalog. *)
Definition record_genres (catalog : Dict.t Book) (r : BorrowingRecord)
  : list string :=
  match Dict.get (r_book_id r) catalog with
  | Some b => genre b
  | None => []
  end.

(** A rating as the dataclass documents it (1-5), absent, or 0. *)
Definition valid_rating (r : BorrowingRecord) : Prop :=
  match rating r with
  | Some z => 0 <= z <= 5
  | None => True
  end.

(** The four strategy tags. *)
Definition strategy_tags : list string :=
  ["collaborative"; "content"; "diversity"; "popularity"].

(** The engines reachable from [__init__] by the three loaders. *)
Inductive loaded (tfidf : list string -> list (list Q))
  (cosine : list Q -> list Q -> Q) : Engine.t -> Prop :=
| loaded_init : loaded tfidf cosine Engine.init
| loaded_catalog books e :
    loaded tfidf cosine e ->
    loaded tfidf cosine (Engine.load_catalog tfidf books e)
| loaded_students l e :
    loaded tfidf cosine e ->
    loaded tfidf cosine (Engine.load_students l e)
| loaded_history records e :
    loaded tfidf cosine e ->
    loaded tfidf cosine (Engine.load_borrowing_history cosine records e).

(** ** The specification's wording of the two filters *)

Module Spec.

(** [find_last p l]: the last element of [l] satisfying [p]. *)
Definition find_last {A} (p : A -> bool) (l : list A) : option A :=
  find p (rev l).

(** The similarity of every user to the target, in index order. *)
Definition ranking (s : DataFrame) (t : string) : Series :=
  map (fun u => (u, cell s u t)) (df_index s).

(** "The 5 most similar other users (excluding self)". *)
Definition neighbours (s : DataFrame) (t : string) : list string :=
  map fst
      (firstn 5
         (Py.sorted_desc snd
            (filter (fun us => negb (String.eqb (fst us) t)) (ranking s t)))).

(** The neighbours that interacted with [b]. *)
Definition raters (m : DataFrame) (nbrs : list string) (b : string)
  : list string :=
  filter (fun u => Py.Qltb 0 (cell m u b)) nbrs.

(** "neighborWeight x similarity(target, neighbor)", one term per neighbour
    that interacted with the item. *)
Definition contributions (m s : DataFrame) (t : string)
  (nbrs : list string) (b : string) : list Q :=
  map (fun u => (cell m u b * cell s t u)%Q) (raters m nbrs b).

(** The accumulated score of an item: defined for the items some neighbour
    interacted with and the target has not. *)
Definition accumulated_score (m s : DataFrame) (t : string)
  (nbrs : list string) (b : string) : option Q :=
  if Py.mem b (df_columns m) && Qeq_bool (cell m t b) 0 then
    match raters m nbrs b with
    | [] => None
    | _ => Some (Qsum (contributions m s t nbrs b))
    end
  else None.

(** "Weight every item they interacted with (that the target user has not)
    by neighborWeight x similarity(target, neighbor)": what one neighbour
    adds to the running scores. *)
Definition credit (m s : DataFrame) (t : string) (recs : Dict.t Q)
  (u : string) : Dict.t Q :=
  fold_left
    (fun recs b =>
       if Py.Qltb 0 (cell m u b) && Qeq_bool (cell m t b) 0
       then CollaborativeFilter.add_to b (cell m u b * cell s t u)%Q recs
       else recs)
    (df_columns m) recs.

(** "... accumulating additively across neighbors sharing an item". *)
Definition accumulate (m s : DataFrame) (t : string) (nbrs : list string)
  : Dict.t Q :=
  fold_left (credit m s t) nbrs Dict.empty.

(** "Return the top n accumulated items sorted descending by accumulated
    score." *)
Definition collaborative (m s : DataFrame) (t : string) (n : Z)
  : list (string * Q) :=
  firstn (Z.to_nat n) (Py.sorted_desc snd (accumulate m s t (neighbours s t))).

(** "The last 10 history item ids": the first ten read backwards from the
    end, put back in reading order. *)
Definition last_ten (history : list string) : list string :=
  rev (firstn 10 (rev history)).

(** "Up to the last 10 history item ids present in the fitted vocabulary". *)
Definition recent_fitted (ids history : list string) : list string :=
  filter (fun id => Py.mem id ids) (last_ten history).

(** The feature vector of a fitted id: the row paired with the first
    occurrence of the id among the fitted ids. *)
Definition feature_of (ids : list string) (features : list (list Q))
  (id : string) : list Q :=
  match find (fun p => String.eqb id (fst p)) (combine ids features) with
  | Some p => snd p
  | None => []
  end.

(** Component [j] of every vector of a stack. *)
Definition component (j : nat) (rows : list (list Q)) : list Q :=
  map (fun r => nth j r 0%Q) rows.

(** The sum of the numbers of a list, taken from left to right. *)
Definition total (l : list Q) : Q :=
  match l with
  | [] => 0%Q
  | x :: xs => fold_left Qplus xs x
  end.

(** "Average their feature vectors into one profile vector": component by
    component, the sum over the vectors divided by their number. *)
Definition average (rows : list (list Q)) : list Q :=
  map (fun j => (total (component j rows)
                 / inject_Z (Z.of_nat (List.length rows)))%Q)
      (seq 0 (List.length (hd [] rows))).

Section Content.
Variable cosine : list Q -> list Q -> Q.

(** Section 4.2, [recommend]. *)
Definition content (self : ContentBasedFilter.t) (student : Student)
  (n : Z) : list (string * Q) :=
  match ContentBasedFilter.book_features self with
  | None => []
  | Some features =>
      let ids := ContentBasedFilter.book_ids self in
      match reading_history student with
      | [] => []
      | history =>
          match recent_fitted ids history with
          | [] => []
          | recent =>
              let profile :=
                average (map (feature_of ids features) recent) in
              firstn (Z.to_nat n)
                (Py.sorted_desc snd
                   (filter (fun p => negb (Py.mem (fst p) history))
                      (combine ids (map (cosine profile) features))))
          end
      end
  end.
End Content.

End Spec.

(** ** Concrete data for the closed examples *)

Module Examples.

Definition dot (u v : list Q) : Q :=
  Qsum (map (fun p => (fst p * snd p)%Q) (combine u v)).

(** The square root of a rational that is a square of a rational. *)
Definition exact_sqrt (q : Q) : option Q :=
  let r := Qred q in
  let n := Z.sqrt (Qnum r) in
  let d := Z.sqrt (Zpos (Qden r)) in
  if (n * n =? Qnum r) && (d * d =? Zpos (Qden r))
  then Some (n # Z.to_pos d) else None.

(** Cosine similarity as scikit-learn computes it (rows scaled to unit norm,
    a zero row left as it is, then the dot product), exact on rows whose
    norms are rational; such rows are the only ones it is applied to
    below. *)
Definition exact_cosine (u v : list Q) : Q :=
  match exact_sqrt (dot u u), exact_sqrt (dot v v) with
  | Some a, Some b =>
      if Qeq_bool (a * b) 0 then 0%Q else (dot u v / (a * b))%Q
  | _, _ => 0%Q
  end.

Definition a_book (id g lvl desc : string) : Book :=
  mkBook id id "Anon" "000" [g] [] lvl desc 2020 100 "English" 1 1 0%Q.

Definition a_student (id lvl : string) (history : list string) : Student :=
  mkStudent id 4 lvl ["Fantasy"] ["Dragons"] history.

Definition a_record (u b : string) (r : option Z) (c : bool)
  : BorrowingRecord :=
  mkRecord u b 0 None r c.

Definition bookX := a_book "X" "Fantasy" "3-5" "a tale of dragons".
Definition bookY := a_book "Y" "Mystery" "3-5" "a missing key".
Definition bookZ := a_book "Z" "Science" "6-8" "stars and planets".
Definition newcomer := a_student "S" "3-5" [].

End Examples.

Module Fixtures.
Import Examples.

(** The three stores after loading three books, one student and a history
    in which Y was borrowed twice and X once; the two fitted models are
    left as [__init__] makes them. *)
Definition library : Engine.t :=
  Engine.mk CollaborativeFilter.init ContentBasedFilter.init
    [("X", set_popularity_score bookX (1 # 2));
     ("Y", set_popularity_score bookY 1);
     ("Z", bookZ)]
    [("S", newcomer)]
    [a_record "U" "Y" None false; a_record "V" "Y" None false;
     a_record "U" "X" None false].

(** The three stores after [load_catalog([X])], [load_students([S])] and a
    history whose two records name books that are not in the catalog; the
    two fitted models, which [get_analytics] does not read, are left as
    [__init__] makes them. *)
Definition stray_history : Engine.t :=
  Engine.mk CollaborativeFilter.init ContentBasedFilter.init
    [("X", bookX)] [("S", newcomer)]
    [a_record "S" "Y" None false; a_record "S" "Z" None false].

End Fixtures.

Module Scenarios.
Import Examples.

Section Loaded.
Variable tfidf : list string -> list (list Q).
Variable cosine : list Q -> list Q -> Q.

(** [load_catalog([X])], [load_students([S])],
    [load_borrowing_history([U borrowed X])]: S is registered and has
    borrowed nothing yet. *)
Definition cold_start : Engine.t :=
  Engine.load_borrowing_history cosine [a_record "U" "X" None false]
    (Engine.load_students [newcomer]
       (Engine.load_catalog tfidf [bookX] Engine.init)).

(** [load_catalog([X, Y])], then a history in which only X was borrowed,
    then a second history in which only Y was. *)
Definition reloaded : Engine.t :=
  Engine.load_borrowing_history cosine [a_record "U" "Y" None false]
    (Engine.load_borrowing_history cosine [a_record "U" "X" None false]
       (Engine.load_catalog tfidf [bookX; bookY] Engine.init)).

(** [load_catalog([X])], [load_students([S])], and a history whose two
    records name books that are not in the catalog. *)
Definition stray : Engine.t :=
  Engine.load_borrowing_history cosine
    [a_record "S" "Y" None false; a_record "S" "Z" None false]
    (Engine.load_students [newcomer]
       (Engine.load_catalog tfidf [bookX] Engine.init)).
End Loaded.

(** Three fitted books with unit feature rows, and a reader of X. *)
Definition shelf : ContentBasedFilter.t :=
  ContentBasedFilter.mk (Some [[1; 0]; [0; 1]; [3 # 5; 4 # 5]]%Q)
                        ["X"; "Y"; "Z"].

Definition reader : Student := a_student "R" "3-5" ["X"].



(** Three borrowers: U3 and U1 borrowed X only, U2 rated X 3 and Y 4.  The
    index order puts U3, whose row equals U1's, in front of U1. *)
Definition trio_records : list BorrowingRecord :=
  [a_record "U3" "X" None false; a_record "U1" "X" None false;
   a_record "U2" "X" (Some 3) true; a_record "U2" "Y" (Some 4) true].

Definition trio : CollaborativeFilter.t :=
  CollaborativeFilter.fit_with exact_cosine ["U3"; "U1"; "U2"] ["X"; "Y"]
    trio_records CollaborativeFilter.init.

Definition trio_matrix : DataFrame :=
  CollaborativeFilter.fill trio_records
    (new_frame ["U3"; "U1"; "U2"] ["X"; "Y"]).

(** The same student borrowed X twice: first rated 5, later unrated and
    completed. *)
Definition twice : list BorrowingRecord :=
  [a_record "S" "X" (Some 5) true; a_record "S" "X" None true].

End Scenarios.

Module Reload.
Import Examples.

Section Loaded.
Variable tfidf : list string -> list (list Q).
Variable cosine : list Q -> list Q -> Q.

(** A history with two borrowers, then a second history with a single,
    different borrower C, who is a registered student. *)
Definition single_borrower : Engine.t :=
  Engine.load_borrowing_history cosine [a_record "C" "X" None false]
    (Engine.load_borrowing_history cosine
       [a_record "A" "X" None false; a_record "B" "Y" None false]
       (Engine.load_students [a_student "C" "3-5" ["X"]]
          (Engine.load_catalog tfidf [bookX; bookY] Engine.init))).

(** The collaborative filter alone: fitted on two borrowers, then refitted
    on the single borrower C. *)
Definition refitted : CollaborativeFilter.t :=
  CollaborativeFilter.fit cosine [a_record "C" "X" None false]
    (CollaborativeFilter.fit cosine
       [a_record "A" "X" None false; a_record "B" "Y" None false]
       CollaborativeFilter.init).
End Loaded.

End Reload.

(** ** Notions used by the statements about the interaction matrix *)

(** The weight the history gives a (student, book) pair: that of the last
    record of the pair, 0 when there is none. *)
Definition pair_weight (records : list BorrowingRecord) (u b : string) : Q :=
  match Spec.find_last (fun x => String.eqb (r_student_id x) u
                                 && String.eqb (r_book_id x) b) records with
  | Some r => CollaborativeFilter.record_value r
  | None => 0%Q
  end.

(** The weights of a book summed over the students of the history, in the
    order of the matrix rows. *)
Definition book_weight (records : list BorrowingRecord) (b : string) : Q :=
  Qsum (map (fun u => pair_weight records u b)
            (Py.set_list (map r_student_id records))).

(** ** Notions used by the statements about [recommend] *)

(** What a recommendation of the engine looks like: its book is a catalog
    entry, its confidence is in [0, 1], and its tag, score and confidence
    are those of one of the four strategies. *)
Definition rec_shape (e : Engine.t) (r : Recommendation) : Prop :=
  In (book r) (Dict.values (Engine.books_catalog e))
  /\ (0 <= confidence r <= 1)%Q
  /\ ((strategy r = "popularity"
       /\ score r = popularity_score (book r) /\ confidence r = 0.5%Q)
      \/ (strategy r = "collaborative" /\ (score r <= 1)%Q)
      \/ (strategy r = "content" /\ (score r <= 1)%Q)
      \/ (strategy r = "diversity"
          /\ score r = (0.7 + popularity_score (book r) * 0.3)%Q
          /\ confidence r = 0.6%Q)).

(** The row of a student and the column of a book in the interaction
    matrix, as the history determines them. *)
Definition student_weights (records : list BorrowingRecord) (u : string)
  : list Q :=
  map (pair_weight records u) (Py.set_list (map r_book_id records)).

Definition book_weights (records : list BorrowingRecord) (b : string)
  : list Q :=
  map (fun u => pair_weight records u b)
      (Py.set_list (map r_student_id records)).

(** ** Notions used by the statement that [recommend] returns *)

(** The similarity matrix, when there is one, belongs to the interaction
    matrix: both are rectangular and the similarity matrix is labelled, on
    both axes, by the users of the interaction matrix. *)
Definition similarity_current (self : CollaborativeFilter.t) : Prop :=
  match CollaborativeFilter.user_item_matrix self,
        CollaborativeFilter.user_similarity_matrix self with
  | Some m, Some s =>
      frame_ok m = true /\ frame_ok s = true
      /\ df_index s = df_index m /\ df_columns s = df_index s
  | _, _ => True
  end.

(** The engines reached from [__init__] by the three loaders when every
    history that is loaded has at least two distinct students, or is loaded
    while the collaborative filter has no similarity matrix yet. *)
Inductive loaded_afresh (tfidf : list string -> list (list Q))
  (cosine : list Q -> list Q -> Q) : Engine.t -> Prop :=
| afresh_init : loaded_afresh tfidf cosine Engine.init
| afresh_catalog books e :
    loaded_afresh tfidf cosine e ->
    loaded_afresh tfidf cosine (Engine.load_catalog tfidf books e)
| afresh_students l e :
    loaded_afresh tfidf cosine e ->
    loaded_afresh tfidf cosine (Engine.load_students l e)
| afresh_history records e :
    loaded_afresh tfidf cosine e ->
    CollaborativeFilter.user_similarity_matrix (Engine.collaborative_filter e)
    = None
    \/ (1 < List.length (Py.set_list (map r_student_id records)))%nat ->
    loaded_afresh tfidf cosine (Engine.load_borrowing_history cosine records e).

(** The entries of a list that carry the strategy tag [tag]. *)
Definition tagged (tag : string) (recs : list Recommendation)
  : list Recommendation :=
  filter (fun r => String.eqb (strategy r) tag) recs.

(** ** Notions used by the statements about current similarities *)

(** What the similarity oracle is assumed to share with cosine similarity:
    a row is at least as similar to a non-zero row [x] as [x] is to itself
    only if it is a positive multiple of [x], so it is positive only where
    [x] is not zero. *)
Definition sharp (cosine : list Q -> list Q -> Q) : Prop :=
  forall x y,
    List.length x = List.length y ->
    (exists a, In a x /\ ~ (a == 0)%Q) ->
    (cosine x x <= cosine y x)%Q ->
    forall j, (0 < nth j y 0)%Q -> ~ (nth j x 0 == 0)%Q.

(** The crudest similarity that is sharp: 1 on equal rows, 0 elsewhere. *)
Definition indicator (x y : list Q) : Q :=
  if forallb (fun p => Qeq_bool (fst p) (snd p)) (combine x y)
  then 1%Q else 0%Q.

(** * Properties *)

(** ** Comparisons on rationals *)

Lemma Qltb_lt (a b : Q) : Py.Qltb a b = true <-> (a < b)%Q.
Proof.
  unfold Py.Qltb. rewrite negb_true_iff.
  split; intro H.
  - apply Qnot_le_lt. intro Hle. apply Qle_bool_iff in Hle. congruence.
  - destruct (Qle_bool b a) eqn:E; [| reflexivity].
    apply Qle_bool_iff in E. exfalso. exact (Qlt_not_le _ _ H E).
Qed.

Lemma Qltb_ge (a b : Q) : Py.Qltb a b = false <-> (b <= a)%Q.
Proof.
  unfold Py.Qltb. rewrite negb_false_iff. apply Qle_bool_iff.
Qed.

Lemma py_min_Qmin (a b : Q) : (Py.min a b == Qmin a b)%Q.
Proof.
  unfold Py.min. destruct (Py.Qltb b a) eqn:E.
  - apply Qltb_lt in E. symmetry. apply Q.min_r. apply Qlt_le_weak. exact E.
  - apply Qltb_ge in E. symmetry. apply Q.min_l. exact E.
Qed.

Lemma py_min_le_l (a b : Q) : (Py.min a b <= a)%Q.
Proof. rewrite py_min_Qmin. apply Q.le_min_l. Qed.

(** ** Lists *)

Lemma filter_nil_existsb {A} (p : A -> bool) (l : list A) :
  match filter p l with [] => false | _ => true end = existsb p l.
Proof.
  induction l as [| x l IH]; simpl; [reflexivity |].
  destruct (p x); simpl; [reflexivity | exact IH].
Qed.

Lemma mem_In (x : string) (l : list string) : Py.mem x l = true <-> In x l.
Proof.
  unfold Py.mem. rewrite existsb_exists. split.
  - intros [y [Hy E]]. apply String.eqb_eq in E. subst. exact Hy.
  - intro H. exists x. split; [exact H | apply String.eqb_refl].
Qed.

Lemma mem_not_In (x : string) (l : list string) :
  Py.mem x l = false <-> ~ In x l.
Proof.
  rewrite <- mem_In. destruct (Py.mem x l); split; congruence.
Qed.

Lemma find_last_cons {A} (p : A -> bool) (x : A) (l : list A) :
  Spec.find_last p (x :: l) =
  match Spec.find_last p l with
  | Some y => Some y
  | None => if p x then Some x else None
  end.
Proof.
  unfold Spec.find_last. simpl.
  induction (rev l) as [| y r IH]; simpl; [reflexivity |].
  destruct (p y); [reflexivity | exact IH].
Qed.

(** ** Dictionaries *)

Section DictFacts.
Context {V : Type}.
Implicit Types (d : Dict.t V) (k : string) (v : V).

Lemma get_set_same k v d : Dict.get k (Dict.set k v d) = Some v.
Proof.
  induction d as [| [k' v'] d IH]; simpl.
  - rewrite String.eqb_refl. reflexivity.
  - destruct (String.eqb k k') eqn:E; simpl; rewrite E; auto.
Qed.

Lemma get_set_other k k' v d :
  k <> k' -> Dict.get k' (Dict.set k v d) = Dict.get k' d.
Proof.
  intro Hne. induction d as [| [k0 v0] d IH]; simpl.
  - apply String.eqb_neq in Hne. rewrite String.eqb_sym, Hne. reflexivity.
  - destruct (String.eqb k k0) eqn:E; simpl.
    + apply String.eqb_eq in E. subst k0.
      apply String.eqb_neq in Hne. rewrite String.eqb_sym, Hne.
      reflexivity.
    + rewrite IH. reflexivity.
Qed.

Lemma get_set k k' v d :
  Dict.get k' (Dict.set k v d) =
  if String.eqb k k' then Some v else Dict.get k' d.
Proof.
  destruct (String.eqb k k') eqn:E.
  - apply String.eqb_eq in E. subst. apply get_set_same.
  - apply String.eqb_neq in E. apply get_set_other. exact E.
Qed.

Lemma get_In_keys k d : Dict.get k d <> None <-> In k (Dict.keys d).
Proof.
  induction d as [| [k' v'] d IH]; simpl.
  - split; [congruence | tauto].
  - destruct (String.eqb k k') eqn:E.
    + apply String.eqb_eq in E. subst. split; [auto | congruence].
    + apply String.eqb_neq in E. rewrite IH. split; [auto |].
      intros [H | H]; [congruence | exact H].
Qed.

Lemma keys_set_present k v d :
  In k (Dict.keys d) -> Dict.keys (Dict.set k v d) = Dict.keys d.
Proof.
  induction d as [| [k' v'] d IH]; simpl; [tauto |].
  intro H. destruct (String.eqb k k') eqn:E; simpl; [reflexivity |].
  f_equal. apply IH. destruct H as [H | H]; [| exact H].
  apply String.eqb_neq in E. congruence.
Qed.

End DictFacts.

(** ** Score Enhancer *)

Section Enhancer.
Import LLMRecommender.
Variables (student : Student) (b : Book).

Lemma genre_rule_boost acc :
  fst (genre_rule student b acc)
  = (if genre_match student b then fst acc + 0.1 else fst acc)%Q.
Proof.
  unfold genre_rule, genre_match.
  rewrite <- filter_nil_existsb.
  destruct (filter _ (genre b)); reflexivity.
Qed.

Lemma level_rule_boost acc :
  fst (level_rule student b acc)
  = (if level_match student b then fst acc + 0.05 else fst acc)%Q.
Proof.
  unfold level_rule, level_match.
  destruct (String.eqb _ _); reflexivity.
Qed.

Lemma interest_rule_boost acc :
  fst (interest_rule student b acc)
  = (if interest_match student b then fst acc + 0.15 else fst acc)%Q.
Proof.
  unfold interest_rule, interest_match, Py.set_inter.
  rewrite <- filter_nil_existsb.
  destruct (filter _ (interest_keywords student)); reflexivity.
Qed.

Lemma score_boost_sum :
  (fst (interest_rule student b
          (level_rule student b (genre_rule student b (0, []))))
   == applicable_boosts student b)%Q.
Proof.
  rewrite interest_rule_boost, level_rule_boost, genre_rule_boost.
  unfold applicable_boosts. simpl fst.
  destruct (genre_match student b), (level_match student b),
           (interest_match student b); ring.
Qed.

Lemma applicable_boosts_nonneg : (0 <= applicable_boosts student b)%Q.
Proof.
  unfold applicable_boosts.
  destruct (genre_match student b), (level_match student b),
           (interest_match student b); vm_compute; discriminate.
Qed.
End Enhancer.

(** C2, as amended: the adjusted score is [min(1.0, baseScore + boosts)]
    with the boosts +0.10 (genre), +0.05 (reading level), +0.15 (interest
    word); it never exceeds 1.0, and it is at least [min(baseScore, 1.0)],
    that is, at least [baseScore] whenever [baseScore <= 1.0]. *)
Theorem C2_enhanced_score (student : Student) (b : Book) (base_score : Q) :
  (fst (LLMRecommender.mock_llm_enhancement student b base_score)
   == Qmin 1 (base_score + LLMRecommender.applicable_boosts student b))%Q
  /\ (fst (LLMRecommender.mock_llm_enhancement student b base_score) <= 1)%Q
  /\ (Qmin base_score 1
      <= fst (LLMRecommender.mock_llm_enhancement student b base_score))%Q.
Proof.
  unfold LLMRecommender.mock_llm_enhancement. simpl fst.
  pose proof (score_boost_sum student b) as Hs.
  pose proof (applicable_boosts_nonneg student b) as Hp.
  set (boost := fst _) in *.
  split; [| split].
  - rewrite py_min_Qmin. rewrite Hs. reflexivity.
  - apply py_min_le_l.
  - rewrite py_min_Qmin. rewrite Hs.
    apply Q.min_glb.
    + apply Q.le_min_r.
    + apply Qle_trans with base_score; [apply Q.le_min_l | lra].
Qed.

(** C2, as stated, fails: a base score above 1.0 (a cold-start column sum,
    here 3/2) comes back as 1.0, below the base score. *)
Lemma C2_base_above_one_decreases :
  (fst (LLMRecommender.mock_llm_enhancement
          Examples.newcomer Examples.bookX (3 # 2)) < 3 # 2)%Q.
Proof. vm_compute. reflexivity. Qed.

(** ** Loading the stores *)

Lemma store_get {V} (key : V -> string) (l : list V) (d : Dict.t V)
  (k : string) :
  Dict.get k (fold_left (fun c x => Dict.set (key x) x c) l d)
  = match Spec.find_last (fun x => String.eqb (key x) k) l with
    | Some x => Some x
    | None => Dict.get k d
    end.
Proof.
  revert d. induction l as [| x l IH]; intro d; simpl; [reflexivity |].
  rewrite IH, find_last_cons, get_set.
  destruct (Spec.find_last _ l); [reflexivity |].
  destruct (String.eqb (key x) k); reflexivity.
Qed.

(** C3, as amended: a load merges into its store.  After
    [load_catalog(items)] an id bound by some item of the call is bound to
    the last such item, and every other id keeps the entry it had before the
    call; likewise for [load_students]. *)
Theorem C3_load_merges (tfidf : list string -> list (list Q))
  (books : list Book) (users : list Student) (e : Engine.t) (k : string) :
  Dict.get k (Engine.books_catalog (Engine.load_catalog tfidf books e))
  = match Spec.find_last (fun b => String.eqb (book_id b) k) books with
    | Some b => Some b
    | None => Dict.get k (Engine.books_catalog e)
    end
  /\ Dict.get k (Engine.students (Engine.load_students users e))
     = match Spec.find_last (fun s => String.eqb (student_id s) k) users with
       | Some s => Some s
       | None => Dict.get k (Engine.students e)
       end.
Proof.
  split; simpl.
  - apply (store_get book_id).
  - apply (store_get student_id).
Qed.

(** C3, as stated, fails: a student loaded by an earlier call is still in
    the store after a second call that does not mention them. *)
Lemma C3_earlier_student_survives :
  Dict.keys
    (Engine.students
       (Engine.load_students [Examples.a_student "T" "6-8" []]
          (Engine.load_students [Examples.newcomer] Engine.init)))
  = ["S"; "T"].
Proof. reflexivity. Qed.

(** ** Sorting *)

Section SortFacts.
Context {A : Type} (key : A -> Q).

Lemma insert_desc_perm x l : Permutation (Py.insert_desc key x l) (x :: l).
Proof.
  induction l as [| y l IH]; simpl; [reflexivity |].
  destruct (Py.Qltb (key x) (key y)); [| reflexivity].
  rewrite IH. apply perm_swap.
Qed.

Lemma sorted_desc_perm l : Permutation (Py.sorted_desc key l) l.
Proof.
  induction l as [| x l IH]; simpl; [reflexivity |].
  rewrite insert_desc_perm. constructor. exact IH.
Qed.

Lemma insert_desc_sorted x l :
  StronglySorted (Py.desc key) l -> StronglySorted (Py.desc key) (Py.insert_desc key x l).
Proof.
  induction l as [| y l IH]; intro Hs; simpl.
  - constructor; constructor.
  - inversion Hs as [| ? ? Hl Hy]; subst.
    destruct (Py.Qltb (key x) (key y)) eqn:E.
    + constructor; [apply IH; exact Hl |].
      eapply Permutation_Forall; [symmetry; apply insert_desc_perm |].
      constructor; [| exact Hy].
      apply Qltb_lt in E. apply Qlt_le_weak. exact E.
    + apply Qltb_ge in E.
      constructor; [exact Hs |].
      constructor; [exact E |].
      eapply Forall_impl; [| exact Hy].
      intros z Hz. unfold Py.desc in *. eapply Qle_trans; eassumption.
Qed.

Lemma sorted_desc_sorted l : StronglySorted (Py.desc key) (Py.sorted_desc key l).
Proof.
  induction l as [| x l IH]; simpl; [constructor |].
  apply insert_desc_sorted. exact IH.
Qed.

Lemma insert_desc_head x l :
  Forall (fun z => (key z <= key x)%Q) l -> Py.insert_desc key x l = x :: l.
Proof.
  destruct l as [| y l]; intro H; simpl; [reflexivity |].
  inversion H; subst.
  assert (E : Py.Qltb (key x) (key y) = false) by (apply Qltb_ge; assumption).
  rewrite E. reflexivity.
Qed.

(** Stability: inserting into a sorted list commutes with filtering. *)
Lemma insert_desc_filter (p : A -> bool) x l :
  StronglySorted (Py.desc key) l ->
  filter p (Py.insert_desc key x l)
  = if p x then Py.insert_desc key x (filter p l) else filter p l.
Proof.
  induction l as [| y l IH]; intro Hs.
  - simpl. destruct (p x); reflexivity.
  - inversion Hs as [| ? ? Hl Hy]; subst. simpl.
    destruct (Py.Qltb (key x) (key y)) eqn:E.
    + simpl. rewrite (IH Hl).
      destruct (p y), (p x); simpl; try rewrite E; reflexivity.
    + apply Qltb_ge in E.
      assert (Hall : Forall (fun z => (key z <= key x)%Q) (y :: l)).
      { constructor; [exact E |].
        eapply Forall_impl; [| exact Hy].
        intros z Hz. unfold Py.desc in Hz. eapply Qle_trans; eassumption. }
      change (filter p (x :: y :: l)
              = if p x then Py.insert_desc key x (filter p (y :: l))
                else filter p (y :: l)).
      remember (y :: l) as yl eqn:Eyl. simpl.
      destruct (p x); [| reflexivity].
      symmetry. apply insert_desc_head.
      apply Forall_forall. intros z Hz. apply filter_In in Hz.
      rewrite Forall_forall in Hall. apply Hall. tauto.
Qed.

Lemma sorted_desc_filter (p : A -> bool) l :
  filter p (Py.sorted_desc key l) = Py.sorted_desc key (filter p l).
Proof.
  induction l as [| x l IH]; simpl; [reflexivity |].
  rewrite insert_desc_filter by apply sorted_desc_sorted.
  destruct (p x); simpl; rewrite IH; reflexivity.
Qed.
End SortFacts.

(** ** Slices *)

Lemma firstn_In {A} (n : nat) (l : list A) (x : A) :
  In x (firstn n l) -> In x l.
Proof.
  intro H. rewrite <- (firstn_skipn n l). apply in_or_app. left. exact H.
Qed.

Lemma slice_to_firstn {A} (n : Z) (l : list A) :
  0 <= n -> Py.slice_to n l = firstn (Z.to_nat n) l.
Proof.
  intro H. unfold Py.slice_to.
  destruct (0 <=? n) eqn:E; [reflexivity | lia].
Qed.

(** ** Cold start on the popularity order *)

(** C6: for a student id that is not in the user store, [recommend] returns
    (without raising) the first [n] catalog books in descending popularity
    order, each as a "popularity" recommendation whose score is the book's
    popularity score and whose confidence is 0.5. *)
Theorem C6_unknown_student (cosine : list Q -> list Q -> Q) (e : Engine.t)
  (sid : string) (n : Z) :
  Dict.get sid (Engine.students e) = None ->
  0 <= n ->
  Engine.recommend cosine e sid n
  = Some (map Engine.popular_rec
            (firstn (Z.to_nat n)
               (Py.sorted_desc popularity_score
                  (Dict.values (Engine.books_catalog e)))))
  /\ Permutation
       (Py.sorted_desc popularity_score (Dict.values (Engine.books_catalog e)))
       (Dict.values (Engine.books_catalog e))
  /\ StronglySorted (Py.desc popularity_score)
       (Py.sorted_desc popularity_score (Dict.values (Engine.books_catalog e)))
  /\ forall b : Book,
       strategy (Engine.popular_rec b) = "popularity"
       /\ score (Engine.popular_rec b) = popularity_score b
       /\ book (Engine.popular_rec b) = b
       /\ (confidence (Engine.popular_rec b) == 0.5)%Q.
Proof.
  intros Hun Hn. repeat split.
  - unfold Engine.recommend. rewrite Hun.
    unfold Engine.get_popular_books. rewrite slice_to_firstn by exact Hn.
    reflexivity.
  - apply sorted_desc_perm.
  - apply sorted_desc_sorted.
Qed.

Lemma C6_unknown_student_witness :
  Engine.recommend Examples.exact_cosine Fixtures.library "nobody" 2
  = Some [Engine.popular_rec (set_popularity_score Examples.bookY 1);
          Engine.popular_rec (set_popularity_score Examples.bookX (1 # 2))].
Proof.
  apply (proj1 (C6_unknown_student Examples.exact_cosine Fixtures.library
                  "nobody" 2 eq_refl ltac:(lia))).
Defined.

(** ** Diversity fallback *)

Lemma diversity_scan_spec (student : Student) (explored : list string)
  (n : Z) (books : list Book) (recs : list Recommendation) :
  Z.of_nat (List.length recs) < n ->
  Engine.diversity_scan student explored n books recs
  = (recs ++ firstn (Z.to_nat n - List.length recs)
               (map (Engine.diversity_rec explored)
                    (filter (Engine.diverse student explored) books)))%list.
Proof.
  revert recs. induction books as [| b books IH]; intros recs Hlt; simpl.
  - rewrite firstn_nil, app_nil_r. reflexivity.
  - destruct (Engine.diverse student explored b); simpl.
    + rewrite length_app. simpl.
      replace (Z.to_nat n - List.length recs)%nat
        with (S (Z.to_nat n - (List.length recs + 1)))%nat by lia.
      simpl.
      destruct (n <=? Z.of_nat (List.length recs + 1)) eqn:E.
      * apply Z.leb_le in E.
        replace (Z.to_nat n - (List.length recs + 1))%nat with 0%nat by lia.
        reflexivity.
      * apply Z.leb_gt in E.
        rewrite IH by (rewrite length_app; simpl; lia).
        rewrite length_app. simpl. rewrite <- app_assoc. reflexivity.
    + apply IH. exact Hlt.
Qed.

Lemma set_list_In (x : string) (l : list string) :
  In x (Py.set_list l) <-> In x l.
Proof.
  induction l as [| y l IH]; simpl; [tauto |].
  rewrite filter_In, IH, negb_true_iff.
  destruct (string_dec y x) as [-> | Hne]; [tauto |].
  apply String.eqb_neq in Hne. rewrite Hne. tauto.
Qed.

Lemma explored_genres_In (e : Engine.t) (student : Student) (g : string) :
  In g (Engine.explored_genres e student)
  <-> exists id b, In id (reading_history student)
                   /\ Dict.get id (Engine.books_catalog e) = Some b
                   /\ In g (genre b).
Proof.
  unfold Engine.explored_genres. rewrite set_list_In, in_flat_map. split.
  - intros [id [Hid Hg]].
    destruct (Dict.get id (Engine.books_catalog e)) as [b |] eqn:E;
      [| contradiction].
    exists id, b. auto.
  - intros [id [b [Hid [E Hg]]]]. exists id. rewrite E. auto.
Qed.

Lemma diverse_spec (student : Student) (explored : list string) (b : Book) :
  Engine.diverse student explored b = true
  <-> ~ In (book_id b) (reading_history student)
      /\ (exists g, In g (genre b) /\ ~ In g explored)
      /\ reading_level b = s_reading_level student.
Proof.
  unfold Engine.diverse, Engine.new_genres, Py.set_diff.
  rewrite !andb_true_iff, negb_true_iff, mem_not_In, String.eqb_eq.
  assert (Hg : match filter (fun x => negb (Py.mem x explored))
                            (Py.set_list (genre b)) with
               | [] => false | _ => true end = true
               <-> exists g, In g (genre b) /\ ~ In g explored).
  { rewrite filter_nil_existsb, existsb_exists.
    split; intros [g [H1 H2]]; exists g.
    - apply (proj1 (set_list_In g (genre b))) in H1.
      apply negb_true_iff, mem_not_In in H2. auto.
    - rewrite set_list_In, negb_true_iff, mem_not_In. auto. }
  rewrite Hg. tauto.
Qed.

(** C7: the diversity fallback leaves the list alone unless it is shorter
    than [n]; otherwise it appends, in catalog order and without sorting,
    one "diversity" recommendation (score 0.7 + 0.3 x popularity,
    confidence 0.6) per catalog book that is not in the student's history,
    is at the student's reading level and has a genre outside the genres of
    the history books, and it stops when the list has [n] entries. *)
Theorem C7_diversity_fallback (e : Engine.t) (student : Student) (n : Z)
  (recs : list Recommendation) :
  Engine.diversity e student n recs
  = (if Z.of_nat (List.length recs) <? n
     then recs
          ++ firstn (Z.to_nat n - List.length recs)
               (map (Engine.diversity_rec (Engine.explored_genres e student))
                  (filter
                     (Engine.diverse student (Engine.explored_genres e student))
                     (Dict.values (Engine.books_catalog e))))
     else recs)%list
  /\ (forall b : Book,
        Engine.diverse student (Engine.explored_genres e student) b = true
        <-> ~ In (book_id b) (reading_history student)
            /\ (exists g, In g (genre b)
                  /\ ~ exists id b', In id (reading_history student)
                       /\ Dict.get id (Engine.books_catalog e) = Some b'
                       /\ In g (genre b'))
            /\ reading_level b = s_reading_level student)
  /\ (forall (explored : list string) (b : Book),
        book (Engine.diversity_rec explored b) = b
        /\ (score (Engine.diversity_rec explored b)
            == 0.7 + 0.3 * popularity_score b)%Q
        /\ strategy (Engine.diversity_rec explored b) = "diversity"
        /\ (confidence (Engine.diversity_rec explored b) == 0.6)%Q).
Proof.
  split; [| split].
  - unfold Engine.diversity.
    destruct (Z.of_nat (List.length recs) <? n) eqn:E; [| reflexivity].
    apply diversity_scan_spec. lia.
  - intro b. rewrite diverse_spec.
    split; intros [H1 [[g [Hg Hn]] H3]]; (split; [exact H1 | split; [| exact H3]]);
      exists g; (split; [exact Hg |]); intro H; apply Hn;
      apply explored_genres_In; exact H.
  - intros explored b. simpl. repeat split; try reflexivity. ring.
Qed.

(** ** Analytics *)

Lemma set_list_NoDup (l : list string) : NoDup (Py.set_list l).
Proof.
  induction l as [| x l IH]; simpl; constructor.
  - rewrite filter_In, String.eqb_refl. simpl. intros [_ H]. discriminate.
  - apply NoDup_filter. exact IH.
Qed.

Lemma inject_Z_div_nonneg (a b : Z) :
  0 <= a -> 0 < b -> (0 <= inject_Z a / inject_Z b)%Q.
Proof.
  intros Ha Hb. apply Qle_shift_div_l.
  - change 0%Q with (inject_Z 0). rewrite <- Zlt_Qlt. exact Hb.
  - rewrite Qmult_0_l. change 0%Q with (inject_Z 0). rewrite <- Zle_Qle.
    exact Ha.
Qed.

Lemma inject_Z_div_le_1 (a b : Z) :
  a <= b -> 0 < b -> (inject_Z a / inject_Z b <= 1)%Q.
Proof.
  intros Ha Hb. apply Qle_shift_div_r.
  - change 0%Q with (inject_Z 0). rewrite <- Zlt_Qlt. exact Hb.
  - rewrite Qmult_1_l. rewrite <- Zle_Qle. exact Ha.
Qed.

(** [get_analytics] reads the three stores only. *)
Lemma get_analytics_stores (e e' : Engine.t) :
  Engine.books_catalog e = Engine.books_catalog e' ->
  Engine.students e = Engine.students e' ->
  Engine.borrowing_records e = Engine.borrowing_records e' ->
  Engine.get_analytics e = Engine.get_analytics e'.
Proof.
  intros Hc Hs Hr. unfold Engine.get_analytics. rewrite Hc, Hs, Hr.
  reflexivity.
Qed.

(** Whatever the two library calls return, the analytics of the loaded
    engine of [Scenarios.stray] are those of the fixture. *)
Lemma stray_analytics (tfidf : list string -> list (list Q))
  (cosine : list Q -> list Q -> Q) :
  Engine.get_analytics (Scenarios.stray tfidf cosine)
  = Engine.get_analytics Fixtures.stray_history.
Proof. apply get_analytics_stores; reflexivity. Qed.

(** C9, as amended: [average_books_per_student] is total borrows / total
    students, and 0 with no students; [catalog_coverage] is the number of
    distinct book ids in the history / total books, and 0 with no books;
    both are non-negative, and the coverage is at most 1 when every record
    of the history names a book of the catalog. *)
Theorem C9_analytics (e : Engine.t) :
  Engine.total_students (Engine.get_analytics e)
  = Z.of_nat (List.length (Engine.students e))
  /\ Engine.total_books (Engine.get_analytics e)
     = Z.of_nat (List.length (Engine.books_catalog e))
  /\ Engine.total_borrowing_records (Engine.get_analytics e)
     = Z.of_nat (List.length (Engine.borrowing_records e))
  /\ Engine.average_books_per_student (Engine.get_analytics e)
     = (if Engine.total_students (Engine.get_analytics e) =? 0 then 0%Q
        else (inject_Z (Engine.total_borrowing_records (Engine.get_analytics e))
              / inject_Z (Engine.total_students (Engine.get_analytics e)))%Q)
  /\ (exists distinct : list string,
        NoDup distinct
        /\ (forall id, In id distinct
                       <-> exists r, In r (Engine.borrowing_records e)
                                     /\ r_book_id r = id)
        /\ Engine.catalog_coverage (Engine.get_analytics e)
           = (if Engine.total_books (Engine.get_analytics e) =? 0 then 0%Q
              else (inject_Z (Z.of_nat (List.length distinct))
                    / inject_Z (Engine.total_books (Engine.get_analytics e)))%Q))
  /\ (0 <= Engine.average_books_per_student (Engine.get_analytics e))%Q
  /\ (0 <= Engine.catalog_coverage (Engine.get_analytics e))%Q
  /\ ((forall r, In r (Engine.borrowing_records e) ->
                 Dict.mem (r_book_id r) (Engine.books_catalog e) = true) ->
      (Engine.catalog_coverage (Engine.get_analytics e) <= 1)%Q).
Proof.
  unfold Engine.get_analytics; cbn [Engine.total_students Engine.total_books
    Engine.total_borrowing_records Engine.average_books_per_student
    Engine.catalog_coverage].
  set (ns := Z.of_nat (List.length (Engine.students e))).
  set (nb := Z.of_nat (List.length (Engine.books_catalog e))).
  set (nr := Z.of_nat (List.length (Engine.borrowing_records e))).
  set (distinct := Py.set_list (map r_book_id (Engine.borrowing_records e))).
  assert (Hns : 0 <= ns) by (unfold ns; lia).
  assert (Hnb : 0 <= nb) by (unfold nb; lia).
  assert (Hnr : 0 <= nr) by (unfold nr; lia).
  repeat match goal with |- _ /\ _ => split end; try reflexivity.
  - destruct (ns =? 0) eqn:E0; destruct (0 <? ns) eqn:E1; try reflexivity; lia.
  - exists distinct. split; [apply set_list_NoDup | split].
    + intro id. unfold distinct. rewrite set_list_In, in_map_iff.
      split; intros [r [H1 H2]]; exists r; auto.
    + destruct (nb =? 0) eqn:E0; destruct (0 <? nb) eqn:E1;
        try reflexivity; lia.
  - destruct (0 <? ns) eqn:E; [| apply Qle_refl].
    apply inject_Z_div_nonneg; lia.
  - destruct (0 <? nb) eqn:E; [| apply Qle_refl].
    apply inject_Z_div_nonneg; lia.
  - intro Hin. destruct (0 <? nb) eqn:E; [| discriminate].
    apply inject_Z_div_le_1; [| lia].
    unfold nb. apply inj_le.
    rewrite <- (length_map fst (Engine.books_catalog e)).
    apply NoDup_incl_length; [apply set_list_NoDup |].
    intros id Hid. unfold distinct in Hid.
    apply set_list_In, in_map_iff in Hid. destruct Hid as [r [<- Hr]].
    apply (get_In_keys (r_book_id r) (Engine.books_catalog e)).
    specialize (Hin r Hr). unfold Dict.mem in Hin.
    destruct (Dict.get (r_book_id r) (Engine.books_catalog e)); congruence.
Qed.

Lemma C9_analytics_witness :
  (Engine.catalog_coverage (Engine.get_analytics Fixtures.library) <= 1)%Q.
Proof.
  refine (proj2 (proj2 (proj2 (proj2 (proj2 (proj2 (proj2
            (C9_analytics Fixtures.library))))))) _).
  intros r Hr. simpl in Hr.
  destruct Hr as [<- | [<- | [<- | []]]]; reflexivity.
Defined.

(** C9, as stated, fails: with one book in the catalog and two other books
    in the history the coverage is 2. *)
Lemma C9_coverage_above_one :
  (1 < Engine.catalog_coverage (Engine.get_analytics Fixtures.stray_history))%Q.
Proof. vm_compute. reflexivity. Qed.

(** ** The interaction matrix *)

Lemma get_map_key {V} (f : string -> V) (l : list string) (k : string) :
  Dict.get k (map (fun x => (x, f x)) l)
  = if Py.mem k l then Some (f k) else None.
Proof.
  induction l as [| x l IH]; simpl; [reflexivity |].
  destruct (String.eqb k x) eqn:E; simpl; [| exact IH].
  apply String.eqb_eq in E. subst. reflexivity.
Qed.

Lemma new_frame_has_row (index columns : list string) (u : string) :
  In u index -> has_row (new_frame index columns) u.
Proof.
  intro H. unfold has_row, new_frame. simpl.
  rewrite (get_map_key (fun _ => map (fun b => (b, 0%Q)) columns)).
  apply mem_In in H. rewrite H. discriminate.
Qed.

Lemma loc_set_loc (m : DataFrame) (u b : string) (v : Q) (u' b' : string) :
  loc (set_loc m u b v) u' b'
  = match Dict.get u (df_rows m) with
    | Some _ => if String.eqb u u' && String.eqb b b' then Some v
                else loc m u' b'
    | None => loc m u' b'
    end.
Proof.
  unfold set_loc, loc, loc_row, bind.
  destruct (Dict.get u (df_rows m)) as [r |] eqn:G; [| reflexivity].
  simpl. rewrite get_set.
  destruct (String.eqb u u') eqn:E; simpl; [| reflexivity].
  apply String.eqb_eq in E. subst u'. rewrite G, get_set.
  destruct (String.eqb b b'); reflexivity.
Qed.

Lemma set_loc_has_row (m : DataFrame) (u b : string) (v : Q) (u' : string) :
  has_row m u' -> has_row (set_loc m u b v) u'.
Proof.
  unfold has_row, set_loc. intro H.
  destruct (Dict.get u (df_rows m)) as [r |] eqn:G; [| exact H].
  simpl. rewrite get_set. destruct (String.eqb u u'); [discriminate | exact H].
Qed.

(** After the filling loop a cell holds the value of the last record that
    addressed it, whatever the order of the labels. *)
Lemma fill_loc (records : list BorrowingRecord) (m : DataFrame)
  (u b : string) :
  has_row m u ->
  loc (CollaborativeFilter.fill records m) u b
  = match Spec.find_last
            (fun x => String.eqb (r_student_id x) u
                      && String.eqb (r_book_id x) b) records with
    | Some r => Some (CollaborativeFilter.record_value r)
    | None => loc m u b
    end.
Proof.
  unfold CollaborativeFilter.fill.
  revert m. induction records as [| r l IH]; intros m Hrow; [reflexivity |].
  simpl fold_left. rewrite IH by (apply set_loc_has_row; exact Hrow).
  rewrite find_last_cons.
  destruct (Spec.find_last _ l); [reflexivity |].
  rewrite loc_set_loc.
  destruct (String.eqb (r_student_id r) u) eqn:E; simpl.
  - apply String.eqb_eq in E. rewrite E.
    destruct (Dict.get u (df_rows m)) eqn:G; [| contradiction].
    destruct (String.eqb (r_book_id r) b); reflexivity.
  - destruct (Dict.get (r_student_id r) (df_rows m)); reflexivity.
Qed.

Lemma find_last_Some {A} (p : A -> bool) (l : list A) (x : A) :
  Spec.find_last p l = Some x -> In x l /\ p x = true.
Proof.
  unfold Spec.find_last. intro H. apply find_some in H.
  destruct H as [H1 H2]. split; [apply in_rev; exact H1 | exact H2].
Qed.

(** C10: when several records share a (student id, book id) pair, the cell
    of the user-item matrix built by [fit] holds the weight of the last of
    them in input order. *)
Theorem C10_last_record_wins (cosine : list Q -> list Q -> Q)
  (records : list BorrowingRecord) (self : CollaborativeFilter.t)
  (u b : string) (r : BorrowingRecord) :
  Spec.find_last
    (fun x => String.eqb (r_student_id x) u && String.eqb (r_book_id x) b)
    records = Some r ->
  (m <- CollaborativeFilter.user_item_matrix
          (CollaborativeFilter.fit cosine records self) ;;
   loc m u b)
  = Some (CollaborativeFilter.record_value r).
Proof.
  intro H. simpl. rewrite fill_loc.
  - rewrite H. reflexivity.
  - apply new_frame_has_row. apply set_list_In.
    apply find_last_Some in H. destruct H as [Hin Hp].
    apply andb_true_iff in Hp. destruct Hp as [Hu _].
    apply String.eqb_eq in Hu. subst u. apply in_map. exact Hin.
Qed.

Lemma C10_last_record_wins_witness :
  (m <- CollaborativeFilter.user_item_matrix
          (CollaborativeFilter.fit Examples.exact_cosine Scenarios.twice
             CollaborativeFilter.init) ;;
   loc m "S" "X")
  = Some 1.2%Q.
Proof.
  exact (C10_last_record_wins Examples.exact_cosine Scenarios.twice
           CollaborativeFilter.init "S" "X"
           (Examples.a_record "S" "X" None true) eq_refl).
Defined.

(** ** Reloading a history *)

(** C4 fails on a second history load: X, borrowed in the first history and
    absent from the second, keeps the popularity 1 of the first load, where
    the claim has 0. *)
Theorem C4_stale_popularity (tfidf : list string -> list (list Q))
  (cosine : list Q -> list Q -> Q) :
  map r_book_id
      (Engine.borrowing_records (Scenarios.reloaded tfidf cosine)) = ["Y"]
  /\ option_map (fun b => Qeq_bool (popularity_score b) 1)
       (Dict.get "X" (Engine.books_catalog (Scenarios.reloaded tfidf cosine)))
     = Some true.
Proof. split; reflexivity. Qed.

(** ** Duplicates in the final list *)

(** C1 fails for a registered student who has borrowed nothing: the
    collaborative cold start proposes X, the diversity fallback appends X
    again (it does not look at what is already in the list), and
    [recommend(S, 2)] returns X twice. *)
Theorem C1_duplicate_book (tfidf : list string -> list (list Q))
  (cosine : list Q -> list Q -> Q) :
  option_map (map (fun r => (book_id (book r), strategy r)))
    (Engine.recommend cosine (Scenarios.cold_start tfidf cosine) "S" 2)
  = Some [("X", "collaborative"); ("X", "diversity")].
Proof. reflexivity. Qed.

(** ** Content-based recommendations *)

Lemma index_of_spec (x : string) (l : list string) :
  match Py.index_of x l with
  | Some i => Py.mem x l = true /\ (i < List.length l)%nat
  | None => Py.mem x l = false
  end.
Proof.
  induction l as [| y l IH]; simpl; [reflexivity |].
  destruct (String.eqb x y); simpl; [split; [reflexivity | lia] |].
  destruct (Py.index_of x l); simpl; [| exact IH].
  destruct IH as [H1 H2]. split; [exact H1 | lia].
Qed.

Lemma mapM_Some {A B} (f : A -> option B) (g : A -> B) (l : list A) :
  (forall x, In x l -> f x = Some (g x)) -> mapM f l = Some (map g l).
Proof.
  induction l as [| x l IH]; intro H; simpl; [reflexivity |].
  rewrite (H x (or_introl eq_refl)). simpl.
  rewrite IH by (intros y Hy; apply H; right; exact Hy). reflexivity.
Qed.





(** *** The column means *)







(** [fit] stores a matrix when the vectoriser returns one. *)
Lemma fit_features_matrix (tfidf : list string -> list (list Q))
  (books : list Book) (self : ContentBasedFilter.t) :
  (forall docs r r', In r (tfidf docs) -> In r' (tfidf docs) ->
                     List.length r = List.length r') ->
  features_matrix self = true ->
  features_matrix (ContentBasedFilter.fit tfidf books self) = true.
Proof.
  intros Hrect Hself. unfold features_matrix, ContentBasedFilter.fit.
  cbn [ContentBasedFilter.book_features].
  destruct books as [| b books]; [exact Hself |].
  cbn [map]. set (docs := _ :: _).
  pose proof (Hrect docs) as Hd.
  destruct (tfidf docs) as [| r rs]; [reflexivity |].
  apply forallb_forall. intros r' Hr'. apply Nat.eqb_eq.
  apply Hd; [right; exact Hr' | left; reflexivity].
Qed.

Section ContentFacts.
Variable self : ContentBasedFilter.t.
Variable student : Student.

Let ids := ContentBasedFilter.book_ids self.




End ContentFacts.



(** ** Rectangular frames *)

Lemma nodupb_NoDup (l : list string) : nodupb l = true -> NoDup l.
Proof.
  induction l as [| x l IH]; simpl; intro H; constructor;
    apply andb_true_iff in H; destruct H as [H1 H2].
  - apply negb_true_iff, mem_not_In in H1. exact H1.
  - apply IH. exact H2.
Qed.

Lemma list_eqb_eq (a b : list string) : list_eqb a b = true -> a = b.
Proof.
  unfold list_eqb. destruct (list_eq_dec string_dec a b); congruence.
Qed.

Lemma get_Some_In {V} (k : string) (v : V) (d : Dict.t V) :
  Dict.get k d = Some v -> In (k, v) d.
Proof.
  induction d as [| [k' v'] d IH]; simpl; [discriminate |].
  destruct (String.eqb k k') eqn:E.
  - apply String.eqb_eq in E. intro H. injection H as ->. subst. auto.
  - auto.
Qed.

Lemma get_of_NoDup {V} (d : Dict.t V) (k : string) (v : V) :
  NoDup (Dict.keys d) -> In (k, v) d -> Dict.get k d = Some v.
Proof.
  induction d as [| [k' v'] d IH]; simpl; [tauto |].
  intros Hnd [H | H].
  - injection H as -> ->. rewrite String.eqb_refl. reflexivity.
  - inversion Hnd as [| ? ? Hk Hd]; subst.
    destruct (String.eqb k k') eqn:E.
    + apply String.eqb_eq in E. subst. exfalso. apply Hk.
      apply (in_map fst) in H. exact H.
    + apply IH; assumption.
Qed.

Section FrameFacts.
Variable df : DataFrame.
Hypothesis Hok : frame_ok df = true.

Lemma frame_ok_parts :
  NoDup (df_index df) /\ NoDup (df_columns df)
  /\ Dict.keys (df_rows df) = df_index df
  /\ forall r, In r (df_rows df) -> Dict.keys (snd r) = df_columns df.
Proof.
  unfold frame_ok in Hok. rewrite !andb_true_iff in Hok.
  destruct Hok as [[[H1 H2] H3] H4].
  repeat split.
  - apply nodupb_NoDup. exact H1.
  - apply nodupb_NoDup. exact H2.
  - apply list_eqb_eq. exact H3.
  - intros r Hr. rewrite forallb_forall in H4. apply list_eqb_eq.
    apply H4. exact Hr.
Qed.

Lemma loc_row_Some (u : string) :
  In u (df_index df) ->
  exists row, loc_row df u = Some row /\ Dict.keys row = df_columns df.
Proof.
  destruct frame_ok_parts as [_ [_ [Hk Hr]]]. intro Hu.
  rewrite <- Hk in Hu. apply get_In_keys in Hu. unfold loc_row.
  destruct (Dict.get u (df_rows df)) as [row |] eqn:G; [| congruence].
  exists row. split; [reflexivity |].
  apply get_Some_In in G. apply (Hr _ G).
Qed.

Lemma loc_cell (u b : string) :
  In u (df_index df) -> In b (df_columns df) ->
  loc df u b = Some (cell df u b).
Proof.
  intros Hu Hb. destruct (loc_row_Some u Hu) as [row [Hrow Hkeys]].
  unfold cell, loc. rewrite Hrow. simpl.
  rewrite <- Hkeys in Hb. apply get_In_keys in Hb.
  destruct (Dict.get b row); congruence.
Qed.

Lemma row_items (u : string) (row : Series) :
  loc_row df u = Some row ->
  row = map (fun b => (b, cell df u b)) (df_columns df).
Proof.
  intro Hrow. destruct frame_ok_parts as [_ [Hc [_ Hr]]].
  assert (Hkeys : Dict.keys row = df_columns df).
  { unfold loc_row in Hrow. apply get_Some_In in Hrow. apply (Hr _ Hrow). }
  rewrite <- Hkeys. unfold Dict.keys. rewrite map_map.
  rewrite <- (map_id row) at 1. apply map_ext_in.
  intros [k v] Hkv. simpl. f_equal.
  unfold cell, loc. rewrite Hrow. simpl.
  rewrite (get_of_NoDup row k v); [reflexivity | | exact Hkv].
  rewrite Hkeys. exact Hc.
Qed.
End FrameFacts.

(** ** Dropping the head of the ranking

    [nlargest(6).index[1:]] against "the 5 most similar others": the two
    lists agree once the entries ranked at least as high as the target are
    set aside. *)

Lemma filter_none {A} (p : A -> bool) (l : list A) :
  Forall (fun x => p x = false) l -> filter p l = [].
Proof.
  induction 1 as [| x l Hx _ IH]; simpl; [reflexivity |].
  rewrite Hx. exact IH.
Qed.

Lemma filter_all {A} (p : A -> bool) (l : list A) :
  Forall (fun x => p x = true) l -> filter p l = l.
Proof.
  induction 1 as [| x l Hx _ IH]; simpl; [reflexivity |].
  rewrite Hx, IH. reflexivity.
Qed.

Lemma fold_left_skip {A B} (f : B -> A -> B) (p : A -> bool) (l : list A) :
  (forall x, In x l -> p x = false -> forall acc, f acc x = acc) ->
  forall acc, fold_left f l acc = fold_left f (filter p l) acc.
Proof.
  induction l as [| x l IH]; intros H acc; simpl; [reflexivity |].
  destruct (p x) eqn:E; simpl.
  - apply IH. intros y Hy. apply H. right. exact Hy.
  - rewrite (H x (or_introl eq_refl) E).
    apply IH. intros y Hy. apply H. right. exact Hy.
Qed.

Section Ranking.
Variable t : string.
Variable c : Q.

Lemma sorted_split (l : Series) :
  StronglySorted (Py.desc snd) l -> l = (filter (above c) l ++ filter (below c) l)%list.
Proof.
  induction 1 as [| p l Hs IH Hall]; simpl; [reflexivity |].
  unfold below at 1. destruct (above c p) eqn:E; simpl.
  - f_equal. exact IH.
  - assert (Hb : Forall (fun q => above c q = false) l).
    { eapply Forall_impl; [| exact Hall]. intros q Hq.
      unfold above in *. unfold Py.desc in Hq.
      destruct (Qle_bool c (snd q)) eqn:Eq; [| reflexivity].
      apply Qle_bool_iff in Eq.
      assert (Hc : (c <= snd p)%Q) by (eapply Qle_trans; eassumption).
      apply Qle_bool_iff in Hc. congruence. }
    rewrite (filter_none (above c) l Hb). simpl. f_equal.
    symmetry. apply filter_all.
    eapply Forall_impl; [| exact Hb]. intros q Hq. unfold below.
    rewrite Hq. reflexivity.
Qed.

Lemma other_all (l : Series) : ~ In t (map fst l) -> filter (other t) l = l.
Proof.
  intro H. apply filter_all. apply Forall_forall. intros p Hp.
  unfold other. apply negb_true_iff, String.eqb_neq. intro E.
  apply H. rewrite <- E. apply in_map. exact Hp.
Qed.

Lemma count_other (l : Series) (v : Q) :
  NoDup (map fst l) -> In (t, v) l ->
  S (List.length (filter (other t) l)) = List.length l.
Proof.
  induction l as [| [k w] l IH]; simpl; [tauto |].
  intros Hnd Hin. inversion Hnd as [| ? ? Hk Hl]; subst.
  unfold other at 1. simpl.
  destruct (String.eqb k t) eqn:E; simpl.
  - apply String.eqb_eq in E. subst k. rewrite other_all by exact Hk.
    reflexivity.
  - f_equal. apply IH; [exact Hl |].
    destruct Hin as [Hin | Hin]; [| exact Hin].
    injection Hin as -> _. rewrite String.eqb_refl in E. discriminate.
Qed.

Lemma drop_head_filter (k : nat) (T T' R : Series) :
  Forall (fun p => above c p = true) T ->
  Forall (fun p => above c p = true) T' ->
  List.length T = S (List.length T') ->
  filter (below c) (tl (firstn (S k) (T ++ R)))
  = filter (below c) (firstn k (T' ++ R)).
Proof.
  intros HT HT' Hlen.
  destruct T as [| x T0]; [discriminate |]. simpl in Hlen.
  injection Hlen as Hlen. inversion HT as [| ? ? _ HT0]; subst.
  simpl. rewrite !firstn_app, !filter_app, Hlen.
  assert (Hnone : forall (X : Series),
            Forall (fun p => above c p = true) X ->
            filter (below c) (firstn k X) = []).
  { intros X HX. apply filter_none. apply Forall_forall. intros p Hp.
    apply firstn_In in Hp. rewrite Forall_forall in HX.
    unfold below. rewrite (HX p Hp). reflexivity. }
  rewrite (Hnone T0 HT0), (Hnone T' HT'). reflexivity.
Qed.

Lemma value_unique (l : Series) (k : string) (v w : Q) :
  NoDup (map fst l) -> In (k, v) l -> In (k, w) l -> v = w.
Proof.
  intros Hnd Hv Hw.
  apply (get_of_NoDup l k v Hnd) in Hv.
  apply (get_of_NoDup l k w Hnd) in Hw. congruence.
Qed.

Lemma neighbours_filter (l : Series) :
  NoDup (map fst l) -> In (t, c) l ->
  filter (below c) (tl (firstn 6 (Py.sorted_desc snd l)))
  = filter (below c) (firstn 5 (Py.sorted_desc snd (filter (other t) l))).
Proof.
  intros Hnd Hin.
  rewrite <- sorted_desc_filter.
  pose proof (sorted_desc_perm snd l) as Hperm.
  pose proof (sorted_desc_sorted snd l) as Hsorted.
  set (sl := Py.sorted_desc snd l) in *.
  assert (Hnd' : NoDup (map fst sl)).
  { eapply Permutation_NoDup; [| exact Hnd].
    apply Permutation_map. symmetry. exact Hperm. }
  assert (Hin' : In (t, c) sl).
  { eapply Permutation_in; [symmetry; exact Hperm | exact Hin]. }
  pose proof (sorted_split sl Hsorted) as Hsplit.
  set (T := filter (above c) sl) in *. set (R := filter (below c) sl) in *.
  assert (HT : Forall (fun p => above c p = true) T).
  { apply Forall_forall. intros p Hp. apply filter_In in Hp. tauto. }
  assert (HR : filter (other t) R = R).
  { apply other_all. intro Ht. apply in_map_iff in Ht.
    destruct Ht as [[k w] [Ek Hp]]. simpl in Ek. subst k.
    apply filter_In in Hp. destruct Hp as [Hp Hb].
    assert (w = c) by (eapply value_unique; eassumption). subst w.
    unfold below, above in Hb. simpl in Hb.
    assert (Hc : Qle_bool c c = true) by (apply Qle_bool_iff, Qle_refl).
    rewrite Hc in Hb. discriminate. }
  assert (Hlen : List.length T = S (List.length (filter (other t) T))).
  { pose proof (count_other sl c Hnd' Hin') as Hcount.
    rewrite Hsplit in Hcount at 1. rewrite filter_app, HR in Hcount.
    rewrite Hsplit in Hcount at 1.
    rewrite !length_app in Hcount. lia. }
  rewrite Hsplit, filter_app, HR.
  apply drop_head_filter; [exact HT | | exact Hlen].
  apply Forall_forall. intros p Hp. apply filter_In in Hp.
  rewrite Forall_forall in HT. apply HT. tauto.
Qed.
End Ranking.

(** ** Collaborative recommendations on a fitted model *)

Lemma foldM_Some {A S} (f : S -> A -> option S) (g : S -> A -> S)
  (l : list A) :
  (forall x, In x l -> forall acc, f acc x = Some (g acc x)) ->
  forall acc, foldM f l acc = Some (fold_left g l acc).
Proof.
  induction l as [| x l IH]; intros H acc; simpl; [reflexivity |].
  rewrite (H x (or_introl eq_refl)). simpl.
  apply IH. intros y Hy. apply H. right. exact Hy.
Qed.

Lemma fold_left_noop {A B} (f : B -> A -> B) (l : list A) (acc : B) :
  (forall x, In x l -> forall a, f a x = a) -> fold_left f l acc = acc.
Proof.
  revert acc. induction l as [| x l IH]; intros acc H; simpl; [reflexivity |].
  rewrite (H x (or_introl eq_refl)). apply IH.
  intros y Hy. apply H. right. exact Hy.
Qed.

Section CollabFacts.
Variables m s : DataFrame.
Variable t : string.
Hypothesis Hfit : fitted m s t = true.

Lemma fitted_parts :
  frame_ok m = true /\ frame_ok s = true
  /\ df_index s = df_index m /\ df_columns s = df_index s
  /\ In t (df_index m) /\ ties_inert m s t = true.
Proof.
  unfold fitted in Hfit. rewrite !andb_true_iff in Hfit.
  destruct Hfit as [[[[[H1 H2] H3] H4] H5] H6].
  repeat split; try assumption.
  - apply list_eqb_eq. exact H3.
  - apply list_eqb_eq. exact H4.
  - apply mem_In. exact H5.
Qed.

Lemma column_ranking : column s t = Some (Spec.ranking s t).
Proof.
  destruct fitted_parts as [_ [Hs [Hi [Hc [Ht _]]]]].
  unfold column, Spec.ranking.
  assert (Hm : Py.mem t (df_columns s) = true)
    by (apply mem_In; rewrite Hc, Hi; exact Ht).
  rewrite Hm. apply mapM_Some. intros u Hu.
  rewrite (loc_cell s Hs u t Hu) by (rewrite Hc, Hi; exact Ht).
  reflexivity.
Qed.

Lemma add_books_pure (u : string) (sim : Q) (cols : list string) :
  (forall b, In b cols -> In b (df_columns m)) ->
  forall recs,
    foldM (CollaborativeFilter.add_book m t sim)
          (filter (fun br => Py.Qltb 0 (snd br))
                  (map (fun b => (b, cell m u b)) cols)) recs
    = Some (fold_left
              (fun recs b =>
                 if Py.Qltb 0 (cell m u b) && Qeq_bool (cell m t b) 0
                 then CollaborativeFilter.add_to b (cell m u b * sim)%Q recs
                 else recs)
              cols recs).
Proof.
  destruct fitted_parts as [Hm [_ [_ [_ [Ht _]]]]].
  induction cols as [| b cols IH]; intros Hcols recs; simpl; [reflexivity |].
  assert (Hrest : forall b', In b' cols -> In b' (df_columns m))
    by (intros b' Hb'; apply Hcols; right; exact Hb').
  destruct (Py.Qltb 0 (cell m u b)) eqn:E; simpl.
  - unfold CollaborativeFilter.add_book at 1. simpl.
    rewrite (loc_cell m Hm t b Ht) by (apply Hcols; left; reflexivity).
    simpl. apply IH. exact Hrest.
  - apply IH. exact Hrest.
Qed.

Lemma add_user_credit (recs : Dict.t Q) (u : string) :
  In u (df_index s) ->
  CollaborativeFilter.add_user m s t recs u = Some (Spec.credit m s t recs u).
Proof.
  destruct fitted_parts as [Hm [Hs [Hi [Hc [Ht _]]]]]. intro Hu.
  unfold CollaborativeFilter.add_user.
  rewrite (loc_cell s Hs t u);
    [| rewrite Hi; exact Ht | rewrite Hc; exact Hu].
  simpl.
  destruct (loc_row_Some m Hm u) as [row [Hrow _]];
    [rewrite <- Hi; exact Hu |].
  rewrite Hrow. simpl. rewrite (row_items m Hm u row Hrow).
  apply add_books_pure. auto.
Qed.

Lemma credit_inert (recs : Dict.t Q) (u : string) :
  In u (df_index s) ->
  Qle_bool (cell s t t) (cell s u t) = true ->
  Spec.credit m s t recs u = recs.
Proof.
  destruct fitted_parts as [_ [_ [_ [_ [_ Hties]]]]]. intros Hu Hle.
  unfold ties_inert in Hties. rewrite forallb_forall in Hties.
  specialize (Hties u Hu). rewrite Hle in Hties. simpl in Hties.
  rewrite forallb_forall in Hties.
  unfold Spec.credit. apply fold_left_noop. intros b Hb a.
  specialize (Hties b Hb).
  destruct (Py.Qltb 0 (cell m u b)); simpl in *; [| reflexivity].
  apply negb_true_iff in Hties. rewrite Hties. reflexivity.
Qed.

Lemma ranking_entry (p : string * Q) :
  In p (Spec.ranking s t) ->
  In (fst p) (df_index s) /\ snd p = cell s (fst p) t.
Proof.
  unfold Spec.ranking. intro H. apply in_map_iff in H.
  destruct H as [u [<- Hu]]. simpl. auto.
Qed.

(** The entries at or above the target's own value add nothing. *)
Lemma credit_below (x : Series) :
  (forall p, In p x -> In p (Spec.ranking s t)) ->
  forall recs,
    fold_left (Spec.credit m s t) (map fst x) recs
    = fold_left (Spec.credit m s t)
                (map fst (filter (below (cell s t t)) x)) recs.
Proof.
  induction x as [| p x IH]; intros Hx recs; simpl; [reflexivity |].
  assert (Hrest : forall q, In q x -> In q (Spec.ranking s t))
    by (intros q Hq; apply Hx; right; exact Hq).
  destruct (ranking_entry p (Hx p (or_introl eq_refl))) as [Hu Hv].
  unfold below at 1, above. destruct (Qle_bool (cell s t t) (snd p)) eqn:E;
    simpl.
  - rewrite credit_inert; [apply IH; exact Hrest | exact Hu |].
    rewrite <- Hv. exact E.
  - apply IH. exact Hrest.
Qed.

Lemma sorted_sub {A} (key : A -> Q) (l : list A) (x : A) :
  In x (Py.sorted_desc key l) -> In x l.
Proof. apply Permutation_in. apply sorted_desc_perm. Qed.

(** The neighbours the code takes and the five most similar others give the
    same accumulated scores. *)
Lemma similar_users_neighbours :
  fold_left (Spec.credit m s t)
            (CollaborativeFilter.similar_users (Spec.ranking s t)) Dict.empty
  = Spec.accumulate m s t (Spec.neighbours s t).
Proof.
  destruct fitted_parts as [_ [Hs [Hi [_ [Ht _]]]]].
  destruct (frame_ok_parts s Hs) as [Hnd _].
  unfold Spec.accumulate, Spec.neighbours, CollaborativeFilter.similar_users,
    nlargest, Py.drop_first.
  change (Z.to_nat 6) with 6%nat.
  rewrite credit_below.
  2:{ intros p Hp. destruct (firstn 6 _) as [| q l] eqn:E; [destruct Hp |].
      simpl in Hp. apply (sorted_sub snd). apply (firstn_In 6).
      rewrite E. right. exact Hp. }
  rewrite (credit_below (firstn 5 _)).
  2:{ intros p Hp. apply firstn_In, sorted_sub, filter_In in Hp. tauto. }
  rewrite (neighbours_filter t (cell s t t) (Spec.ranking s t)).
  - reflexivity.
  - unfold Spec.ranking. rewrite map_map. simpl. rewrite map_id. exact Hnd.
  - unfold Spec.ranking.
    apply (in_map (fun u => (u, cell s u t))). rewrite Hi. exact Ht.
Qed.

Lemma similar_users_index (u : string) :
  In u (CollaborativeFilter.similar_users (Spec.ranking s t)) ->
  In u (df_index s).
Proof.
  unfold CollaborativeFilter.similar_users, nlargest, Py.drop_first.
  intro H. apply in_map_iff in H. destruct H as [p [<- Hp]].
  apply ranking_entry. apply (sorted_sub snd). apply (firstn_In (Z.to_nat 6)).
  destruct (firstn (Z.to_nat 6) _) as [| q l]; [destruct Hp |].
  right. exact Hp.
Qed.

Lemma recommend_fitted (self : CollaborativeFilter.t) (n : Z) :
  CollaborativeFilter.user_item_matrix self = Some m ->
  CollaborativeFilter.user_similarity_matrix self = Some s ->
  0 <= n ->
  CollaborativeFilter.recommend self t n = Some (Spec.collaborative m s t n).
Proof.
  destruct fitted_parts as [_ [_ [_ [_ [Ht _]]]]].
  intros Hm Hs Hn. unfold CollaborativeFilter.recommend.
  rewrite Hm, Hs. apply mem_In in Ht. rewrite Ht. simpl.
  rewrite column_ranking. simpl.
  rewrite (foldM_Some _ (Spec.credit m s t)).
  - simpl. rewrite slice_to_firstn by exact Hn.
    rewrite similar_users_neighbours. reflexivity.
  - intros u Hu acc. apply add_user_credit. apply similar_users_index.
    exact Hu.
Qed.
End CollabFacts.

(** ** The accumulated score of an item *)

Lemma get_add_to (b b' : string) (x : Q) (recs : Dict.t Q) :
  Dict.get b' (CollaborativeFilter.add_to b x recs)
  = if String.eqb b b'
    then Some (match Dict.get b recs with Some y => y | None => 0 end + x)%Q
    else Dict.get b' recs.
Proof. unfold CollaborativeFilter.add_to. apply get_set. Qed.

Section Scores.
Variables m s : DataFrame.
Variable t : string.

Lemma credit_get (u b : string) (cols : list string) :
  NoDup cols ->
  forall recs,
    Dict.get b
      (fold_left
         (fun recs b' =>
            if Py.Qltb 0 (cell m u b') && Qeq_bool (cell m t b') 0
            then CollaborativeFilter.add_to b' (cell m u b' * cell s t u)%Q recs
            else recs)
         cols recs)
    = if Py.mem b cols && (Py.Qltb 0 (cell m u b) && Qeq_bool (cell m t b) 0)
      then Some (match Dict.get b recs with Some y => y | None => 0 end
                 + cell m u b * cell s t u)%Q
      else Dict.get b recs.
Proof.
  induction 1 as [| c cols Hc Hnd IH]; intro recs; [reflexivity |].
  cbn [fold_left]. rewrite IH. cbn [Py.mem existsb]. fold (Py.mem b cols).
  destruct (String.eqb b c) eqn:E.
  - apply String.eqb_eq in E. subst c.
    apply mem_not_In in Hc. rewrite Hc. simpl.
    destruct (Py.Qltb 0 (cell m u b) && Qeq_bool (cell m t b) 0);
      [| reflexivity].
    rewrite get_add_to, String.eqb_refl. reflexivity.
  - simpl.
    assert (Hget : Dict.get b
              (if Py.Qltb 0 (cell m u c) && Qeq_bool (cell m t c) 0
               then CollaborativeFilter.add_to c (cell m u c * cell s t u)%Q
                      recs
               else recs) = Dict.get b recs).
    { destruct (Py.Qltb 0 (cell m u c) && Qeq_bool (cell m t c) 0);
        [| reflexivity].
      rewrite get_add_to, String.eqb_sym, E. reflexivity. }
    rewrite Hget. reflexivity.
Qed.

Lemma accumulate_get (b : string) (nbrs : list string) :
  NoDup (df_columns m) ->
  forall recs,
    Dict.get b (fold_left (Spec.credit m s t) nbrs recs)
    = if Py.mem b (df_columns m) && Qeq_bool (cell m t b) 0
      then match Spec.raters m nbrs b with
           | [] => Dict.get b recs
           | _ => Some (fold_left Qplus (Spec.contributions m s t nbrs b)
                          match Dict.get b recs with
                          | Some y => y
                          | None => 0%Q
                          end)
           end
      else Dict.get b recs.
Proof.
  intro Hnd. induction nbrs as [| u nbrs IH]; intro recs.
  - simpl. destruct (_ && _); reflexivity.
  - cbn [fold_left]. rewrite IH.
    pose proof (credit_get u b (df_columns m) Hnd recs) as Hc.
    fold (Spec.credit m s t recs u) in Hc. rewrite !Hc. clear Hc.
    unfold Spec.contributions, Spec.raters. cbn [filter].
    destruct (Py.mem b (df_columns m)); simpl; [| reflexivity].
    destruct (Qeq_bool (cell m t b) 0); rewrite ?andb_false_r;
      [| reflexivity].
    rewrite andb_true_r.
    destruct (Py.Qltb 0 (cell m u b)); [| reflexivity].
    cbn [map fold_left].
    destruct (filter (fun u0 => Py.Qltb 0 (cell m u0 b)) nbrs); reflexivity.
Qed.

Lemma accumulated_score_get (b : string) (nbrs : list string) :
  NoDup (df_columns m) ->
  Dict.get b (Spec.accumulate m s t nbrs)
  = Spec.accumulated_score m s t nbrs b.
Proof.
  intro Hnd. unfold Spec.accumulate, Spec.accumulated_score.
  rewrite accumulate_get by exact Hnd. simpl.
  destruct (_ && _); [| reflexivity].
  destruct (Spec.raters m nbrs b); reflexivity.
Qed.
End Scores.

(** Where the similarity matrix belongs to the interaction matrix (the
    state [fitted]; [fit] on two users or more establishes it, see
    [fit_fitted] below), [recommend] does for a user of the matrix what the
    specification says: it returns (without raising) the empty list when
    there is no user-similarity matrix; otherwise it returns the top [n],
    by accumulated score descending, of the scores accumulated over the 5
    most similar users other than the target.  The accumulated score of an
    item is defined exactly for the items of the matrix that the target has
    not interacted with and some neighbour has, and it is the sum over
    those neighbours of neighbour weight x similarity(target, neighbour);
    no returned item is one the target has interacted with. *)
Lemma collaborative_recommend_spec (self : CollaborativeFilter.t)
  (m : DataFrame) (t : string) (n : Z) :
  CollaborativeFilter.user_item_matrix self = Some m ->
  Py.mem t (df_index m) = true ->
  (forall s, CollaborativeFilter.user_similarity_matrix self = Some s ->
             fitted m s t = true) ->
  0 <= n ->
  CollaborativeFilter.recommend self t n
  = Some match CollaborativeFilter.user_similarity_matrix self with
         | Some s => Spec.collaborative m s t n
         | None => []
         end
  /\ (forall s b,
        CollaborativeFilter.user_similarity_matrix self = Some s ->
        Dict.get b (Spec.accumulate m s t (Spec.neighbours s t))
        = Spec.accumulated_score m s t (Spec.neighbours s t) b)
  /\ (forall s,
        CollaborativeFilter.user_similarity_matrix self = Some s ->
        Forall (fun bs => Qeq_bool (cell m t (fst bs)) 0 = true)
               (Spec.collaborative m s t n)).
Proof.
  intros Hm Ht Hfit Hn.
  assert (Hscore : forall s b,
            CollaborativeFilter.user_similarity_matrix self = Some s ->
            Dict.get b (Spec.accumulate m s t (Spec.neighbours s t))
            = Spec.accumulated_score m s t (Spec.neighbours s t) b).
  { intros s b Hs. apply accumulated_score_get.
    destruct (fitted_parts m s t (Hfit s Hs)) as [Hok _].
    apply (frame_ok_parts m Hok). }
  split; [| split; [exact Hscore |]].
  - destruct (CollaborativeFilter.user_similarity_matrix self) as [s |] eqn:Hs.
    + apply (recommend_fitted m s t (Hfit s eq_refl)); assumption.
    + unfold CollaborativeFilter.recommend. rewrite Hm, Hs, Ht. reflexivity.
  - intros s Hs. apply Forall_forall. intros [b v] Hin. simpl.
    unfold Spec.collaborative in Hin.
    apply firstn_In, sorted_sub in Hin.
    assert (Hget : Dict.get b (Spec.accumulate m s t (Spec.neighbours s t))
                   <> None).
    { apply get_In_keys. apply (in_map fst) in Hin. exact Hin. }
    rewrite (Hscore s b Hs) in Hget. unfold Spec.accumulated_score in Hget.
    destruct (Py.mem b (df_columns m)); simpl in Hget; [| congruence].
    destruct (Qeq_bool (cell m t b) 0); [reflexivity | congruence].
Qed.

Lemma collaborative_recommend_spec_example :
  CollaborativeFilter.recommend Scenarios.trio "U1" 3
  = Some match CollaborativeFilter.user_similarity_matrix Scenarios.trio with
         | Some s => Spec.collaborative Scenarios.trio_matrix s "U1" 3
         | None => []
         end.
Proof.
  refine (proj1 (collaborative_recommend_spec Scenarios.trio
                   Scenarios.trio_matrix "U1" 3 eq_refl eq_refl _ _)).
  - intros s Hs. injection Hs as <-. vm_compute. reflexivity.
  - lia.
Defined.

(** C5 fails after a refit on a single borrower.  [fit] assigns the
    user-similarity matrix only for two users or more, so the second fit
    leaves the matrix of the first history (users A and B) in place beside
    the new interaction matrix, whose only user is C.  For C, a user of the
    fitted interaction matrix with fewer than two users, [recommend] looks
    up the column of C in the old similarity matrix and raises [KeyError],
    for every [n], where the claim has the empty list. *)
Theorem C5_stale_similarity (cosine : list Q -> list Q -> Q) (n : Z) :
  option_map df_index
    (CollaborativeFilter.user_item_matrix (Reload.refitted cosine))
  = Some ["C"]
  /\ option_map df_index
       (CollaborativeFilter.user_similarity_matrix (Reload.refitted cosine))
     = Some ["A"; "B"]
  /\ CollaborativeFilter.recommend (Reload.refitted cosine) "C" n = None.
Proof. repeat split; reflexivity. Qed.

(** ** What [fit] establishes *)

Lemma NoDup_nodupb (l : list string) : NoDup l -> nodupb l = true.
Proof.
  induction 1 as [| x l Hx _ IH]; simpl; [reflexivity |].
  apply mem_not_In in Hx. rewrite Hx, IH. reflexivity.
Qed.

Lemma list_eqb_refl (l : list string) : list_eqb l l = true.
Proof.
  unfold list_eqb. destruct (list_eq_dec string_dec l l); congruence.
Qed.

Lemma In_set {V} (k : string) (v : V) (d : Dict.t V) (kv : string * V) :
  In kv (Dict.set k v d) -> kv = (k, v) \/ In kv d.
Proof.
  induction d as [| [k' v'] d IH]; simpl.
  - intros [H | []]. left. symmetry. exact H.
  - destruct (String.eqb k k') eqn:E; simpl.
    + apply String.eqb_eq in E. subst k'.
      intros [H | H]; [left; symmetry; exact H | right; right; exact H].
    + intros [H | H]; [right; left; exact H |].
      destruct (IH H) as [H' | H']; [left; exact H' | right; right; exact H'].
Qed.

Lemma new_frame_ok (index columns : list string) :
  NoDup index -> NoDup columns -> frame_ok (new_frame index columns) = true.
Proof.
  intros Hi Hc. unfold frame_ok, new_frame. simpl.
  rewrite (NoDup_nodupb _ Hi), (NoDup_nodupb _ Hc). simpl.
  unfold Dict.keys. rewrite map_map. simpl. rewrite map_id, list_eqb_refl.
  simpl. apply forallb_forall. intros r Hr. apply in_map_iff in Hr.
  destruct Hr as [u [<- _]]. simpl. rewrite map_map. simpl.
  rewrite map_id. apply list_eqb_refl.
Qed.

Lemma set_loc_ok (m : DataFrame) (u b : string) (v : Q) :
  frame_ok m = true -> In b (df_columns m) ->
  frame_ok (set_loc m u b v) = true
  /\ df_index (set_loc m u b v) = df_index m
  /\ df_columns (set_loc m u b v) = df_columns m.
Proof.
  intros Hok Hb. destruct (frame_ok_parts m Hok) as [Hi [Hc [Hk Hr]]].
  unfold set_loc.
  destruct (Dict.get u (df_rows m)) as [r |] eqn:G; [| auto].
  simpl. repeat split. unfold frame_ok. simpl.
  rewrite (NoDup_nodupb _ Hi), (NoDup_nodupb _ Hc). simpl.
  assert (Hu : In u (Dict.keys (df_rows m)))
    by (apply get_In_keys; congruence).
  assert (Hrk : Dict.keys r = df_columns m)
    by (apply (Hr (u, r)); apply get_Some_In; exact G).
  rewrite (keys_set_present u _ _ Hu), Hk, list_eqb_refl. simpl.
  apply forallb_forall. intros kv Hkv. apply In_set in Hkv.
  destruct Hkv as [-> | Hkv]; simpl.
  - rewrite keys_set_present by (rewrite Hrk; exact Hb).
    rewrite Hrk. apply list_eqb_refl.
  - rewrite (Hr kv Hkv). apply list_eqb_refl.
Qed.

Lemma fill_ok (records : list BorrowingRecord) (m : DataFrame) :
  frame_ok m = true ->
  (forall r, In r records -> In (r_book_id r) (df_columns m)) ->
  frame_ok (CollaborativeFilter.fill records m) = true
  /\ df_index (CollaborativeFilter.fill records m) = df_index m
  /\ df_columns (CollaborativeFilter.fill records m) = df_columns m.
Proof.
  unfold CollaborativeFilter.fill. revert m.
  induction records as [| r l IH]; intros m Hok Hb; simpl; [auto |].
  destruct (set_loc_ok m (r_student_id r) (r_book_id r)
              (CollaborativeFilter.record_value r) Hok
              (Hb r (or_introl eq_refl))) as [Hok' [Hi' Hc']].
  destruct (IH _ Hok') as [H1 [H2 H3]].
  - intros r' Hr'. rewrite Hc'. apply Hb. right. exact Hr'.
  - rewrite H2, H3, Hi', Hc'. auto.
Qed.

Lemma keys_combine {V} (labels : list string) (l : list V) :
  List.length l = List.length labels ->
  Dict.keys (combine labels l) = labels.
Proof.
  revert l. induction labels as [| x labels IH]; intros [| y l] H;
    simpl in *; try discriminate; [reflexivity |].
  f_equal. apply IH. lia.
Qed.

Lemma square_frame_ok (labels : list string) (x : list (list Q)) :
  NoDup labels ->
  List.length x = List.length labels ->
  Forall (fun row => List.length row = List.length labels) x ->
  frame_ok (square_frame labels x) = true.
Proof.
  intros Hnd Hlen Hrows. unfold frame_ok, square_frame. simpl.
  rewrite (NoDup_nodupb _ Hnd). simpl.
  rewrite keys_combine by (rewrite length_map; exact Hlen).
  rewrite list_eqb_refl. simpl.
  apply forallb_forall. intros [k row] Hr. simpl.
  apply in_combine_r, in_map_iff in Hr. destruct Hr as [r [<- Hr]].
  rewrite Forall_forall in Hrows.
  rewrite keys_combine by (apply Hrows; exact Hr).
  apply list_eqb_refl.
Qed.

(** The frames of a model fitted on at least two users are rectangular and
    share their labels; with fewer than two users a fresh model has no
    similarity matrix. *)
Lemma fit_frames (cosine : list Q -> list Q -> Q)
  (records : list BorrowingRecord) (self : CollaborativeFilter.t) :
  exists m,
    CollaborativeFilter.user_item_matrix
      (CollaborativeFilter.fit cosine records self) = Some m
    /\ frame_ok m = true
    /\ df_index m = Py.set_list (map r_student_id records)
    /\ ((1 < List.length (df_index m))%nat ->
        exists s,
          CollaborativeFilter.user_similarity_matrix
            (CollaborativeFilter.fit cosine records self) = Some s
          /\ frame_ok s = true
          /\ df_index s = df_index m /\ df_columns s = df_index s)
    /\ ((List.length (df_index m) <= 1)%nat ->
        CollaborativeFilter.user_similarity_matrix
          (CollaborativeFilter.fit cosine records CollaborativeFilter.init)
        = None).
Proof.
  set (users := Py.set_list (map r_student_id records)).
  set (books := Py.set_list (map r_book_id records)).
  destruct (fill_ok records (new_frame users books)) as [Hok [Hi Hc]].
  - apply new_frame_ok; apply set_list_NoDup.
  - intros r Hr. simpl. apply set_list_In. apply in_map. exact Hr.
  - exists (CollaborativeFilter.fill records (new_frame users books)).
    simpl in Hi, Hc. split; [reflexivity |].
    split; [exact Hok |]. split; [exact Hi |]. rewrite Hi. split.
    + intro Hlen. unfold CollaborativeFilter.fit, CollaborativeFilter.fit_with.
      fold users books. cbn [CollaborativeFilter.user_similarity_matrix].
      apply Nat.ltb_lt in Hlen. rewrite Hlen.
      eexists. split; [reflexivity |]. split; [| split; reflexivity].
      assert (Hrows : List.length
                (frame_values
                   (CollaborativeFilter.fill records (new_frame users books)))
              = List.length users).
      { unfold frame_values. rewrite length_map.
        destruct (frame_ok_parts _ Hok) as [_ [_ [Hk _]]].
        rewrite <- (length_map fst). fold (Dict.keys
          (df_rows (CollaborativeFilter.fill records (new_frame users books)))).
        rewrite Hk, Hi. reflexivity. }
      apply square_frame_ok.
      * apply set_list_NoDup.
      * unfold CollaborativeFilter.cosine_similarity.
        rewrite length_map. exact Hrows.
      * unfold CollaborativeFilter.cosine_similarity.
        apply Forall_forall. intros row Hrow. apply in_map_iff in Hrow.
        destruct Hrow as [x [<- _]]. rewrite length_map. exact Hrows.
    + intro Hlen. unfold CollaborativeFilter.fit, CollaborativeFilter.fit_with.
      fold users books. cbn [CollaborativeFilter.user_similarity_matrix].
      destruct (1 <? List.length users)%nat eqn:E; [| reflexivity].
      apply Nat.ltb_lt in E. lia.
Qed.

(** One feature row per document keeps the content filter well formed. *)
Lemma fit_features_ok (tfidf : list string -> list (list Q))
  (books : list Book) (self : ContentBasedFilter.t) :
  (forall docs, List.length (tfidf docs) = List.length docs) ->
  features_ok (ContentBasedFilter.fit tfidf books self) = true.
Proof.
  intro Hrows. unfold features_ok, ContentBasedFilter.fit. simpl.
  destruct books as [| b books]; simpl.
  - destruct (ContentBasedFilter.book_features self); reflexivity.
  - rewrite Hrows. simpl. rewrite !length_map. apply Nat.eqb_refl.
Qed.

(** ** Further facts about [recommend] *)

Lemma slice_to_length {A} (n : Z) (l : list A) :
  0 <= n -> Z.of_nat (List.length (Py.slice_to n l)) <= n.
Proof.
  intro H. rewrite slice_to_firstn by exact H.
  pose proof (firstn_le_length (Z.to_nat n) l). lia.
Qed.

(** Whenever [recommend] returns, it returns at most [n] entries. *)
Lemma recommend_at_most_n (cosine : list Q -> list Q -> Q) (e : Engine.t)
  (sid : string) (n : Z) (recs : list Recommendation) :
  0 <= n ->
  Engine.recommend cosine e sid n = Some recs ->
  Z.of_nat (List.length recs) <= n.
Proof.
  intros Hn. unfold Engine.recommend.
  destruct (Dict.get sid (Engine.students e)) as [student |].
  - destruct (CollaborativeFilter.recommend _ _ _); [| discriminate].
    simpl. destruct (ContentBasedFilter.recommend _ _ _ _); [| discriminate].
    simpl. intro H. injection H as <-. apply slice_to_length. exact Hn.
  - intro H. injection H as <-. unfold Engine.get_popular_books.
    rewrite length_map. apply slice_to_length. exact Hn.
Qed.

(** [fit] assigns the similarity matrix only for two users or more, so a
    second history with a single borrower leaves the matrix of the first
    history in place; looking the new borrower up in it raises [KeyError],
    for every [n]. *)
Lemma stale_similarity_raises (tfidf : list string -> list (list Q))
  (cosine : list Q -> list Q -> Q) (n : Z) :
  Engine.recommend cosine (Reload.single_borrower tfidf cosine) "C" n = None.
Proof. reflexivity. Qed.

(** * Further properties of the engine *)

(** ** Tallies ([defaultdict(int)] counters) *)

Lemma occurrences_cons (k x : string) (l : list string) :
  occurrences k (x :: l)
  = (if String.eqb x k then 1 else 0) + occurrences k l.
Proof.
  unfold occurrences. simpl.
  destruct (string_dec x k) as [-> | Hne].
  - rewrite String.eqb_refl. lia.
  - apply String.eqb_neq in Hne. rewrite Hne. lia.
Qed.

Lemma occurrences_nonneg (k : string) (l : list string) :
  0 <= occurrences k l.
Proof. unfold occurrences. lia. Qed.

Lemma occurrences_pos_In (k : string) (l : list string) :
  0 < occurrences k l <-> In k l.
Proof.
  unfold occurrences. rewrite (count_occ_In string_dec). lia.
Qed.

Lemma tally_get (l : list string) :
  forall (d : Dict.t Z) (k : string),
    Dict.get k (fold_left (fun d x => Engine.incr x d) l d)
    = if occurrences k l =? 0 then Dict.get k d
      else Some (match Dict.get k d with Some c => c | None => 0 end
                 + occurrences k l).
Proof.
  induction l as [| x l IH]; intros d k; [reflexivity |].
  cbn [fold_left]. rewrite IH, occurrences_cons.
  assert (Hget : Dict.get k (Engine.incr x d)
                 = if String.eqb x k
                   then Some (match Dict.get x d with
                              | Some c => c | None => 0 end + 1)
                   else Dict.get k d)
    by (unfold Engine.incr; apply get_set).
  rewrite !Hget. clear Hget.
  pose proof (occurrences_nonneg k l) as Hk.
  destruct (String.eqb x k) eqn:E.
  - apply String.eqb_eq in E. subst x.
    destruct (occurrences k l =? 0) eqn:E0;
      destruct (1 + occurrences k l =? 0) eqn:E1; try lia.
    + apply Z.eqb_eq in E0. rewrite E0. reflexivity.
    + f_equal. lia.
  - change (0 + occurrences k l) with (occurrences k l).
    destruct (occurrences k l =? 0); reflexivity.
Qed.

Lemma keys_set_new {V} (k : string) (v : V) (d : Dict.t V) :
  ~ In k (Dict.keys d) ->
  Dict.keys (Dict.set k v d) = (Dict.keys d ++ [k])%list.
Proof.
  induction d as [| [k' v'] d IH]; simpl; [reflexivity |].
  intro H. destruct (String.eqb k k') eqn:E; simpl.
  - apply String.eqb_eq in E. subst. tauto.
  - f_equal. apply IH. tauto.
Qed.

Lemma set_keys_NoDup {V} (k : string) (v : V) (d : Dict.t V) :
  NoDup (Dict.keys d) -> NoDup (Dict.keys (Dict.set k v d)).
Proof.
  intro H. destruct (in_dec string_dec k (Dict.keys d)) as [Hin | Hout].
  - rewrite keys_set_present by exact Hin. exact H.
  - rewrite keys_set_new by exact Hout.
    apply NoDup_app; [exact H | constructor; [tauto | constructor] |].
    intros x Hx [<- | []]. exact (Hout Hx).
Qed.

Lemma tally_keys_NoDup (l : list string) (d : Dict.t Z) :
  NoDup (Dict.keys d) ->
  NoDup (Dict.keys (fold_left (fun d x => Engine.incr x d) l d)).
Proof.
  revert d. induction l as [| x l IH]; intros d H; [exact H |].
  simpl. apply IH. apply set_keys_NoDup. exact H.
Qed.

Lemma fold_left_on_map {A B C} (f : C -> B -> C) (g : A -> B) (l : list A)
  (c : C) :
  fold_left (fun c a => f c (g a)) l c = fold_left f (map g l) c.
Proof.
  revert c. induction l as [| a l IH]; intro c; [reflexivity |].
  simpl. apply IH.
Qed.

Lemma fold_left_on_flat_map {A B C} (f : C -> B -> C) (g : A -> list B)
  (l : list A) (c : C) :
  fold_left (fun c a => fold_left f (g a) c) l c
  = fold_left f (flat_map g l) c.
Proof.
  revert c. induction l as [| a l IH]; intro c; [reflexivity |].
  simpl. rewrite fold_left_app. apply IH.
Qed.

Lemma borrow_counts_tally (records : list BorrowingRecord) :
  Engine.borrow_counts records
  = fold_left (fun d x => Engine.incr x d) (map r_book_id records) Dict.empty.
Proof.
  unfold Engine.borrow_counts.
  rewrite <- (fold_left_on_map (fun d x => Engine.incr x d) r_book_id).
  reflexivity.
Qed.

Lemma tally_entry (l : list string) (k : string) (c : Z) :
  In (k, c) (fold_left (fun d x => Engine.incr x d) l Dict.empty) ->
  c = occurrences k l /\ 0 < c.
Proof.
  intro H.
  apply get_of_NoDup in H; [| apply tally_keys_NoDup; constructor].
  rewrite tally_get in H. simpl in H.
  pose proof (occurrences_nonneg k l).
  destruct (occurrences k l =? 0) eqn:E; [discriminate |].
  injection H as <-. lia.
Qed.

Lemma fold_max_spec (cs : list Z) :
  forall c,
    c <= fold_left Z.max cs c
    /\ (forall v, In v cs -> v <= fold_left Z.max cs c)
    /\ In (fold_left Z.max cs c) (c :: cs).
Proof.
  induction cs as [| x cs IH]; intro c; simpl.
  - repeat split; [lia | tauto | auto].
  - destruct (IH (Z.max c x)) as [H1 [H2 H3]]. repeat split.
    + lia.
    + intros v [<- | Hv]; [lia | apply H2; exact Hv].
    + destruct H3 as [H3 | H3]; [| right; right; exact H3].
      rewrite <- H3.
      destruct (Z.max_spec c x) as [[_ Hm] | [_ Hm]]; rewrite Hm.
      * right. left. reflexivity.
      * left. reflexivity.
Qed.

Lemma In_values {V} (k : string) (v : V) (d : Dict.t V) :
  In (k, v) d -> In v (Dict.values d).
Proof. intro H. apply (in_map snd) in H. exact H. Qed.

Lemma max_count_bounds (records : list BorrowingRecord) :
  1 <= Engine.max_count (Engine.borrow_counts records)
  /\ (forall k, occurrences k (map r_book_id records)
                <= Engine.max_count (Engine.borrow_counts records))
  /\ (records <> [] ->
      exists k, occurrences k (map r_book_id records)
                = Engine.max_count (Engine.borrow_counts records)).
Proof.
  rewrite borrow_counts_tally. set (ids := map r_book_id records).
  set (counts := fold_left _ ids Dict.empty).
  assert (Hentry : forall k c, In (k, c) counts ->
                               c = occurrences k ids /\ 0 < c)
    by (intros k c; apply tally_entry).
  assert (Hval : forall v, In v (Dict.values counts) ->
                           exists k, In (k, v) counts).
  { intros v Hv. apply in_map_iff in Hv. destruct Hv as [[k v'] [<- Hin]].
    exists k. exact Hin. }
  unfold Engine.max_count.
  destruct (Dict.values counts) as [| c cs] eqn:Ev.
  - repeat split; [lia | |].
    + intro k. pose proof (occurrences_nonneg k ids).
      destruct (Z.eq_dec (occurrences k ids) 0) as [-> | Hne]; [lia |].
      exfalso.
      assert (Hget : Dict.get k counts = Some (occurrences k ids)).
      { unfold counts. rewrite tally_get. simpl.
        apply Z.eqb_neq in Hne. rewrite Hne. reflexivity. }
      apply get_Some_In, In_values in Hget. rewrite Ev in Hget. exact Hget.
    + intro Hne. exfalso. destruct records as [| r rs]; [congruence |].
      assert (Hget : Dict.get (r_book_id r) counts <> None).
      { unfold counts. rewrite tally_get. simpl.
        assert (0 < occurrences (r_book_id r) ids)
          by (apply occurrences_pos_In; left; reflexivity).
        destruct (occurrences (r_book_id r) ids =? 0) eqn:E; [lia |].
        discriminate. }
      apply get_In_keys in Hget. unfold Dict.keys in Hget.
      apply in_map_iff in Hget. destruct Hget as [kv [_ Hin]].
      destruct kv as [k0 v0]. apply In_values in Hin.
      rewrite Ev in Hin. exact Hin.
  - destruct (fold_max_spec cs c) as [H1 [H2 H3]].
    assert (Hall : forall v, In v (c :: cs) -> v <= fold_left Z.max cs c)
      by (intros v [<- | Hv]; [exact H1 | apply H2; exact Hv]).
    assert (Hmax : exists k, In (k, fold_left Z.max cs c) counts)
      by (apply Hval; exact H3).
    destruct Hmax as [km Hkm]. destruct (Hentry _ _ Hkm) as [Hm Hpos].
    repeat split.
    + lia.
    + intro k. pose proof (occurrences_nonneg k ids).
      destruct (Z.eq_dec (occurrences k ids) 0) as [-> | Hne]; [lia |].
      apply Hall. rewrite <- Ev.
      assert (Hget : Dict.get k counts = Some (occurrences k ids)).
      { unfold counts. rewrite tally_get. simpl.
        apply Z.eqb_neq in Hne. rewrite Hne. reflexivity. }
      apply get_Some_In, In_values in Hget. exact Hget.
    + intros _. exists km. symmetry. exact Hm.
Qed.

(** ** Popularity after a history load *)

Lemma update_popularity_get (m : Q) (items : list (string * Z)) :
  NoDup (map fst items) ->
  forall (catalog : Dict.t Book) (k : string),
    Dict.get k
      (fold_left
         (fun c kc =>
            match Dict.get (fst kc) c with
            | Some b =>
                Dict.set (fst kc)
                  (set_popularity_score b (inject_Z (snd kc) / m)%Q) c
            | None => c
            end) items catalog)
    = match Dict.get k catalog with
      | Some b =>
          Some match Dict.get k items with
               | Some c => set_popularity_score b (inject_Z c / m)%Q
               | None => b
               end
      | None => None
      end.
Proof.
  induction items as [| [k0 c0] rest IH]; intros Hnd catalog k.
  - simpl. destruct (Dict.get k catalog); reflexivity.
  - simpl in Hnd. inversion Hnd as [| ? ? Hk Hrest]; subst.
    cbn [fold_left fst snd]. rewrite (IH Hrest). cbn [Dict.get].
    destruct (String.eqb k k0) eqn:E.
    + apply String.eqb_eq in E. subst k0.
      assert (Hnone : Dict.get k rest = None).
      { destruct (Dict.get k rest) eqn:G; [| reflexivity].
        exfalso. apply Hk. apply get_In_keys. congruence. }
      rewrite Hnone.
      destruct (Dict.get k catalog) as [b |] eqn:G.
      * rewrite get_set_same. reflexivity.
      * rewrite G. reflexivity.
    + apply String.eqb_neq in E.
      destruct (Dict.get k0 catalog) as [b0 |]; [| reflexivity].
      rewrite get_set_other by congruence. reflexivity.
Qed.

Lemma update_popularity_keys (counts : Dict.t Z) (catalog : Dict.t Book) :
  Dict.keys (Engine.update_popularity counts catalog) = Dict.keys catalog.
Proof.
  unfold Engine.update_popularity, Dict.items.
  generalize (Engine.max_count counts). intro m.
  revert catalog. induction counts as [| [k c] counts IH]; intro catalog;
    [reflexivity |].
  cbn [fold_left fst snd].
  destruct (Dict.get k catalog) as [b |] eqn:G; [| apply IH].
  rewrite IH. apply keys_set_present. apply get_In_keys. congruence.
Qed.

(** X1: [load_borrowing_history] neither adds nor removes a catalog entry.
    A catalog book that occurs in the new records gets the popularity
    (its number of records) / (the largest number of records of any book),
    a value in [0,1]; every other catalog book is left exactly as it was. *)
Theorem history_sets_popularity (cosine : list Q -> list Q -> Q)
  (records : list BorrowingRecord) (e : Engine.t) (k : string) :
  Dict.keys (Engine.books_catalog
               (Engine.load_borrowing_history cosine records e))
  = Dict.keys (Engine.books_catalog e)
  /\ Dict.get k (Engine.books_catalog
                   (Engine.load_borrowing_history cosine records e))
     = match Dict.get k (Engine.books_catalog e) with
       | Some b =>
           Some (if occurrences k (map r_book_id records) =? 0 then b
                 else set_popularity_score b
                        (inject_Z (occurrences k (map r_book_id records))
                         / inject_Z (Engine.max_count
                                       (Engine.borrow_counts records)))%Q)
       | None => None
       end
  /\ (0 <= inject_Z (occurrences k (map r_book_id records))
           / inject_Z (Engine.max_count (Engine.borrow_counts records))
      <= 1)%Q
  /\ (forall k', occurrences k' (map r_book_id records)
                 <= Engine.max_count (Engine.borrow_counts records))
  /\ (records <> [] ->
      exists k', occurrences k' (map r_book_id records)
                 = Engine.max_count (Engine.borrow_counts records)).
Proof.
  destruct (max_count_bounds records) as [Hone [Hle Hmax]].
  pose proof (occurrences_nonneg k (map r_book_id records)) as Hk.
  split; [apply update_popularity_keys |].
  split; [| split; [| split; assumption]].
  - cbn [Engine.load_borrowing_history Engine.books_catalog].
    unfold Engine.update_popularity.
    rewrite update_popularity_get.
    + destruct (Dict.get k (Engine.books_catalog e)); [| reflexivity].
      unfold Dict.items. rewrite borrow_counts_tally at 1.
      rewrite tally_get. simpl.
      destruct (occurrences k (map r_book_id records) =? 0); reflexivity.
    + unfold Dict.items. rewrite borrow_counts_tally.
      apply (tally_keys_NoDup _ Dict.empty). constructor.
  - split.
    + apply inject_Z_div_nonneg; lia.
    + apply inject_Z_div_le_1; [apply Hle | lia].
Qed.

(** ** Analytics tallies *)

Lemma firstn_sorted {A} (R : A -> A -> Prop) (n : nat) (l : list A) :
  StronglySorted R l -> StronglySorted R (firstn n l).
Proof.
  intro H. revert n. induction H as [| x l Hs IH Hx]; intro n.
  - rewrite firstn_nil. constructor.
  - destruct n; simpl; constructor; [apply IH |].
    apply Forall_forall. intros y Hy. apply firstn_In in Hy.
    rewrite Forall_forall in Hx. apply Hx. exact Hy.
Qed.

Lemma sorted_app_order {A} (R : A -> A -> Prop) (l1 l2 : list A) :
  StronglySorted R (l1 ++ l2) ->
  forall a b, In a l1 -> In b l2 -> R a b.
Proof.
  induction l1 as [| x l1 IH]; intros Hs a b Ha Hb; [destruct Ha |].
  simpl in Hs. inversion Hs as [| ? ? Hl Hx]; subst.
  destruct Ha as [<- | Ha].
  - rewrite Forall_forall in Hx. apply Hx. apply in_or_app. right. exact Hb.
  - apply IH; assumption.
Qed.

Lemma NoDup_firstn {A} (n : nat) (l : list A) :
  NoDup l -> NoDup (firstn n l).
Proof.
  intro H. rewrite <- (firstn_skipn n l) in H.
  apply NoDup_app_remove_r in H. exact H.
Qed.

Lemma slice_to_In {A} (n : Z) (l : list A) (x : A) :
  In x (Py.slice_to n l) -> In x l.
Proof.
  unfold Py.slice_to. destruct (0 <=? n); apply firstn_In.
Qed.

(** X2: [most_active_readers] lists at most 5 students, no student twice,
    in descending order of their number of borrowing records; each listed
    student comes with exactly that number, and no student left out has
    more records than a listed one. *)
Theorem most_active_readers_top5 (e : Engine.t) :
  (List.length (Engine.most_active_readers (Engine.get_analytics e)) <= 5)%nat
  /\ NoDup (map fst (Engine.most_active_readers (Engine.get_analytics e)))
  /\ StronglySorted (Py.desc (fun x => inject_Z (snd x)))
       (Engine.most_active_readers (Engine.get_analytics e))
  /\ (forall u c,
        In (u, c) (Engine.most_active_readers (Engine.get_analytics e)) ->
        c = occurrences u (map r_student_id (Engine.borrowing_records e))
        /\ 0 < c)
  /\ (forall u c u',
        In (u, c) (Engine.most_active_readers (Engine.get_analytics e)) ->
        ~ In u' (map fst
                   (Engine.most_active_readers (Engine.get_analytics e))) ->
        occurrences u' (map r_student_id (Engine.borrowing_records e)) <= c).
Proof.
  unfold Engine.get_analytics. cbn [Engine.most_active_readers].
  rewrite (fold_left_on_map (fun d x => Engine.incr x d) r_student_id).
  set (ids := map r_student_id (Engine.borrowing_records e)).
  set (activity := fold_left _ ids Dict.empty).
  unfold Dict.items. rewrite slice_to_firstn by lia.
  change (Z.to_nat 5) with 5%nat.
  set (key := fun x : string * Z => inject_Z (snd x)).
  assert (Hnd : NoDup (map fst (Py.sorted_desc key activity))).
  { eapply Permutation_NoDup.
    - apply Permutation_map. symmetry. apply sorted_desc_perm.
    - apply (tally_keys_NoDup ids Dict.empty). constructor. }
  assert (Hentry : forall u c, In (u, c) (Py.sorted_desc key activity) ->
                               c = occurrences u ids /\ 0 < c).
  { intros u c H. apply sorted_sub in H. apply tally_entry. exact H. }
  split; [apply firstn_le_length |].
  split; [rewrite <- firstn_map; apply NoDup_firstn; exact Hnd |].
  split; [apply firstn_sorted, sorted_desc_sorted |].
  split; [intros u c H; apply Hentry; apply firstn_In in H; exact H |].
  intros u c u' Hin Hout.
  pose proof (occurrences_nonneg u' ids) as Hu'.
  destruct (Hentry u c (firstn_In _ _ _ Hin)) as [_ Hc].
  destruct (Z.eq_dec (occurrences u' ids) 0) as [E0 | Hne]; [lia |].
  assert (Hget : In (u', occurrences u' ids) activity).
  { apply get_Some_In. unfold activity. rewrite tally_get. simpl.
    apply Z.eqb_neq in Hne. rewrite Hne. reflexivity. }
  apply (Permutation_in _ (Permutation_sym (sorted_desc_perm key activity)))
    in Hget.
  rewrite <- (firstn_skipn 5 (Py.sorted_desc key activity)) in Hget.
  apply in_app_or in Hget. destruct Hget as [Hget | Hget].
  - exfalso. apply Hout. apply (in_map fst) in Hget. exact Hget.
  - pose proof (sorted_desc_sorted key activity) as Hs.
    rewrite <- (firstn_skipn 5 (Py.sorted_desc key activity)) in Hs.
    pose proof (sorted_app_order _ _ _ Hs _ _ Hin Hget) as Hord.
    unfold Py.desc, key in Hord. simpl in Hord.
    rewrite Zle_Qle. exact Hord.
Qed.

Lemma fold_left_ext {A B} (f g : B -> A -> B) (l : list A) (b : B) :
  (forall b a, f b a = g b a) -> fold_left f l b = fold_left g l b.
Proof.
  intro H. revert b. induction l as [| a l IH]; intro b; [reflexivity |].
  simpl. rewrite H. apply IH.
Qed.

(** X3: [genre_distribution] counts, for every genre, the borrowing
    records whose book is in the catalog and carries the genre (once per
    occurrence of the genre in the book's list); records of books that are
    not in the catalog count for nothing, and a genre that is never counted
    has no entry. *)
Theorem genre_distribution_counts (e : Engine.t) (g : string) :
  Dict.get g (Engine.genre_distribution (Engine.get_analytics e))
  = if occurrences g
         (flat_map (record_genres (Engine.books_catalog e))
                   (Engine.borrowing_records e)) =? 0
    then None
    else Some (occurrences g
                 (flat_map (record_genres (Engine.books_catalog e))
                           (Engine.borrowing_records e))).
Proof.
  unfold Engine.get_analytics. cbn [Engine.genre_distribution].
  rewrite (fold_left_ext _
             (fun d r => fold_left (fun d g => Engine.incr g d)
                           (record_genres (Engine.books_catalog e) r) d)).
  - rewrite fold_left_on_flat_map, tally_get. reflexivity.
  - intros d r. unfold record_genres.
    destruct (Dict.get (r_book_id r) (Engine.books_catalog e)); reflexivity.
Qed.

(** ** The cells of the fitted interaction matrix *)

Lemma mem_set_list (x : string) (l : list string) :
  Py.mem x (Py.set_list l) = Py.mem x l.
Proof.
  destruct (Py.mem x l) eqn:E.
  - apply mem_In. apply set_list_In. apply mem_In. exact E.
  - apply mem_not_In. rewrite set_list_In. apply mem_not_In. exact E.
Qed.

Lemma set_loc_labels (m : DataFrame) (u b : string) (v : Q) :
  df_index (set_loc m u b v) = df_index m
  /\ df_columns (set_loc m u b v) = df_columns m.
Proof.
  unfold set_loc. destruct (Dict.get u (df_rows m)); auto.
Qed.

Lemma fill_labels (records : list BorrowingRecord) (m : DataFrame) :
  df_index (CollaborativeFilter.fill records m) = df_index m
  /\ df_columns (CollaborativeFilter.fill records m) = df_columns m.
Proof.
  unfold CollaborativeFilter.fill. revert m.
  induction records as [| r l IH]; intro m; simpl; [auto |].
  destruct (IH (set_loc m (r_student_id r) (r_book_id r)
                  (CollaborativeFilter.record_value r))) as [H1 H2].
  destruct (set_loc_labels m (r_student_id r) (r_book_id r)
              (CollaborativeFilter.record_value r)) as [H3 H4].
  rewrite H1, H2, H3, H4. auto.
Qed.

Lemma set_loc_no_row (m : DataFrame) (u b : string) (v : Q) (u' : string) :
  Dict.get u' (df_rows m) = None ->
  Dict.get u' (df_rows (set_loc m u b v)) = None.
Proof.
  intro H. unfold set_loc.
  destruct (Dict.get u (df_rows m)) as [r |] eqn:G; [| exact H].
  simpl. rewrite get_set. destruct (String.eqb u u') eqn:E; [| exact H].
  apply String.eqb_eq in E. congruence.
Qed.

Lemma fill_no_row (records : list BorrowingRecord) (m : DataFrame)
  (u b : string) :
  Dict.get u (df_rows m) = None ->
  loc (CollaborativeFilter.fill records m) u b = None.
Proof.
  unfold CollaborativeFilter.fill. revert m.
  induction records as [| r l IH]; intros m H; simpl.
  - unfold loc, loc_row. rewrite H. reflexivity.
  - apply IH. apply set_loc_no_row. exact H.
Qed.

Lemma new_frame_loc (index columns : list string) (u b : string) :
  loc (new_frame index columns) u b
  = if Py.mem u index && Py.mem b columns then Some 0%Q else None.
Proof.
  unfold loc, loc_row, new_frame. simpl.
  rewrite (get_map_key (fun _ => map (fun b => (b, 0%Q)) columns)).
  destruct (Py.mem u index); simpl; [| reflexivity].
  rewrite (get_map_key (fun _ => 0%Q)). reflexivity.
Qed.

(** The cell of the matrix [fit] builds, for any pair of labels. *)
Lemma fit_matrix_loc (records : list BorrowingRecord) (u b : string) :
  loc (CollaborativeFilter.fill records
         (new_frame (Py.set_list (map r_student_id records))
                    (Py.set_list (map r_book_id records)))) u b
  = if Py.mem u (map r_student_id records)
       && Py.mem b (map r_book_id records)
    then Some match Spec.find_last
                      (fun x => String.eqb (r_student_id x) u
                                && String.eqb (r_book_id x) b) records with
              | Some r => CollaborativeFilter.record_value r
              | None => 0%Q
              end
    else None.
Proof.
  rewrite <- (mem_set_list u), <- (mem_set_list b).
  set (users := Py.set_list (map r_student_id records)).
  set (books := Py.set_list (map r_book_id records)).
  destruct (Py.mem u users) eqn:Eu.
  - rewrite fill_loc by (apply new_frame_has_row, mem_In; exact Eu).
    destruct (Spec.find_last _ records) as [r |] eqn:Ef.
    + apply find_last_Some in Ef. destruct Ef as [Hin Hp].
      apply andb_true_iff in Hp. destruct Hp as [_ Hb].
      apply String.eqb_eq in Hb.
      assert (Hmem : Py.mem b books = true).
      { apply mem_In. apply set_list_In. rewrite <- Hb. apply in_map.
        exact Hin. }
      rewrite Hmem. reflexivity.
    + rewrite new_frame_loc, Eu. simpl.
      destruct (Py.mem b books); reflexivity.
  - simpl. apply fill_no_row. unfold new_frame. simpl.
    rewrite (get_map_key (fun _ => map (fun b => (b, 0%Q)) books)).
    rewrite Eu. reflexivity.
Qed.

(** X4: the interaction matrix [fit] builds has a cell exactly for every
    (student of some record, book of some record) pair; any other pair of
    labels is a [KeyError].  A cell holds the weight of the last record of
    its pair, and 0 when the pair has no record. *)
Theorem fit_matrix_cells (cosine : list Q -> list Q -> Q)
  (records : list BorrowingRecord) (self : CollaborativeFilter.t) :
  exists m,
    CollaborativeFilter.user_item_matrix
      (CollaborativeFilter.fit cosine records self) = Some m
    /\ forall u b,
         loc m u b
         = if Py.mem u (map r_student_id records)
              && Py.mem b (map r_book_id records)
           then Some match Spec.find_last
                             (fun x => String.eqb (r_student_id x) u
                                       && String.eqb (r_book_id x) b)
                             records with
                     | Some r => CollaborativeFilter.record_value r
                     | None => 0%Q
                     end
           else None.
Proof.
  eexists. split.
  - reflexivity.
  - intros u b. apply fit_matrix_loc.
Qed.

Lemma record_value_bounds (r : BorrowingRecord) :
  valid_rating r ->
  (1 # 5 <= CollaborativeFilter.record_value r <= 6 # 5)%Q.
Proof.
  unfold valid_rating, CollaborativeFilter.record_value.
  destruct (rating r) as [z |].
  - intro Hz. destruct (z =? 0) eqn:E.
    + destruct (completed r); split; vm_compute; discriminate.
    + apply Z.eqb_neq in E.
      split; unfold Qle, Qdiv, Qmult, Qinv, inject_Z; simpl; lia.
  - intros _. destruct (completed r); split; vm_compute; discriminate.
Qed.

(** X5: when every rating is absent or between 0 and 5, every cell of the
    fitted interaction matrix is in [0, 1.2], and it is positive exactly
    when some record names the cell's student and book. *)
Theorem fit_matrix_weights (cosine : list Q -> list Q -> Q)
  (records : list BorrowingRecord) (self : CollaborativeFilter.t)
  (m : DataFrame) (u b : string) (v : Q) :
  (forall r, In r records -> valid_rating r) ->
  CollaborativeFilter.user_item_matrix
    (CollaborativeFilter.fit cosine records self) = Some m ->
  loc m u b = Some v ->
  (0 <= v <= 6 # 5)%Q
  /\ ((0 < v)%Q <-> exists r, In r records /\ r_student_id r = u
                              /\ r_book_id r = b).
Proof.
  intros Hvalid Hm Hloc. simpl in Hm. injection Hm as <-.
  rewrite fit_matrix_loc in Hloc.
  destruct (Py.mem u (map r_student_id records)
            && Py.mem b (map r_book_id records)); [| discriminate].
  injection Hloc as <-.
  destruct (Spec.find_last _ records) as [r |] eqn:Ef.
  - apply find_last_Some in Ef. destruct Ef as [Hin Hp].
    apply andb_true_iff in Hp. destruct Hp as [Hu Hb].
    apply String.eqb_eq in Hu, Hb.
    destruct (record_value_bounds r (Hvalid r Hin)) as [Hlo Hhi].
    split; [split; [lra | exact Hhi] |].
    split; [intros _; exists r; auto | intros _; lra].
  - split; [split; vm_compute; discriminate |].
    split; [intro H; vm_compute in H; discriminate |].
    intros [r [Hin [Hu Hb]]]. exfalso.
    unfold Spec.find_last in Ef.
    apply in_rev in Hin. pose proof (find_none _ _ Ef r Hin) as Hf.
    simpl in Hf. rewrite Hu, Hb, !String.eqb_refl in Hf. discriminate.
Qed.

Lemma fit_matrix_weights_witness :
  (0 <= 12 # 10 <= 6 # 5)%Q
  /\ ((0 < 12 # 10)%Q <-> exists r, In r Scenarios.twice /\ r_student_id r = "S"
                                  /\ r_book_id r = "X").
Proof.
  refine (fit_matrix_weights Examples.exact_cosine Scenarios.twice
            CollaborativeFilter.init _ "S" "X" (12 # 10) _ eq_refl eq_refl).
  intros r Hr. simpl in Hr.
  destruct Hr as [<- | [<- | []]]; vm_compute; intuition discriminate.
Defined.

(** ** Refitting on the history of a single reader *)

Lemma NoDup_constant_length (u : string) (l : list string) :
  NoDup l -> (forall x, In x l -> x = u) -> (List.length l <= 1)%nat.
Proof.
  intros Hnd Hall. destruct l as [| a [| b l]]; simpl; try lia.
  exfalso. inversion Hnd as [| ? ? Hnot _]; subst. apply Hnot.
  rewrite (Hall a) by (simpl; auto). rewrite (Hall b) by (simpl; auto).
  simpl. auto.
Qed.

(** X6: a history whose records all name one reader gives [fit] fewer than
    two users, so [fit] leaves the similarity matrix as it was.  On a model
    that had none, [recommend] for that reader returns the empty list; on a
    model whose earlier similarity matrix has no column for the reader,
    [recommend] raises [KeyError], for every [n]. *)
Theorem single_reader_refit (cosine : list Q -> list Q -> Q)
  (records : list BorrowingRecord) (self : CollaborativeFilter.t)
  (u : string) (n : Z) :
  records <> [] ->
  (forall r, In r records -> r_student_id r = u) ->
  (CollaborativeFilter.user_similarity_matrix self = None ->
   CollaborativeFilter.recommend
     (CollaborativeFilter.fit cosine records self) u n = Some [])
  /\ (forall s,
        CollaborativeFilter.user_similarity_matrix self = Some s ->
        Py.mem u (df_columns s) = false ->
        CollaborativeFilter.recommend
          (CollaborativeFilter.fit cosine records self) u n = None).
Proof.
  intros Hne Hall.
  set (users := Py.set_list (map r_student_id records)).
  assert (Hlen : (1 <? List.length users)%nat = false).
  { apply Nat.ltb_ge. apply (NoDup_constant_length u).
    - apply set_list_NoDup.
    - intros x Hx. apply (proj1 (set_list_In _ _)) in Hx.
      apply in_map_iff in Hx.
      destruct Hx as [r [<- Hr]]. apply Hall. exact Hr. }
  assert (Hmem : Py.mem u users = true).
  { apply mem_In. apply set_list_In. destruct records as [| r l].
    - contradiction.
    - simpl. left. apply Hall. simpl. auto. }
  assert (Hrec : forall sim,
            CollaborativeFilter.user_similarity_matrix self = sim ->
            CollaborativeFilter.recommend
              (CollaborativeFilter.fit cosine records self) u n
            = match sim with
              | Some s =>
                  col <- column s u ;;
                  recommendations <-
                    foldM (CollaborativeFilter.add_user
                             (CollaborativeFilter.fill records
                                (new_frame users
                                   (Py.set_list (map r_book_id records))))
                             s u)
                          (CollaborativeFilter.similar_users col)
                          Dict.empty ;;
                  Some (Py.slice_to n (Py.sorted_desc snd recommendations))
              | None => Some []
              end).
  { intros sim Hsim.
    unfold CollaborativeFilter.recommend, CollaborativeFilter.fit,
      CollaborativeFilter.fit_with.
    fold users.
    cbn [CollaborativeFilter.user_item_matrix
         CollaborativeFilter.user_similarity_matrix].
    destruct (fill_labels records
                (new_frame users (Py.set_list (map r_book_id records))))
      as [Hi _].
    rewrite Hi. cbn [new_frame df_index]. rewrite Hmem, Hlen, Hsim.
    reflexivity. }
  split.
  - intro Hnone. rewrite (Hrec None Hnone). reflexivity.
  - intros s Hs Hcol. rewrite (Hrec (Some s) Hs).
    unfold column. rewrite Hcol. reflexivity.
Qed.

Lemma single_reader_refit_witness :
  CollaborativeFilter.recommend
    (CollaborativeFilter.fit Examples.exact_cosine Scenarios.twice
       Scenarios.trio) "S" 5 = None.
Proof.
  refine (proj2 (single_reader_refit Examples.exact_cosine Scenarios.twice
                   Scenarios.trio "S" 5 _ _) _ eq_refl eq_refl).
  - discriminate.
  - intros r Hr. simpl in Hr. destruct Hr as [<- | [<- | []]]; reflexivity.
Defined.

(** ** The collaborative cold start *)

Lemma combine_map_self {A B} (f : A -> B) (l : list A) :
  combine l (map f l) = map (fun a => (a, f a)) l.
Proof.
  induction l as [| a l IH]; simpl; [reflexivity |]. rewrite IH. reflexivity.
Qed.

(** What [nlargest] returns on a series with distinct labels. *)
Lemma nlargest_top (n : Z) (s : Series) :
  NoDup (map fst s) ->
  List.length (nlargest n s) = Nat.min (Z.to_nat n) (List.length s)
  /\ NoDup (map fst (nlargest n s))
  /\ StronglySorted (Py.desc snd) (nlargest n s)
  /\ (forall x, In x (nlargest n s) -> In x s)
  /\ (forall x y, In x (nlargest n s) -> In y s ->
                  ~ In (fst y) (map fst (nlargest n s)) ->
                  (snd y <= snd x)%Q).
Proof.
  intro Hnd. unfold nlargest.
  assert (Hperm := sorted_desc_perm snd s).
  split.
  { rewrite length_firstn. rewrite (Permutation_length Hperm). reflexivity. }
  split.
  { rewrite <- firstn_map. apply NoDup_firstn.
    eapply Permutation_NoDup; [| exact Hnd].
    apply Permutation_map. symmetry. exact Hperm. }
  split; [apply firstn_sorted, sorted_desc_sorted |].
  split; [intros x Hx; apply firstn_In in Hx; apply sorted_sub in Hx;
          exact Hx |].
  intros x y Hx Hy Hout.
  apply (Permutation_in _ (Permutation_sym Hperm)) in Hy.
  rewrite <- (firstn_skipn (Z.to_nat n) (Py.sorted_desc snd s)) in Hy.
  apply in_app_or in Hy. destruct Hy as [Hy | Hy].
  - exfalso. apply Hout. apply in_map. exact Hy.
  - pose proof (sorted_desc_sorted snd s) as Hs.
    rewrite <- (firstn_skipn (Z.to_nat n) (Py.sorted_desc snd s)) in Hs.
    exact (sorted_app_order _ _ _ Hs _ _ Hx Hy).
Qed.

(** The column sums of the fitted matrix are the books' summed weights. *)
Lemma fit_column_sums (records : list BorrowingRecord) :
  sum_axis0 (CollaborativeFilter.fill records
               (new_frame (Py.set_list (map r_student_id records))
                          (Py.set_list (map r_book_id records))))
  = map (fun b => (b, book_weight records b))
        (Py.set_list (map r_book_id records)).
Proof.
  set (users := Py.set_list (map r_student_id records)).
  set (books := Py.set_list (map r_book_id records)).
  set (m := CollaborativeFilter.fill records (new_frame users books)).
  destruct (fill_ok records (new_frame users books)) as [Hok [Hi Hc]].
  { apply new_frame_ok; apply set_list_NoDup. }
  { intros r Hr. simpl. apply set_list_In. apply in_map. exact Hr. }
  fold m in Hok, Hi, Hc. simpl in Hi, Hc.
  destruct (frame_ok_parts m Hok) as [Hni [_ [Hk _]]].
  unfold sum_axis0, frame_T_values. rewrite Hc, map_map, combine_map_self.
  apply map_ext_in. intros b Hb. f_equal. unfold book_weight. f_equal.
  fold users. rewrite <- Hi, <- Hk. unfold Dict.keys. rewrite map_map.
  apply map_ext_in. intros [v row] Hr. simpl.
  assert (Hloc : loc m v b = Dict.get b row).
  { unfold loc, loc_row. rewrite (get_of_NoDup _ v row); [reflexivity | |].
    - rewrite Hk. exact Hni.
    - exact Hr. }
  unfold m in Hloc. rewrite fit_matrix_loc in Hloc. fold users books in Hloc.
  assert (Hv : Py.mem v (map r_student_id records) = true).
  { rewrite <- mem_set_list. fold users. apply mem_In. rewrite <- Hi, <- Hk.
    apply (in_map fst) in Hr. exact Hr. }
  assert (Hb' : Py.mem b (map r_book_id records) = true).
  { rewrite <- mem_set_list. apply mem_In. exact Hb. }
  rewrite Hv, Hb' in Hloc. simpl in Hloc. rewrite <- Hloc. reflexivity.
Qed.

(** X7: for a student id that no record of the fitted history names,
    [CollaborativeFilter.recommend] returns (without raising) the
    [min(n, number of books)] books of the history with the largest summed
    weights, in descending order and each once, every one with its summed
    weight as score; no book of the history left out has a larger sum than
    a returned one.  A non-positive [n] gives the empty list. *)
Theorem collaborative_cold_start (cosine : list Q -> list Q -> Q)
  (records : list BorrowingRecord) (self : CollaborativeFilter.t)
  (u : string) (n : Z) :
  Py.mem u (map r_student_id records) = false ->
  exists out,
    CollaborativeFilter.recommend
      (CollaborativeFilter.fit cosine records self) u n = Some out
    /\ List.length out
       = Nat.min (Z.to_nat n)
                 (List.length (Py.set_list (map r_book_id records)))
    /\ NoDup (map fst out)
    /\ StronglySorted (Py.desc snd) out
    /\ (forall b s, In (b, s) out ->
                    In b (map r_book_id records)
                    /\ s = book_weight records b)
    /\ (forall b s b', In (b, s) out -> In b' (map r_book_id records) ->
                       ~ In b' (map fst out) ->
                       (book_weight records b' <= s)%Q).
Proof.
  intro Hu.
  set (books := Py.set_list (map r_book_id records)).
  set (series := map (fun b => (b, book_weight records b)) books).
  assert (Hkeys : map fst series = books).
  { unfold series. rewrite map_map. simpl. apply map_id. }
  assert (Hnd : NoDup (map fst series)).
  { rewrite Hkeys. apply set_list_NoDup. }
  destruct (nlargest_top n series Hnd) as [Hlen [Hnd' [Hs [Hsub Htop]]]].
  exists (nlargest n series). split.
  { unfold CollaborativeFilter.recommend, CollaborativeFilter.fit,
      CollaborativeFilter.fit_with.
    cbn [CollaborativeFilter.user_item_matrix]. fold books.
    destruct (fill_labels records
                (new_frame (Py.set_list (map r_student_id records)) books))
      as [Hi _].
    rewrite Hi. cbn [new_frame df_index]. rewrite mem_set_list, Hu.
    cbn [negb]. unfold books. rewrite fit_column_sums. reflexivity. }
  split.
  { rewrite Hlen. unfold series. rewrite length_map. reflexivity. }
  split; [exact Hnd' |]. split; [exact Hs |]. split.
  - intros b s Hin. apply Hsub in Hin. unfold series in Hin.
    apply in_map_iff in Hin. destruct Hin as [b0 [Heq Hb0]].
    injection Heq as -> <-. split; [| reflexivity].
    apply (proj1 (set_list_In _ _)). exact Hb0.
  - intros b s b' Hin Hb' Hout.
    apply (Htop (b, s) (b', book_weight records b') Hin); [| exact Hout].
    unfold series. apply in_map_iff. exists b'. split; [reflexivity |].
    apply set_list_In. exact Hb'.
Qed.

Lemma collaborative_cold_start_witness :
  exists out,
    CollaborativeFilter.recommend
      (CollaborativeFilter.fit Examples.exact_cosine Scenarios.trio_records
         CollaborativeFilter.init) "S" 1 = Some out
    /\ List.length out
       = Nat.min (Z.to_nat 1)
           (List.length
              (Py.set_list (map r_book_id Scenarios.trio_records)))
    /\ NoDup (map fst out)
    /\ StronglySorted (Py.desc snd) out
    /\ (forall b s, In (b, s) out ->
                    In b (map r_book_id Scenarios.trio_records)
                    /\ s = book_weight Scenarios.trio_records b)
    /\ (forall b s b', In (b, s) out ->
                       In b' (map r_book_id Scenarios.trio_records) ->
                       ~ In b' (map fst out) ->
                       (book_weight Scenarios.trio_records b' <= s)%Q).
Proof.
  exact (collaborative_cold_start Examples.exact_cosine
           Scenarios.trio_records CollaborativeFilter.init "S" 1 eq_refl).
Defined.

(** ** The explanation text of the score enhancer *)

Section Reasons.
Import LLMRecommender.
Variables (student : Student) (b : Book).

Lemma genre_rule_reasons acc :
  exists extra,
    snd (genre_rule student b acc) = (snd acc ++ extra)%list
    /\ List.length extra = (if genre_match student b then 1 else 0)%nat.
Proof.
  unfold genre_rule, genre_match. rewrite <- filter_nil_existsb.
  destruct (filter _ (genre b)); simpl.
  - exists []. rewrite app_nil_r. auto.
  - eexists. split; reflexivity.
Qed.

Lemma level_rule_reasons acc :
  exists extra,
    snd (level_rule student b acc) = (snd acc ++ extra)%list
    /\ List.length extra = (if level_match student b then 1 else 0)%nat.
Proof.
  unfold level_rule, level_match. destruct (String.eqb _ _); simpl.
  - eexists. split; reflexivity.
  - exists []. rewrite app_nil_r. auto.
Qed.

Lemma interest_rule_reasons acc :
  exists extra,
    snd (interest_rule student b acc) = (snd acc ++ extra)%list
    /\ List.length extra = (if interest_match student b then 1 else 0)%nat.
Proof.
  unfold interest_rule, interest_match, Py.set_inter.
  rewrite <- filter_nil_existsb.
  destruct (filter _ (interest_keywords student)); simpl.
  - exists []. rewrite app_nil_r. auto.
  - eexists. split; reflexivity.
Qed.

Lemma reasons_count :
  List.length
    (snd (interest_rule student b
            (level_rule student b (genre_rule student b (0%Q, [])))))
  = ((if genre_match student b then 1 else 0)
     + (if level_match student b then 1 else 0)
     + (if interest_match student b then 1 else 0))%nat.
Proof.
  destruct (genre_rule_reasons (0%Q, [])) as [e1 [H1 L1]].
  destruct (level_rule_reasons (genre_rule student b (0%Q, [])))
    as [e2 [H2 L2]].
  destruct (interest_rule_reasons
              (level_rule student b (genre_rule student b (0%Q, []))))
    as [e3 [H3 L3]].
  rewrite H3, H2, H1. simpl snd. rewrite !length_app. simpl. lia.
Qed.
End Reasons.

Lemma explanation_generic (reasons : list string) :
  LLMRecommender.explanation reasons
  = "This book offers a new reading experience to expand your horizons."
  <-> reasons = [].
Proof.
  split.
  - destruct reasons as [| r l]; [reflexivity |]. simpl. discriminate.
  - intros ->. reflexivity.
Qed.

(** X8: the explanation [_mock_llm_enhancement] returns does not depend on
    the base score; it is the generic sentence exactly when none of the
    three rules (genre, reading level, interest word) applies, and in that
    case the score is [min(1.0, baseScore)], nothing added. *)
Theorem enhancement_explanation (student : Student) (b : Book)
  (base_score : Q) :
  (forall other_score,
     snd (LLMRecommender.mock_llm_enhancement student b other_score)
     = snd (LLMRecommender.mock_llm_enhancement student b base_score))
  /\ (snd (LLMRecommender.mock_llm_enhancement student b base_score)
      = "This book offers a new reading experience to expand your horizons."
      <-> LLMRecommender.genre_match student b = false
          /\ LLMRecommender.level_match student b = false
          /\ LLMRecommender.interest_match student b = false)
  /\ (LLMRecommender.genre_match student b = false ->
      LLMRecommender.level_match student b = false ->
      LLMRecommender.interest_match student b = false ->
      fst (LLMRecommender.mock_llm_enhancement student b base_score)
      = Py.min 1 (base_score + 0))%Q.
Proof.
  split; [reflexivity |]. split.
  - unfold LLMRecommender.mock_llm_enhancement. simpl snd.
    rewrite explanation_generic.
    pose proof (reasons_count student b) as Hc.
    destruct (snd _) as [| r l].
    + simpl in Hc.
      destruct (LLMRecommender.genre_match student b),
               (LLMRecommender.level_match student b),
               (LLMRecommender.interest_match student b);
        simpl in Hc; try discriminate; tauto.
    + split; [discriminate |]. intros [H1 [H2 H3]].
      rewrite H1, H2, H3 in Hc. discriminate.
  - intros H1 H2 H3. unfold LLMRecommender.mock_llm_enhancement. simpl fst.
    rewrite interest_rule_boost, level_rule_boost, genre_rule_boost.
    rewrite H1, H2, H3. reflexivity.
Qed.

(** ** What [recommend] returns *)

Lemma min_one_le (x : Q) : (Py.min 1 x <= 1)%Q.
Proof.
  unfold Py.min, Py.Qltb. destruct (Qle_bool 1 x) eqn:E; simpl.
  - apply Qle_refl.
  - destruct (Qlt_le_dec x 1) as [H | H].
    + apply Qlt_le_weak. exact H.
    + apply Qle_bool_iff in H. congruence.
Qed.

Lemma min_one_nonneg (x : Q) : (0 <= x)%Q -> (0 <= Py.min 1 x)%Q.
Proof.
  intro H. unfold Py.min. destruct (Py.Qltb x 1); [exact H |].
  vm_compute. discriminate.
Qed.

Lemma history_share_nonneg (student : Student) (k : Z) :
  0 < k -> (0 <= Engine.history_len student / inject_Z k)%Q.
Proof.
  intro Hk. unfold Engine.history_len. apply inject_Z_div_nonneg; lia.
Qed.

Lemma slice_to_sorted {A} (R : A -> A -> Prop) (n : Z) (l : list A) :
  StronglySorted R l -> StronglySorted R (Py.slice_to n l).
Proof.
  intro H. unfold Py.slice_to. destruct (0 <=? n); apply firstn_sorted; exact H.
Qed.

Lemma sorted_map {A B} (R : A -> A -> Prop) (S : B -> B -> Prop)
  (f : A -> B) (l : list A) :
  (forall a b, R a b -> S (f a) (f b)) ->
  StronglySorted R l -> StronglySorted S (map f l).
Proof.
  intros Hf H. induction H as [| x l Hs IH Hx]; simpl; constructor.
  - exact IH.
  - apply Forall_forall. intros y Hy. apply in_map_iff in Hy.
    destruct Hy as [a [<- Ha]]. apply Hf. rewrite Forall_forall in Hx.
    apply Hx. exact Ha.
Qed.

Lemma get_In_values {V} (k : string) (v : V) (d : Dict.t V) :
  Dict.get k d = Some v -> In v (Dict.values d).
Proof. intro H. apply (In_values k). apply get_Some_In. exact H. Qed.

Lemma add_collab_shape (e : Engine.t) (student : Student)
  (recs : list Recommendation) (c : string * Q) :
  Forall (fun r => rec_shape e r /\ strategy r <> "popularity") recs ->
  Forall (fun r => rec_shape e r /\ strategy r <> "popularity")
         (Engine.add_collab e student recs c).
Proof.
  intro H. unfold Engine.add_collab.
  destruct (Dict.get (fst c) (Engine.books_catalog e)) as [b |] eqn:G;
    [| exact H].
  apply Forall_app. split; [exact H |]. constructor; [| constructor].
  split; [| simpl; discriminate].
  unfold rec_shape. simpl. split; [apply (get_In_values _ _ _ G) |]. split.
  - split; [apply min_one_nonneg, history_share_nonneg; lia
           | apply min_one_le].
  - right. left. split; [reflexivity | apply min_one_le].
Qed.

Lemma add_content_shape (e : Engine.t) (student : Student)
  (recs : list Recommendation) (c : string * Q) :
  Forall (fun r => rec_shape e r /\ strategy r <> "popularity") recs ->
  Forall (fun r => rec_shape e r /\ strategy r <> "popularity")
         (Engine.add_content e student recs c).
Proof.
  intro H. unfold Engine.add_content.
  destruct (Dict.get (fst c) (Engine.books_catalog e)) as [b |] eqn:G;
    [| exact H].
  destruct (negb (Engine.in_recs (fst c) recs)); [| exact H].
  apply Forall_app. split; [exact H |]. constructor; [| constructor].
  split; [| simpl; discriminate].
  unfold rec_shape. simpl. split; [apply (get_In_values _ _ _ G) |]. split.
  - split; [apply min_one_nonneg, history_share_nonneg; lia
           | apply min_one_le].
  - right. right. left. split; [reflexivity | apply min_one_le].
Qed.

Lemma fold_left_Forall {A B} (P : B -> Prop) (f : list B -> A -> list B)
  (l : list A) (acc : list B) :
  (forall acc a, Forall P acc -> Forall P (f acc a)) ->
  Forall P acc -> Forall P (fold_left f l acc).
Proof.
  intro Hf. revert acc. induction l as [| a l IH]; intros acc H; simpl.
  - exact H.
  - apply IH. apply Hf. exact H.
Qed.

Lemma diversity_scan_shape (e : Engine.t) (student : Student)
  (explored : list string) (n : Z) (books : list Book)
  (recs : list Recommendation) :
  incl books (Dict.values (Engine.books_catalog e)) ->
  Forall (fun r => rec_shape e r /\ strategy r <> "popularity") recs ->
  Forall (fun r => rec_shape e r /\ strategy r <> "popularity")
         (Engine.diversity_scan student explored n books recs).
Proof.
  revert recs. induction books as [| b rest IH]; intros recs Hb H; simpl.
  - exact H.
  - assert (Hrest : incl rest (Dict.values (Engine.books_catalog e))).
    { intros x Hx. apply Hb. right. exact Hx. }
    destruct (Engine.diverse student explored b); [| apply IH; assumption].
    assert (H' : Forall (fun r => rec_shape e r
                                  /\ strategy r <> "popularity")
                   (recs ++ [Engine.diversity_rec explored b])).
    { apply Forall_app. split; [exact H |]. constructor; [| constructor].
      split; [| simpl; discriminate].
      unfold rec_shape. simpl. split; [apply Hb; left; reflexivity |].
      split; [split; vm_compute; discriminate |].
      right. right. right. auto. }
    destruct (n <=? _); [exact H' | apply IH; assumption].
Qed.

Lemma rec_shape_tag (e : Engine.t) (r : Recommendation) :
  rec_shape e r -> In (strategy r) strategy_tags.
Proof.
  intros [_ [_ [[H _] | [[H _] | [[H _] | [H _]]]]]]; rewrite H; simpl; auto.
Qed.

(** X9: whenever [recommend] returns, for any engine state, student id and
    [n]: the list is in descending score order; every entry's book is an
    entry of the catalog; every confidence is in [0, 1]; and every entry
    carries one of the four tags "popularity" (score the book's popularity,
    confidence 0.5), "collaborative" or "content" (score at most 1.0) or
    "diversity" (score 0.7 + 0.3 x popularity, confidence 0.6).  An id that
    is not in the student store gets "popularity" entries only, an id that
    is in it gets none. *)
Theorem recommend_entries (cosine : list Q -> list Q -> Q) (e : Engine.t)
  (sid : string) (n : Z) (recs : list Recommendation) :
  Engine.recommend cosine e sid n = Some recs ->
  StronglySorted (Py.desc score) recs
  /\ Forall (rec_shape e) recs
  /\ Forall (fun r => In (strategy r) strategy_tags) recs
  /\ Forall (fun r => strategy r = "popularity"
                      <-> Dict.get sid (Engine.students e) = None) recs.
Proof.
  intro H.
  assert (Hcore : StronglySorted (Py.desc score) recs
                  /\ Forall (fun r =>
                               rec_shape e r
                               /\ (strategy r = "popularity"
                                   <-> Dict.get sid (Engine.students e)
                                       = None)) recs).
  { unfold Engine.recommend in H.
    destruct (Dict.get sid (Engine.students e)) as [student |] eqn:G.
    - destruct (CollaborativeFilter.recommend _ _ _) as [collab |];
        [| discriminate].
      simpl in H.
      destruct (ContentBasedFilter.recommend _ _ _ _) as [content |];
        [| discriminate].
      simpl in H. injection H as <-.
      split; [apply slice_to_sorted, sorted_desc_sorted |].
      apply Forall_forall. intros r Hr.
      apply slice_to_In in Hr. apply sorted_sub in Hr.
      assert (H3 : Forall (fun r => rec_shape e r
                                    /\ strategy r <> "popularity")
                     (Engine.diversity e student n
                        (fold_left (Engine.add_content e student)
                           (Py.slice_to (n / 2) content)
                           (fold_left (Engine.add_collab e student)
                              (Py.slice_to (n / 2) collab) [])))).
      { assert (H2 : Forall (fun r => rec_shape e r
                                      /\ strategy r <> "popularity")
                       (fold_left (Engine.add_content e student)
                          (Py.slice_to (n / 2) content)
                          (fold_left (Engine.add_collab e student)
                             (Py.slice_to (n / 2) collab) []))).
        { apply fold_left_Forall;
            [intros; apply add_content_shape; assumption |].
          apply fold_left_Forall;
            [intros; apply add_collab_shape; assumption |].
          constructor. }
        unfold Engine.diversity. destruct (_ <? n); [| exact H2].
        apply diversity_scan_shape; [apply incl_refl | exact H2]. }
      rewrite Forall_forall in H3. destruct (H3 r Hr) as [Hs Hp].
      split; [exact Hs |]. split; [contradiction | discriminate].
    - injection H as <-. unfold Engine.get_popular_books. split.
      + apply (sorted_map (Py.desc popularity_score));
          [intros a b Hab; exact Hab |].
        apply slice_to_sorted, sorted_desc_sorted.
      + apply Forall_forall. intros r Hr. apply in_map_iff in Hr.
        destruct Hr as [b [<- Hb]]. apply slice_to_In in Hb.
        apply sorted_sub in Hb.
        split; [| split; reflexivity].
        unfold rec_shape. simpl. split; [exact Hb |].
        split; [split; vm_compute; discriminate |]. left. auto. }
  destruct Hcore as [Hs Hall]. split; [exact Hs |].
  rewrite Forall_forall in Hall.
  split; [| split]; apply Forall_forall; intros r Hr;
    destruct (Hall r Hr) as [H1 H2].
  - exact H1.
  - apply (rec_shape_tag e). exact H1.
  - exact H2.
Qed.

Lemma recommend_entries_witness :
  exists recs,
    Engine.recommend Examples.exact_cosine Fixtures.library "S" 2 = Some recs
    /\ StronglySorted (Py.desc score) recs
    /\ Forall (rec_shape Fixtures.library) recs
    /\ Forall (fun r => In (strategy r) strategy_tags) recs
    /\ Forall (fun r => strategy r = "popularity"
                        <-> Dict.get "S" (Engine.students Fixtures.library)
                            = None) recs.
Proof.
  eexists. split; [reflexivity |].
  apply (recommend_entries Examples.exact_cosine Fixtures.library "S" 2).
  reflexivity.
Defined.

(** ** The two stores of a loaded engine *)

Lemma set_store_ok {V} (id : V -> string) (v : V) (d : Dict.t V) :
  store_ok id d -> store_ok id (Dict.set (id v) v d).
Proof.
  intros [Hnd Hid]. split.
  - apply set_keys_NoDup. exact Hnd.
  - intros kv Hkv. apply In_set in Hkv. destruct Hkv as [-> | Hkv].
    + reflexivity.
    + apply Hid. exact Hkv.
Qed.

Lemma store_fold_ok {V} (id : V -> string) (l : list V) (d : Dict.t V) :
  store_ok id d ->
  store_ok id (fold_left (fun c x => Dict.set (id x) x c) l d).
Proof.
  revert d. induction l as [| x l IH]; intros d H; simpl; [exact H |].
  apply IH. apply set_store_ok. exact H.
Qed.

Lemma update_popularity_store_ok (counts : Dict.t Z) (catalog : Dict.t Book) :
  store_ok book_id catalog ->
  store_ok book_id (Engine.update_popularity counts catalog).
Proof.
  unfold Engine.update_popularity, Dict.items.
  generalize (Engine.max_count counts). intro m.
  revert catalog. induction counts as [| [k c] counts IH]; intros catalog H;
    [exact H |].
  cbn [fold_left fst snd].
  destruct (Dict.get k catalog) as [b |] eqn:G; [| apply IH; exact H].
  apply IH. destruct H as [Hnd Hid].
  assert (Hk : book_id b = k).
  { apply (Hid (k, b)). apply get_Some_In. exact G. }
  rewrite <- Hk at 1.
  change (book_id b)
    with (book_id (set_popularity_score b (inject_Z c / inject_Z m))).
  apply set_store_ok. split; assumption.
Qed.

Lemma loaded_store_ok (tfidf : list string -> list (list Q))
  (cosine : list Q -> list Q -> Q) (e : Engine.t) :
  loaded tfidf cosine e ->
  store_ok book_id (Engine.books_catalog e)
  /\ store_ok student_id (Engine.students e).
Proof.
  intro H.
  induction H as [| books e _ [IHb IHs] | l e _ [IHb IHs]
                  | records e _ [IHb IHs]]; simpl.
  - split; (split; [constructor | intros kv []]).
  - split; [apply store_fold_ok; exact IHb | exact IHs].
  - split; [exact IHb | apply store_fold_ok; exact IHs].
  - split; [apply update_popularity_store_ok; exact IHb | exact IHs].
Qed.

(** X10: in every engine reached from [__init__] by [load_catalog],
    [load_students] and [load_borrowing_history], in any order and any
    number of times, each store holds every entry under the entry's own id
    and no id twice, so looking a stored book or student up by its id
    returns that very entry. *)
Theorem loaded_stores (tfidf : list string -> list (list Q))
  (cosine : list Q -> list Q -> Q) (e : Engine.t) :
  loaded tfidf cosine e ->
  (store_ok book_id (Engine.books_catalog e)
   /\ store_ok student_id (Engine.students e))
  /\ (forall b, In b (Dict.values (Engine.books_catalog e)) ->
                Dict.get (book_id b) (Engine.books_catalog e) = Some b)
  /\ (forall s, In s (Dict.values (Engine.students e)) ->
                Dict.get (student_id s) (Engine.students e) = Some s).
Proof.
  intro H.
  pose proof (loaded_store_ok tfidf cosine e H) as Hok.
  split; [exact Hok |]. destruct Hok as [[Hnb Hib] [Hns His]].
  split.
  - intros b Hb. unfold Dict.values in Hb. apply in_map_iff in Hb.
    destruct Hb as [[k v] [Hv Hin]]. simpl in Hv. subst v.
    apply get_of_NoDup; [exact Hnb |].
    pose proof (Hib (k, b) Hin) as Hk. simpl in Hk. rewrite Hk. exact Hin.
  - intros s Hs. unfold Dict.values in Hs. apply in_map_iff in Hs.
    destruct Hs as [[k v] [Hv Hin]]. simpl in Hv. subst v.
    apply get_of_NoDup; [exact Hns |].
    pose proof (His (k, s) Hin) as Hk. simpl in Hk. rewrite Hk. exact Hin.
Qed.

Lemma loaded_stores_witness :
  (store_ok book_id
     (Engine.books_catalog
        (Scenarios.reloaded (fun docs => map (fun _ => [1%Q]) docs)
           Examples.exact_cosine))
   /\ store_ok student_id
        (Engine.students
           (Scenarios.reloaded (fun docs => map (fun _ => [1%Q]) docs)
              Examples.exact_cosine)))
  /\ (forall b,
        In b (Dict.values
                (Engine.books_catalog
                   (Scenarios.reloaded (fun docs => map (fun _ => [1%Q]) docs)
                      Examples.exact_cosine))) ->
        Dict.get (book_id b)
          (Engine.books_catalog
             (Scenarios.reloaded (fun docs => map (fun _ => [1%Q]) docs)
                Examples.exact_cosine)) = Some b)
  /\ (forall s,
        In s (Dict.values
                (Engine.students
                   (Scenarios.reloaded (fun docs => map (fun _ => [1%Q]) docs)
                      Examples.exact_cosine))) ->
        Dict.get (student_id s)
          (Engine.students
             (Scenarios.reloaded (fun docs => map (fun _ => [1%Q]) docs)
                Examples.exact_cosine)) = Some s).
Proof.
  apply (loaded_stores (fun docs => map (fun _ => [1%Q]) docs)
           Examples.exact_cosine).
  unfold Scenarios.reloaded. repeat constructor.
Defined.

(** ** The content filter in any state *)

(** X11: when the vectoriser returns one row per document,
    [ContentBasedFilter.fit] leaves the filter with as many feature rows as
    fitted ids, whatever state it was in, unless the catalog is empty; the
    fitted ids are the ids of the books of this call, in order; and after a
    fit on an empty catalog [recommend] returns the empty list for every
    student, even where an earlier fit left feature rows behind. *)
Theorem content_fit_features (tfidf : list string -> list (list Q))
  (books : list Book) (self : ContentBasedFilter.t) :
  (forall docs, List.length (tfidf docs) = List.length docs) ->
  features_ok (ContentBasedFilter.fit tfidf books self) = true
  /\ ContentBasedFilter.book_ids (ContentBasedFilter.fit tfidf books self)
     = map book_id books
  /\ (books <> [] ->
      exists f,
        ContentBasedFilter.book_features
          (ContentBasedFilter.fit tfidf books self) = Some f
        /\ List.length f = List.length books)
  /\ (forall cosine student n,
        ContentBasedFilter.recommend cosine
          (ContentBasedFilter.fit tfidf [] self) student n = Some []).
Proof.
  intro Hrows. split; [| split; [reflexivity | split]].
  - unfold features_ok, ContentBasedFilter.fit. simpl.
    destruct books as [| b rest]; simpl.
    + destruct (ContentBasedFilter.book_features self); reflexivity.
    + rewrite Hrows. simpl. rewrite !length_map. apply Nat.eqb_refl.
  - intro Hne. destruct books as [| b rest]; [contradiction |].
    eexists. split; [reflexivity |]. rewrite Hrows. simpl.
    rewrite length_map. reflexivity.
  - intros cosine student n.
    unfold ContentBasedFilter.recommend, ContentBasedFilter.fit. simpl.
    destruct (ContentBasedFilter.book_features self); [| reflexivity].
    destruct (reading_history student) as [| h hs] eqn:Eh; [reflexivity |].
    unfold ContentBasedFilter.history_indices. simpl.
    assert (Hnil : forall l : list string,
              flat_map (fun id => match Py.index_of id [] with
                                  | Some i => [i]
                                  | None => []
                                  end) l = @nil nat).
    { intro ids. induction ids as [| x ids IH]; [reflexivity |]. simpl.
      exact IH. }
    rewrite Hnil. reflexivity.
Qed.

Lemma content_fit_features_witness :
  features_ok
    (ContentBasedFilter.fit (fun docs => map (fun _ => [1%Q]) docs)
       [Examples.bookX; Examples.bookY] Scenarios.shelf) = true
  /\ ContentBasedFilter.book_ids
       (ContentBasedFilter.fit (fun docs => map (fun _ => [1%Q]) docs)
          [Examples.bookX; Examples.bookY] Scenarios.shelf)
     = map book_id [Examples.bookX; Examples.bookY]
  /\ ([Examples.bookX; Examples.bookY] <> [] ->
      exists f,
        ContentBasedFilter.book_features
          (ContentBasedFilter.fit (fun docs => map (fun _ => [1%Q]) docs)
             [Examples.bookX; Examples.bookY] Scenarios.shelf) = Some f
        /\ List.length f = List.length [Examples.bookX; Examples.bookY])
  /\ (forall cosine student n,
        ContentBasedFilter.recommend cosine
          (ContentBasedFilter.fit (fun docs => map (fun _ => [1%Q]) docs)
             [] Scenarios.shelf) student n = Some []).
Proof.
  apply (content_fit_features (fun docs => map (fun _ => [1%Q]) docs)
           [Examples.bookX; Examples.bookY] Scenarios.shelf).
  intro docs. apply length_map.
Defined.

Lemma keep_unread_entries (self : ContentBasedFilter.t) (student : Student)
  (l : list (nat * Q)) :
  forall recs out,
    foldM (ContentBasedFilter.keep_unread self student) l recs = Some out ->
    forall p, In p out ->
      In p recs
      \/ (In (fst p) (ContentBasedFilter.book_ids self)
          /\ Py.mem (fst p) (reading_history student) = false).
Proof.
  induction l as [| [i s] l IH]; intros recs out H p Hp.
  - simpl in H. injection H as <-. left. exact Hp.
  - cbn [foldM] in H. unfold ContentBasedFilter.keep_unread at 1 in H.
    cbn [fst snd] in H.
    destruct (nth_error (ContentBasedFilter.book_ids self) i) as [id |] eqn:En;
      [| discriminate].
    cbn [bind] in H.
    destruct (IH _ _ H p Hp) as [Hin | Hnew]; [| right; exact Hnew].
    destruct (negb (Py.mem id (reading_history student))) eqn:Em;
      [| left; exact Hin].
    apply in_app_or in Hin. destruct Hin as [Hin | [<- | []]];
      [left; exact Hin |].
    right. simpl. split; [apply (nth_error_In _ _ En) |].
    apply negb_true_iff. exact Em.
Qed.

Lemma keep_unread_distinct (self : ContentBasedFilter.t) (student : Student)
  (l : list (nat * Q)) :
  NoDup (ContentBasedFilter.book_ids self) ->
  forall recs out,
    NoDup (map fst l) ->
    NoDup (map fst recs) ->
    (forall p, In p recs ->
       exists j, nth_error (ContentBasedFilter.book_ids self) j
                 = Some (fst p)
                 /\ ~ In j (map fst l)) ->
    foldM (ContentBasedFilter.keep_unread self student) l recs = Some out ->
    NoDup (map fst out).
Proof.
  intro Hids. induction l as [| [i s] l IH]; intros recs out Hl Hr Hidx H.
  - simpl in H. injection H as <-. exact Hr.
  - cbn [foldM] in H. unfold ContentBasedFilter.keep_unread at 1 in H.
    cbn [fst snd] in H.
    destruct (nth_error (ContentBasedFilter.book_ids self) i) as [id |] eqn:En;
      [| discriminate].
    cbn [bind] in H. simpl in Hl. inversion Hl as [| ? ? Hi Hl']; subst.
    assert (Hold : forall p, In p recs ->
              exists j, nth_error (ContentBasedFilter.book_ids self) j
                        = Some (fst p)
                        /\ ~ In j (map fst l)).
    { intros p Hp. destruct (Hidx p Hp) as [j [Hj Hout]].
      exists j. split; [exact Hj |]. intro Hc. apply Hout. right. exact Hc. }
    destruct (negb (Py.mem id (reading_history student)));
      [| apply (IH recs out Hl' Hr Hold H)].
    apply (IH _ out Hl' ) in H; [exact H | |].
    + rewrite map_app. simpl. apply NoDup_app; [exact Hr | | ].
      * constructor; [intros [] | constructor].
      * intros x Hx [Hx' | []]. subst x.
        apply in_map_iff in Hx. destruct Hx as [p [Hp Hin]].
        destruct (Hidx p Hin) as [j [Hj Hout]].
        rewrite Hp in Hj.
        assert (Hji : j = i).
        { apply (proj1 (NoDup_nth_error _) Hids).
          - apply nth_error_Some. congruence.
          - congruence. }
        apply Hout. left. simpl. symmetry. exact Hji.
    + intros p Hp. apply in_app_or in Hp. destruct Hp as [Hp | [<- | []]].
      * apply Hold. exact Hp.
      * exists i. split; [exact En | exact Hi].
Qed.

Lemma map_fst_combine_seq {B} (a : nat) (l : list B) :
  map fst (combine (seq a (List.length l)) l) = seq a (List.length l).
Proof.
  revert a. induction l as [| x l IH]; intro a; [reflexivity |].
  simpl. rewrite IH. reflexivity.
Qed.

(** X12: whenever [ContentBasedFilter.recommend] returns, in any state of
    the filter, the list is in descending score order, every returned id is
    one of the fitted ids and none is in the student's reading history;
    with [n >= 0] there are at most [n] entries, and with distinct fitted
    ids no id is returned twice. *)
Theorem content_recommend_entries (cosine : list Q -> list Q -> Q)
  (self : ContentBasedFilter.t) (student : Student) (n : Z)
  (out : list (string * Q)) :
  ContentBasedFilter.recommend cosine self student n = Some out ->
  StronglySorted (Py.desc snd) out
  /\ Forall (fun p => In (fst p) (ContentBasedFilter.book_ids self)
                      /\ Py.mem (fst p) (reading_history student) = false)
            out
  /\ (0 <= n -> Z.of_nat (List.length out) <= n)
  /\ (NoDup (ContentBasedFilter.book_ids self) -> NoDup (map fst out)).
Proof.
  intro H.
  assert (Hnil : StronglySorted (Py.desc (@snd string Q)) []
                 /\ Forall (fun p : string * Q =>
                              In (fst p) (ContentBasedFilter.book_ids self)
                              /\ Py.mem (fst p) (reading_history student)
                                 = false) []
                 /\ (0 <= n -> Z.of_nat (@List.length (string * Q) []) <= n)
                 /\ (NoDup (ContentBasedFilter.book_ids self) ->
                     NoDup (map (@fst string Q) []))).
  { repeat split; try constructor. simpl. intro Hn. exact Hn. }
  unfold ContentBasedFilter.recommend in H.
  destruct (ContentBasedFilter.book_features self) as [features |];
    [| injection H as <-; exact Hnil].
  destruct (reading_history student) as [| h0 hs] eqn:Eh;
    [injection H as <-; exact Hnil |].
  rewrite <- Eh in *.
  destruct (ContentBasedFilter.history_indices self student) as [| i0 is0];
    [injection H as <-; exact Hnil |].
  destruct (mapM (nth_error features) (i0 :: is0)) as [vectors |];
    [| discriminate].
  cbn [bind] in H.
  destruct (foldM _ _ []) as [recs |] eqn:Ef; [| discriminate].
  cbn [bind] in H. injection H as <-.
  split; [apply slice_to_sorted, sorted_desc_sorted |]. split; [| split].
  - apply Forall_forall. intros p Hp. apply slice_to_In in Hp.
    apply sorted_sub in Hp.
    destruct (keep_unread_entries _ _ _ _ _ Ef p Hp) as [[] | Hnew].
    exact Hnew.
  - intro Hn. apply slice_to_length. exact Hn.
  - intro Hids.
    assert (Hnd : NoDup (map fst recs)).
    { apply (keep_unread_distinct self student _ Hids [] recs) in Ef;
        [exact Ef | | constructor | intros p []].
      rewrite map_fst_combine_seq. apply seq_NoDup. }
    assert (Hs : NoDup (map fst (Py.sorted_desc snd recs))).
    { eapply Permutation_NoDup; [| exact Hnd].
      apply Permutation_map. symmetry. apply sorted_desc_perm. }
    unfold Py.slice_to. destruct (0 <=? n); rewrite <- firstn_map;
      apply NoDup_firstn; exact Hs.
Qed.

Lemma content_recommend_entries_witness :
  exists out,
    ContentBasedFilter.recommend Examples.exact_cosine Scenarios.shelf
      Scenarios.reader 2 = Some out
    /\ StronglySorted (Py.desc snd) out
    /\ Forall (fun p =>
                 In (fst p) (ContentBasedFilter.book_ids Scenarios.shelf)
                 /\ Py.mem (fst p) (reading_history Scenarios.reader) = false)
              out
    /\ (0 <= 2 -> Z.of_nat (List.length out) <= 2)
    /\ (NoDup (ContentBasedFilter.book_ids Scenarios.shelf) ->
        NoDup (map fst out)).
Proof.
  eexists. split; [reflexivity |].
  apply (content_recommend_entries Examples.exact_cosine Scenarios.shelf
           Scenarios.reader 2).
  reflexivity.
Defined.

(** ** The collaborative filter in any state *)

Lemma foldM_invariant {A S} (P : S -> Prop) (f : S -> A -> option S)
  (l : list A) :
  (forall s a s', f s a = Some s' -> P s -> P s') ->
  forall s s', foldM f l s = Some s' -> P s -> P s'.
Proof.
  intro Hf. induction l as [| a l IH]; intros s s' H Hs.
  - simpl in H. injection H as <-. exact Hs.
  - simpl in H. destruct (f s a) as [s1 |] eqn:E; [| discriminate].
    simpl in H. apply (IH s1 s' H). apply (Hf s a s1 E Hs).
Qed.

Lemma In_keys_set {V} (k b : string) (v : V) (d : Dict.t V) :
  In k (Dict.keys (Dict.set b v d)) -> k = b \/ In k (Dict.keys d).
Proof.
  unfold Dict.keys. intro H. apply in_map_iff in H.
  destruct H as [kv [Hk Hin]]. apply In_set in Hin.
  destruct Hin as [-> | Hin].
  - left. symmetry. exact Hk.
  - right. rewrite <- Hk. apply in_map. exact Hin.
Qed.

Lemma slice_to_NoDup_keys {V} (n : Z) (l : list (string * V)) :
  NoDup (map fst l) -> NoDup (map fst (Py.slice_to n l)).
Proof.
  intro H. unfold Py.slice_to.
  destruct (0 <=? n); rewrite <- firstn_map; apply NoDup_firstn; exact H.
Qed.

(** X13: whenever [CollaborativeFilter.recommend] returns, in any state of
    the filter, the list is in descending score order and, with [n >= 0],
    has at most [n] entries; without an interaction matrix it is empty; and
    for a student who has a row in the matrix no book is returned twice and
    every returned book is one whose cell in the student's own row is 0:
    a book the student has a weight for is never recommended. *)
Theorem collaborative_recommend_entries (self : CollaborativeFilter.t)
  (u : string) (n : Z) (out : list (string * Q)) :
  CollaborativeFilter.recommend self u n = Some out ->
  StronglySorted (Py.desc snd) out
  /\ (0 <= n -> Z.of_nat (List.length out) <= n)
  /\ (CollaborativeFilter.user_item_matrix self = None -> out = [])
  /\ (forall m,
        CollaborativeFilter.user_item_matrix self = Some m ->
        Py.mem u (df_index m) = true ->
        NoDup (map fst out)
        /\ Forall (fun p => exists c, loc m u (fst p) = Some c
                                      /\ (c == 0)%Q) out).
Proof.
  intro H. unfold CollaborativeFilter.recommend in H.
  destruct (CollaborativeFilter.user_item_matrix self) as [m |] eqn:Em.
  - destruct (Py.mem u (df_index m)) eqn:Eu; cbn [negb] in H.
    + destruct (CollaborativeFilter.user_similarity_matrix self) as [s |].
      * destruct (column s u) as [col |]; [| discriminate]. cbn [bind] in H.
        destruct (foldM _ _ Dict.empty) as [recs |] eqn:Ef; [| discriminate].
        cbn [bind] in H. injection H as <-.
        pose (P := fun recs : Dict.t Q =>
                     NoDup (Dict.keys recs)
                     /\ forall b, In b (Dict.keys recs) ->
                          exists c, loc m u b = Some c /\ (c == 0)%Q).
        assert (Hinv : P recs).
        { apply (foldM_invariant P (CollaborativeFilter.add_user m s u)
                   (CollaborativeFilter.similar_users col))
            with (s := Dict.empty); [| exact Ef |].
          - intros recs0 user recs1 Hstep Hrecs0.
            unfold CollaborativeFilter.add_user in Hstep.
            destruct (loc s u user) as [sim |]; [| discriminate].
            cbn [bind] in Hstep.
            destruct (loc_row m user) as [row |]; [| discriminate].
            cbn [bind] in Hstep.
            apply (foldM_invariant P (CollaborativeFilter.add_book m u sim)
                     (filter (fun br => Py.Qltb 0 (snd br)) row))
              with (s := recs0); [| exact Hstep | exact Hrecs0].
            intros r0 br r1 Hbook [Hnd Hcells].
            unfold CollaborativeFilter.add_book in Hbook.
            destruct (loc m u (fst br)) as [c |] eqn:Ec; [| discriminate].
            cbn [bind] in Hbook. injection Hbook as <-.
            destruct (Qeq_bool c 0) eqn:E0; [| split; assumption].
            unfold CollaborativeFilter.add_to. split.
            + apply set_keys_NoDup. exact Hnd.
            + intros b Hb. apply In_keys_set in Hb.
              destruct Hb as [-> | Hb]; [| apply Hcells; exact Hb].
              exists c. split; [exact Ec |]. apply Qeq_bool_iff. exact E0.
          - split; [constructor | intros b []]. }
        destruct Hinv as [Hnd Hcells].
        split; [apply slice_to_sorted, sorted_desc_sorted |].
        split; [intro Hn; apply slice_to_length; exact Hn |].
        split; [discriminate |].
        intros m' Hm' _. injection Hm' as <-. split.
        -- apply slice_to_NoDup_keys. eapply Permutation_NoDup; [| exact Hnd].
           apply Permutation_map. symmetry. apply sorted_desc_perm.
        -- apply Forall_forall. intros p Hp. apply slice_to_In in Hp.
           apply sorted_sub in Hp. apply Hcells. apply in_map. exact Hp.
      * injection H as <-.
        split; [constructor |]. split; [intro Hn; exact Hn |].
        split; [reflexivity |]. intros m' _ _. split; constructor.
    + injection H as <-. unfold nlargest.
      split; [apply firstn_sorted, sorted_desc_sorted |].
      split.
      { intro Hn. rewrite length_firstn. lia. }
      split; [discriminate |].
      intros m' Hm' Hu. injection Hm' as <-. congruence.
  - injection H as <-.
    split; [constructor |]. split; [intro Hn; exact Hn |].
    split; [reflexivity |]. discriminate.
Qed.

Lemma collaborative_recommend_entries_witness :
  exists out,
    CollaborativeFilter.recommend Scenarios.trio "U1" 5 = Some out
    /\ StronglySorted (Py.desc snd) out
    /\ (0 <= 5 -> Z.of_nat (List.length out) <= 5)
    /\ (CollaborativeFilter.user_item_matrix Scenarios.trio = None ->
        out = [])
    /\ (forall m,
          CollaborativeFilter.user_item_matrix Scenarios.trio = Some m ->
          Py.mem "U1" (df_index m) = true ->
          NoDup (map fst out)
          /\ Forall (fun p => exists c, loc m "U1" (fst p) = Some c
                                        /\ (c == 0)%Q) out).
Proof.
  eexists. split; [vm_compute; reflexivity |].
  apply (collaborative_recommend_entries Scenarios.trio "U1" 5).
  vm_compute. reflexivity.
Defined.

(** ** The two similarity matrices [fit] computes *)

Lemma values_by_keys {V} (dflt : V) (d : Dict.t V) :
  NoDup (Dict.keys d) ->
  Dict.values d
  = map (fun k => match Dict.get k d with Some v => v | None => dflt end)
        (Dict.keys d).
Proof.
  induction d as [| [k v] d IH]; intro Hnd; [reflexivity |].
  simpl in Hnd. inversion Hnd as [| ? ? Hk Hd]; subst.
  simpl. rewrite String.eqb_refl. f_equal.
  rewrite (IH Hd). apply map_ext_in. intros k' Hk'.
  destruct (String.eqb k' k) eqn:E; [| reflexivity].
  apply String.eqb_eq in E. subst. contradiction.
Qed.

Section FitVectors.
Variable records : list BorrowingRecord.

Let users := Py.set_list (map r_student_id records).
Let books := Py.set_list (map r_book_id records).
Let m := CollaborativeFilter.fill records (new_frame users books).

Lemma fit_matrix_ok :
  frame_ok m = true /\ df_index m = users /\ df_columns m = books.
Proof.
  destruct (fill_ok records (new_frame users books)) as [Hok [Hi Hc]].
  - apply new_frame_ok; apply set_list_NoDup.
  - intros r Hr. simpl. apply set_list_In. apply in_map. exact Hr.
  - auto.
Qed.

Lemma fit_row_cell (v : string) (row : Dict.t Q) (b : string) :
  In (v, row) (df_rows m) -> In b books ->
  Dict.get b row = Some (pair_weight records v b).
Proof.
  intros Hr Hb. destruct fit_matrix_ok as [Hok [Hi Hc]].
  destruct (frame_ok_parts m Hok) as [Hni [_ [Hk _]]].
  assert (Hloc : loc m v b = Dict.get b row).
  { unfold loc, loc_row. rewrite (get_of_NoDup _ v row); [reflexivity | |].
    - rewrite Hk. exact Hni.
    - exact Hr. }
  rewrite <- Hloc. unfold m, users, books. rewrite fit_matrix_loc.
  assert (Hv : Py.mem v (map r_student_id records) = true).
  { rewrite <- mem_set_list. apply mem_In. fold users. rewrite <- Hi, <- Hk.
    apply (in_map fst) in Hr. exact Hr. }
  assert (Hb' : Py.mem b (map r_book_id records) = true).
  { rewrite <- mem_set_list. apply mem_In. exact Hb. }
  rewrite Hv, Hb'. reflexivity.
Qed.

Lemma fit_values : frame_values m = map (student_weights records) users.
Proof.
  destruct fit_matrix_ok as [Hok [Hi Hc]].
  destruct (frame_ok_parts m Hok) as [_ [Hnc [Hk Hrk]]].
  unfold frame_values. rewrite <- Hi, <- Hk. unfold Dict.keys.
  rewrite map_map. apply map_ext_in. intros [v row] Hr. simpl.
  pose proof (Hrk _ Hr) as Hkeys. simpl in Hkeys.
  rewrite (values_by_keys 0%Q) by (rewrite Hkeys; exact Hnc).
  rewrite Hkeys, Hc. unfold student_weights. fold books.
  apply map_ext_in. intros b Hb.
  rewrite (fit_row_cell v row b Hr Hb). reflexivity.
Qed.

Lemma fit_T_values : frame_T_values m = map (book_weights records) books.
Proof.
  destruct fit_matrix_ok as [Hok [Hi Hc]].
  destruct (frame_ok_parts m Hok) as [_ [_ [Hk _]]].
  unfold frame_T_values. rewrite Hc. apply map_ext_in. intros b Hb.
  unfold book_weights. fold users. rewrite <- Hi, <- Hk. unfold Dict.keys.
  rewrite map_map. apply map_ext_in. intros [v row] Hr. simpl.
  rewrite (fit_row_cell v row b Hr Hb). reflexivity.
Qed.
End FitVectors.

Lemma square_frame_loc (cosine : list Q -> list Q -> Q)
  (f : string -> list Q) (labels : list string) (u v : string) :
  loc (square_frame labels
         (CollaborativeFilter.cosine_similarity cosine
            (map f labels) (map f labels))) u v
  = if Py.mem u labels && Py.mem v labels
    then Some (cosine (f u) (f v)) else None.
Proof.
  unfold square_frame, CollaborativeFilter.cosine_similarity, loc, loc_row.
  simpl. rewrite !map_map.
  rewrite (combine_map_self
             (fun x => combine labels (map (cosine (f x)) (map f labels)))).
  rewrite (get_map_key
             (fun x => combine labels (map (cosine (f x)) (map f labels)))).
  destruct (Py.mem u labels); simpl; [| reflexivity].
  rewrite map_map.
  rewrite (combine_map_self (fun y => cosine (f u) (f y))).
  rewrite (get_map_key (fun y => cosine (f u) (f y))). reflexivity.
Qed.

(** X14: with at least two distinct students in the history, [fit] stores
    a user-similarity matrix whose cell (u, v), for students u and v of the
    history, is the cosine similarity of their rows of weights, and which
    has no other cell; with at least two distinct books it stores an
    item-similarity matrix whose cell (b, c) is the cosine similarity of
    the two books' columns of weights. *)
Theorem fit_similarities (cosine : list Q -> list Q -> Q)
  (records : list BorrowingRecord) (self : CollaborativeFilter.t) :
  ((1 < List.length (Py.set_list (map r_student_id records)))%nat ->
   exists s,
     CollaborativeFilter.user_similarity_matrix
       (CollaborativeFilter.fit cosine records self) = Some s
     /\ forall u v,
          loc s u v
          = if Py.mem u (map r_student_id records)
               && Py.mem v (map r_student_id records)
            then Some (cosine (student_weights records u)
                              (student_weights records v))
            else None)
  /\ ((1 < List.length (Py.set_list (map r_book_id records)))%nat ->
      exists s,
        CollaborativeFilter.item_similarity_matrix
          (CollaborativeFilter.fit cosine records self) = Some s
        /\ forall b c,
             loc s b c
             = if Py.mem b (map r_book_id records)
                  && Py.mem c (map r_book_id records)
               then Some (cosine (book_weights records b)
                                 (book_weights records c))
               else None).
Proof.
  split; intro Hlen; apply Nat.ltb_lt in Hlen;
    unfold CollaborativeFilter.fit, CollaborativeFilter.fit_with;
    cbn [CollaborativeFilter.user_similarity_matrix
         CollaborativeFilter.item_similarity_matrix];
    rewrite Hlen; eexists; (split; [reflexivity |]).
  - intros u v. rewrite fit_values, square_frame_loc, !mem_set_list.
    reflexivity.
  - intros b c. rewrite fit_T_values, square_frame_loc, !mem_set_list.
    reflexivity.
Qed.

(** ** The duplicate guard of the content loop *)

Lemma in_recs_In (id : string) (recs : list Recommendation) :
  Engine.in_recs id recs = true
  <-> In id (map (fun r => book_id (book r)) recs).
Proof.
  unfold Engine.in_recs. rewrite existsb_exists, in_map_iff.
  split; intros [r [H1 H2]]; exists r.
  - apply String.eqb_eq in H2. auto.
  - split; [exact H2 | apply String.eqb_eq; exact H1].
Qed.

Lemma catalog_id (catalog : Dict.t Book) (k : string) (b : Book) :
  store_ok book_id catalog -> Dict.get k catalog = Some b -> book_id b = k.
Proof.
  intros [_ Hid] G. apply (Hid (k, b)). apply get_Some_In. exact G.
Qed.

Lemma add_collab_distinct (e : Engine.t) (student : Student)
  (cs : list (string * Q)) :
  store_ok book_id (Engine.books_catalog e) ->
  forall recs,
    NoDup (map (fun r => book_id (book r)) recs ++ map fst cs) ->
    NoDup (map (fun r => book_id (book r))
             (fold_left (Engine.add_collab e student) cs recs)).
Proof.
  intro Hok. induction cs as [| c cs IH]; intros recs H; simpl in *.
  - rewrite app_nil_r in H. exact H.
  - apply IH. unfold Engine.add_collab.
    destruct (Dict.get (fst c) (Engine.books_catalog e)) as [b |] eqn:G.
    + rewrite map_app. simpl. rewrite (catalog_id _ _ _ Hok G).
      rewrite <- app_assoc. exact H.
    + apply NoDup_remove_1 in H. exact H.
Qed.

Lemma add_content_distinct (e : Engine.t) (student : Student)
  (cs : list (string * Q)) :
  store_ok book_id (Engine.books_catalog e) ->
  forall recs,
    NoDup (map (fun r => book_id (book r)) recs) ->
    NoDup (map (fun r => book_id (book r))
             (fold_left (Engine.add_content e student) cs recs)).
Proof.
  intro Hok. induction cs as [| c cs IH]; intros recs H; simpl; [exact H |].
  apply IH. unfold Engine.add_content.
  destruct (Dict.get (fst c) (Engine.books_catalog e)) as [b |] eqn:G;
    [| exact H].
  destruct (Engine.in_recs (fst c) recs) eqn:E; simpl; [exact H |].
  rewrite map_app. simpl. rewrite (catalog_id _ _ _ Hok G).
  apply NoDup_app; [exact H | constructor; [intros [] | constructor] |].
  intros x Hx [<- | []].
  apply in_recs_In in Hx. congruence.
Qed.

(** X15: in a catalog that files every book under its own id, the
    collaborative loop followed by the content loop never produces two
    entries for one book: distinct collaborative candidates give distinct
    entries, and the content loop skips every candidate whose book is
    already listed, even when the content candidates repeat an id.  (Only
    the diversity loop, which has no such test, can add a listed book
    again.) *)
Theorem personal_entries_distinct (e : Engine.t) (student : Student)
  (collab content : list (string * Q)) :
  store_ok book_id (Engine.books_catalog e) ->
  NoDup (map fst collab) ->
  NoDup (map (fun r => book_id (book r))
           (fold_left (Engine.add_content e student) content
              (fold_left (Engine.add_collab e student) collab []))).
Proof.
  intros Hok Hnd. apply add_content_distinct; [exact Hok |].
  apply add_collab_distinct; [exact Hok |]. exact Hnd.
Qed.

Lemma personal_entries_distinct_witness :
  NoDup (map (fun r => book_id (book r))
           (fold_left (Engine.add_content Fixtures.library Examples.newcomer)
              [("Y", 1 # 2); ("Z", 1 # 3); ("Z", 1 # 4)]%Q
              (fold_left (Engine.add_collab Fixtures.library Examples.newcomer)
                 [("X", 1); ("Y", 1 # 2)]%Q []))).
Proof.
  apply (personal_entries_distinct Fixtures.library Examples.newcomer).
  - split.
    + repeat constructor; simpl; intuition discriminate.
    + intros kv Hkv. simpl in Hkv.
      destruct Hkv as [<- | [<- | [<- | []]]]; reflexivity.
  - repeat constructor; simpl; intuition discriminate.
Defined.

(** ** When [recommend] returns *)

Lemma foldM_returns {A S} (f : S -> A -> option S) (l : list A) :
  (forall x, In x l -> forall acc, f acc x <> None) ->
  forall acc, foldM f l acc <> None.
Proof.
  induction l as [| x l IH]; intros H acc; simpl; [discriminate |].
  destruct (f acc x) as [acc' |] eqn:E.
  - simpl. apply IH. intros y Hy. apply H. right. exact Hy.
  - exfalso. apply (H x (or_introl eq_refl) acc). exact E.
Qed.

Lemma similar_users_sub (col : Series) (x : string) :
  In x (CollaborativeFilter.similar_users col) -> In x (map fst col).
Proof.
  unfold CollaborativeFilter.similar_users, Py.drop_first, nlargest.
  intro H. apply in_map_iff in H. destruct H as [p [<- Hp]].
  apply in_map.
  assert (Hin : In p (firstn (Z.to_nat 6) (Py.sorted_desc snd col))).
  { destruct (firstn _ _) as [| q l]; [destruct Hp | right; exact Hp]. }
  apply firstn_In in Hin. apply sorted_sub in Hin. exact Hin.
Qed.

Lemma collaborative_recommend_returns (self : CollaborativeFilter.t)
  (u : string) (n : Z) :
  similarity_current self -> CollaborativeFilter.recommend self u n <> None.
Proof.
  unfold similarity_current, CollaborativeFilter.recommend. intro Hok.
  destruct (CollaborativeFilter.user_item_matrix self) as [m |];
    [| discriminate].
  destruct (Py.mem u (df_index m)) eqn:Eu; cbn [negb]; [| discriminate].
  destruct (CollaborativeFilter.user_similarity_matrix self) as [s |];
    [| discriminate].
  destruct Hok as [Hm [Hs [Hi Hc]]]. apply mem_In in Eu.
  assert (Hcol : column s u
                 = Some (map (fun v => (v, cell s v u)) (df_index s))).
  { unfold column.
    assert (Hmem : Py.mem u (df_columns s) = true)
      by (apply mem_In; rewrite Hc, Hi; exact Eu).
    rewrite Hmem. apply mapM_Some. intros v Hv.
    rewrite (loc_cell s Hs v u Hv) by (rewrite Hc, Hi; exact Eu).
    reflexivity. }
  rewrite Hcol. cbn [bind].
  destruct (foldM _ _ Dict.empty) as [recs |] eqn:Ef; [discriminate |].
  exfalso. revert Ef. apply foldM_returns. intros v Hv acc.
  apply similar_users_sub in Hv. rewrite map_map in Hv. simpl in Hv.
  rewrite map_id in Hv.
  unfold CollaborativeFilter.add_user.
  rewrite (loc_cell s Hs u v);
    [| rewrite Hi; exact Eu | rewrite Hc; exact Hv].
  cbn [bind].
  destruct (loc_row_Some m Hm v) as [row [Hrow Hkeys]];
    [rewrite <- Hi; exact Hv |].
  rewrite Hrow. cbn [bind]. apply foldM_returns. intros br Hbr acc'.
  apply filter_In in Hbr. destruct Hbr as [Hbr _].
  unfold CollaborativeFilter.add_book.
  rewrite (loc_cell m Hm u (fst br) Eu).
  - discriminate.
  - rewrite <- Hkeys. apply in_map. exact Hbr.
Qed.

Lemma history_indices_bound (self : ContentBasedFilter.t) (student : Student)
  (i : nat) :
  In i (ContentBasedFilter.history_indices self student) ->
  (i < List.length (ContentBasedFilter.book_ids self))%nat.
Proof.
  unfold ContentBasedFilter.history_indices. intro H.
  apply in_flat_map in H. destruct H as [id [_ Hi]].
  pose proof (index_of_spec id (ContentBasedFilter.book_ids self)) as Hs.
  destruct (Py.index_of id (ContentBasedFilter.book_ids self)) as [j |];
    [| destruct Hi].
  destruct Hi as [<- | []]. apply Hs.
Qed.

Lemma content_recommend_returns (cosine : list Q -> list Q -> Q)
  (self : ContentBasedFilter.t) (student : Student) (n : Z) :
  features_ok self = true ->
  ContentBasedFilter.recommend cosine self student n <> None.
Proof.
  intro Hok. unfold ContentBasedFilter.recommend.
  destruct (ContentBasedFilter.book_features self) as [features |] eqn:Ef;
    [| discriminate].
  destruct (reading_history student) as [| h0 hs] eqn:Eh; [discriminate |].
  pose proof (history_indices_bound self student) as Hbound.
  destruct (ContentBasedFilter.history_indices self student)
    as [| i0 rest]; [discriminate |].
  assert (Hlen : List.length features
                 = List.length (ContentBasedFilter.book_ids self)).
  { unfold features_ok in Hok. rewrite Ef in Hok.
    specialize (Hbound i0 (or_introl eq_refl)).
    destruct (ContentBasedFilter.book_ids self) as [| id ids].
    - simpl in Hbound. lia.
    - apply Nat.eqb_eq. exact Hok. }
  rewrite (mapM_Some (nth_error features) (fun i => nth i features [])).
  - cbn [bind].
    destruct (foldM _ _ []) as [recs |] eqn:Efold; [discriminate |].
    exfalso. revert Efold. apply foldM_returns. intros [i s] Hin acc.
    apply in_combine_l in Hin. apply in_seq in Hin.
    rewrite length_map, Hlen in Hin.
    unfold ContentBasedFilter.keep_unread. cbn [fst snd].
    destruct (nth_error (ContentBasedFilter.book_ids self) i) eqn:En.
    + discriminate.
    + apply nth_error_None in En. lia.
  - intros i Hi. apply nth_error_nth'. rewrite Hlen. apply Hbound. exact Hi.
Qed.

Lemma fit_similarity_current (cosine : list Q -> list Q -> Q)
  (records : list BorrowingRecord) (self : CollaborativeFilter.t) :
  CollaborativeFilter.user_similarity_matrix self = None
  \/ (1 < List.length (Py.set_list (map r_student_id records)))%nat ->
  similarity_current (CollaborativeFilter.fit cosine records self).
Proof.
  intro H. unfold similarity_current.
  destruct (fit_frames cosine records self)
    as [m [Hm [Hok [Hi [Hbig _]]]]].
  rewrite Hm.
  destruct (Nat.ltb 1 (List.length (Py.set_list (map r_student_id records))))
    eqn:E.
  - apply Nat.ltb_lt in E. rewrite Hi in Hbig.
    destruct (Hbig E) as [s [Hs [Hoks [His Hcs]]]].
    rewrite Hs. repeat split; try assumption. congruence.
  - assert (Hstay : CollaborativeFilter.user_similarity_matrix
                      (CollaborativeFilter.fit cosine records self)
                    = CollaborativeFilter.user_similarity_matrix self).
    { unfold CollaborativeFilter.fit, CollaborativeFilter.fit_with.
      cbn [CollaborativeFilter.user_similarity_matrix]. rewrite E.
      reflexivity. }
    rewrite Hstay. apply Nat.ltb_ge in E.
    destruct H as [H | H]; [rewrite H; exact I | lia].
Qed.

(** X16: when the vectoriser returns one row per document, [recommend]
    returns (it raises nothing) for every student id and every [n] on every
    engine reached from [__init__] by the three loaders, provided each
    history that was loaded had at least two distinct students or was
    loaded while the collaborative filter had no similarity matrix. *)
Theorem recommend_returns (tfidf : list string -> list (list Q))
  (cosine : list Q -> list Q -> Q) (e : Engine.t) (sid : string) (n : Z) :
  (forall docs, List.length (tfidf docs) = List.length docs) ->
  loaded_afresh tfidf cosine e ->
  exists recs, Engine.recommend cosine e sid n = Some recs.
Proof.
  intros Hrows Hload.
  assert (Hinv : similarity_current (Engine.collaborative_filter e)
                 /\ features_ok (Engine.content_filter e) = true).
  { induction Hload as [| books e _ [IHc IHf] | l e _ [IHc IHf]
                        | records e _ [IHc IHf] Hfresh]; simpl.
    - split; [exact I | reflexivity].
    - split; [exact IHc | apply fit_features_ok; exact Hrows].
    - split; assumption.
    - split; [apply fit_similarity_current; exact Hfresh | exact IHf]. }
  destruct Hinv as [Hc Hf]. unfold Engine.recommend.
  destruct (Dict.get sid (Engine.students e)) as [student |];
    [| eexists; reflexivity].
  pose proof (collaborative_recommend_returns
                (Engine.collaborative_filter e) sid (n * 2) Hc) as H1.
  destruct (CollaborativeFilter.recommend _ _ _) as [collab |];
    [| contradiction].
  cbn [bind].
  pose proof (content_recommend_returns cosine (Engine.content_filter e)
                student (n * 2) Hf) as H2.
  destruct (ContentBasedFilter.recommend _ _ _ _) as [content |];
    [| contradiction].
  cbn [bind]. eexists. reflexivity.
Qed.

Lemma recommend_returns_witness :
  exists recs,
    Engine.recommend Examples.exact_cosine
      (Scenarios.cold_start (fun docs => map (fun _ => [1%Q]) docs)
         Examples.exact_cosine) "S" 2 = Some recs.
Proof.
  apply (recommend_returns (fun docs => map (fun _ => [1%Q]) docs)
           Examples.exact_cosine).
  - intro docs. apply length_map.
  - unfold Scenarios.cold_start.
    apply afresh_history; [| left; reflexivity].
    apply afresh_students. apply afresh_catalog. apply afresh_init.
Defined.

(** ** The share of each strategy *)

Lemma tagged_app (tag : string) (a b : list Recommendation) :
  tagged tag (a ++ b) = (tagged tag a ++ tagged tag b)%list.
Proof. apply filter_app. Qed.

Lemma tagged_collab_step (e : Engine.t) (student : Student)
  (recs : list Recommendation) (c : string * Q) :
  (List.length (tagged "collaborative" (Engine.add_collab e student recs c))
   <= List.length (tagged "collaborative" recs) + 1)%nat
  /\ tagged "content" (Engine.add_collab e student recs c)
     = tagged "content" recs.
Proof.
  unfold Engine.add_collab.
  destruct (Dict.get (fst c) (Engine.books_catalog e)) as [b |].
  - rewrite !tagged_app, length_app. simpl. rewrite app_nil_r.
    split; [lia | reflexivity].
  - split; [lia | reflexivity].
Qed.

Lemma tagged_content_step (e : Engine.t) (student : Student)
  (recs : list Recommendation) (c : string * Q) :
  (List.length (tagged "content" (Engine.add_content e student recs c))
   <= List.length (tagged "content" recs) + 1)%nat
  /\ tagged "collaborative" (Engine.add_content e student recs c)
     = tagged "collaborative" recs.
Proof.
  unfold Engine.add_content.
  destruct (Dict.get (fst c) (Engine.books_catalog e)) as [b |];
    [| split; [lia | reflexivity]].
  destruct (negb (Engine.in_recs (fst c) recs));
    [| split; [lia | reflexivity]].
  rewrite !tagged_app, length_app. simpl. rewrite app_nil_r.
  split; [lia | reflexivity].
Qed.

Lemma tagged_add_collab (e : Engine.t) (student : Student)
  (cs : list (string * Q)) (recs : list Recommendation) :
  (List.length (tagged "collaborative"
                  (fold_left (Engine.add_collab e student) cs recs))
   <= List.length (tagged "collaborative" recs) + List.length cs)%nat
  /\ tagged "content" (fold_left (Engine.add_collab e student) cs recs)
     = tagged "content" recs.
Proof.
  revert recs. induction cs as [| c cs IH]; intro recs; simpl.
  - split; [lia | reflexivity].
  - destruct (IH (Engine.add_collab e student recs c)) as [H1 H2].
    destruct (tagged_collab_step e student recs c) as [H3 H4].
    split; [lia | rewrite H2; exact H4].
Qed.

Lemma tagged_add_content (e : Engine.t) (student : Student)
  (cs : list (string * Q)) (recs : list Recommendation) :
  (List.length (tagged "content"
                  (fold_left (Engine.add_content e student) cs recs))
   <= List.length (tagged "content" recs) + List.length cs)%nat
  /\ tagged "collaborative" (fold_left (Engine.add_content e student) cs recs)
     = tagged "collaborative" recs.
Proof.
  revert recs. induction cs as [| c cs IH]; intro recs; simpl.
  - split; [lia | reflexivity].
  - destruct (IH (Engine.add_content e student recs c)) as [H1 H2].
    destruct (tagged_content_step e student recs c) as [H3 H4].
    split; [lia | rewrite H2; exact H4].
Qed.

Lemma tagged_diversity_scan (tag : string) (student : Student)
  (explored : list string) (n : Z) (books : list Book) :
  String.eqb "diversity" tag = false ->
  forall recs,
    tagged tag (Engine.diversity_scan student explored n books recs)
    = tagged tag recs.
Proof.
  intro Htag. induction books as [| b rest IH]; intro recs; simpl;
    [reflexivity |].
  assert (Happ : tagged tag (recs ++ [Engine.diversity_rec explored b])
                 = tagged tag recs).
  { rewrite tagged_app. unfold tagged at 2. cbn [filter].
    change (strategy (Engine.diversity_rec explored b)) with "diversity".
    rewrite Htag. apply app_nil_r. }
  destruct (Engine.diverse student explored b); [| apply IH].
  destruct (n <=? _); [exact Happ |]. rewrite IH. exact Happ.
Qed.

Lemma diversity_scan_only (student : Student) (explored : list string)
  (n : Z) (books : list Book) :
  forall recs,
    Forall (fun r => strategy r = "diversity") recs ->
    Forall (fun r => strategy r = "diversity")
           (Engine.diversity_scan student explored n books recs).
Proof.
  induction books as [| b rest IH]; intros recs H; simpl; [exact H |].
  assert (H' : Forall (fun r => strategy r = "diversity")
                 (recs ++ [Engine.diversity_rec explored b])).
  { apply Forall_app. split; [exact H |]. constructor; [reflexivity |].
    constructor. }
  destruct (Engine.diverse student explored b); [| apply IH; exact H].
  destruct (n <=? _); [exact H' | apply IH; exact H'].
Qed.

Lemma filter_length_perm {A} (p : A -> bool) (l l' : list A) :
  Permutation l l' ->
  List.length (filter p l) = List.length (filter p l').
Proof.
  induction 1 as [| x l l' _ IH | x y l | l l' l'' _ IH1 _ IH2]; simpl.
  - reflexivity.
  - destruct (p x); simpl; rewrite IH; reflexivity.
  - destruct (p x), (p y); reflexivity.
  - rewrite IH1. exact IH2.
Qed.

Lemma filter_length_firstn {A} (p : A -> bool) (k : nat) (l : list A) :
  (List.length (filter p (firstn k l)) <= List.length (filter p l))%nat.
Proof.
  rewrite <- (firstn_skipn k l) at 2. rewrite filter_app, length_app. lia.
Qed.

Lemma tagged_top (tag : string) (n : Z) (recs : list Recommendation) :
  (List.length (tagged tag (Py.slice_to n (Py.sorted_desc score recs)))
   <= List.length (tagged tag recs))%nat.
Proof.
  unfold tagged.
  rewrite <- (filter_length_perm _ _ _ (sorted_desc_perm score recs)).
  unfold Py.slice_to. destruct (0 <=? n); apply filter_length_firstn.
Qed.

(** X17: in what [recommend] returns for [n >= 0], at most [n // 2]
    entries are tagged "collaborative" and at most [n // 2] are tagged
    "content"; so with [n <= 1] a registered student gets "diversity"
    entries only. *)
Theorem strategy_shares (cosine : list Q -> list Q -> Q) (e : Engine.t)
  (sid : string) (n : Z) (recs : list Recommendation) :
  0 <= n ->
  Engine.recommend cosine e sid n = Some recs ->
  Z.of_nat (List.length (tagged "collaborative" recs)) <= n / 2
  /\ Z.of_nat (List.length (tagged "content" recs)) <= n / 2
  /\ (n <= 1 -> Dict.get sid (Engine.students e) <> None ->
      Forall (fun r => strategy r = "diversity") recs).
Proof.
  intros Hn H. assert (Hhalf : 0 <= n / 2) by (apply Z.div_pos; lia).
  unfold Engine.recommend in H.
  destruct (Dict.get sid (Engine.students e)) as [student |].
  - destruct (CollaborativeFilter.recommend _ _ _) as [collab |];
      [| discriminate].
    cbn [bind] in H.
    destruct (ContentBasedFilter.recommend _ _ _ _) as [content |];
      [| discriminate].
    cbn [bind] in H. injection H as <-.
    set (cs1 := Py.slice_to (n / 2) collab).
    set (cs2 := Py.slice_to (n / 2) content).
    set (recs1 := fold_left (Engine.add_collab e student) cs1 []).
    set (recs2 := fold_left (Engine.add_content e student) cs2 recs1).
    assert (Hl1 : Z.of_nat (List.length cs1) <= n / 2)
      by (apply slice_to_length; exact Hhalf).
    assert (Hl2 : Z.of_nat (List.length cs2) <= n / 2)
      by (apply slice_to_length; exact Hhalf).
    destruct (tagged_add_collab e student cs1 []) as [Hc1 Hc2].
    destruct (tagged_add_content e student cs2 recs1) as [Hd1 Hd2].
    fold recs1 in Hc1, Hc2. fold recs2 in Hd1, Hd2.
    simpl in Hc1, Hc2. rewrite Hc2 in Hd1. simpl in Hd1.
    assert (Hdiv : forall tag, String.eqb "diversity" tag = false ->
              tagged tag (Engine.diversity e student n recs2)
              = tagged tag recs2).
    { intros tag Htag. unfold Engine.diversity.
      destruct (_ <? n); [| reflexivity].
      apply tagged_diversity_scan. exact Htag. }
    split; [| split].
    + pose proof (tagged_top "collaborative" n
                    (Engine.diversity e student n recs2)) as Ht.
      rewrite (Hdiv "collaborative" eq_refl), Hd2 in Ht. lia.
    + pose proof (tagged_top "content" n
                    (Engine.diversity e student n recs2)) as Ht.
      rewrite (Hdiv "content" eq_refl) in Ht. lia.
    + intros Hle _.
      assert (Hzero : n / 2 = 0) by (apply Z.div_small; lia).
      assert (Hempty : recs2 = []).
      { unfold recs2, recs1, cs1, cs2. rewrite Hzero. reflexivity. }
      rewrite Hempty. apply Forall_forall. intros r Hr.
      apply slice_to_In in Hr. apply sorted_sub in Hr.
      assert (Hall : Forall (fun r => strategy r = "diversity")
                       (Engine.diversity e student n [])).
      { unfold Engine.diversity. destruct (_ <? n); [| constructor].
        apply diversity_scan_only. constructor. }
      rewrite Forall_forall in Hall. apply Hall. exact Hr.
  - injection H as <-. unfold Engine.get_popular_books.
    assert (Hnone : forall tag l,
              String.eqb "popularity" tag = false ->
              tagged tag (map Engine.popular_rec l) = []).
    { intros tag l Htag. induction l as [| b l IH]; [reflexivity |].
      unfold tagged. cbn [map filter].
      change (strategy (Engine.popular_rec b)) with "popularity".
      rewrite Htag. exact IH. }
    rewrite !Hnone by reflexivity. simpl.
    split; [exact Hhalf | split; [exact Hhalf |]].
    intros _ Hc. contradiction.
Qed.

Lemma strategy_shares_witness :
  exists recs,
    Engine.recommend Examples.exact_cosine Fixtures.library "S" 1 = Some recs
    /\ Z.of_nat (List.length (tagged "collaborative" recs)) <= 1 / 2
    /\ Z.of_nat (List.length (tagged "content" recs)) <= 1 / 2
    /\ (1 <= 1 -> Dict.get "S" (Engine.students Fixtures.library) <> None ->
        Forall (fun r => strategy r = "diversity") recs).
Proof.
  eexists. split; [reflexivity |].
  apply (strategy_shares Examples.exact_cosine Fixtures.library "S" 1).
  - lia.
  - reflexivity.
Defined.

(** ** Content entries and the last catalog batch *)

Lemma fold_left_Forall_in {A B} (P : B -> Prop)
  (f : list B -> A -> list B) (l : list A) (acc : list B) :
  (forall acc a, In a l -> Forall P acc -> Forall P (f acc a)) ->
  Forall P acc -> Forall P (fold_left f l acc).
Proof.
  revert acc. induction l as [| a l IH]; intros acc Hf H; simpl.
  - exact H.
  - apply IH.
    + intros acc' a' Ha'. apply Hf. right. exact Ha'.
    + apply Hf; [left; reflexivity | exact H].
Qed.

Lemma diversity_scan_Forall (P : Recommendation -> Prop) (student : Student)
  (explored : list string) (n : Z) (books : list Book) :
  (forall b, P (Engine.diversity_rec explored b)) ->
  forall recs,
    Forall P recs ->
    Forall P (Engine.diversity_scan student explored n books recs).
Proof.
  intro Hnew. induction books as [| b rest IH]; intros recs H; simpl;
    [exact H |].
  assert (H' : Forall P (recs ++ [Engine.diversity_rec explored b])).
  { apply Forall_app. split; [exact H |]. constructor; [apply Hnew |].
    constructor. }
  destruct (Engine.diverse student explored b); [| apply IH; exact H].
  destruct (n <=? _); [exact H' | apply IH; exact H'].
Qed.

Lemma content_ids_fitted (cosine : list Q -> list Q -> Q)
  (self : ContentBasedFilter.t) (student : Student) (n : Z)
  (out : list (string * Q)) (p : string * Q) :
  ContentBasedFilter.recommend cosine self student n = Some out ->
  In p out ->
  In (fst p) (ContentBasedFilter.book_ids self)
  /\ Py.mem (fst p) (reading_history student) = false.
Proof.
  intros H Hp. unfold ContentBasedFilter.recommend in H.
  destruct (ContentBasedFilter.book_features self) as [features |];
    [| injection H as <-; destruct Hp].
  destruct (reading_history student) as [| h0 hs] eqn:Eh;
    [injection H as <-; destruct Hp |].
  rewrite <- Eh in *.
  destruct (ContentBasedFilter.history_indices self student) as [| i0 is0];
    [injection H as <-; destruct Hp |].
  destruct (mapM (nth_error features) (i0 :: is0)) as [vectors |];
    [| discriminate].
  cbn [bind] in H.
  destruct (foldM _ _ []) as [recs |] eqn:Ef; [| discriminate].
  cbn [bind] in H. injection H as <-.
  apply slice_to_In in Hp. apply sorted_sub in Hp.
  destruct (keep_unread_entries _ _ _ _ _ Ef p Hp) as [[] | Hnew].
  exact Hnew.
Qed.

(** X18: on an engine reached from [__init__] by the three loaders, every
    "content" entry that [recommend] returns is a book whose id is among
    the ids the content filter was last fitted on, and is not in the
    student's reading history.  [load_catalog] fits the filter on the books
    of its own call only, so after a second [load_catalog] the books of the
    first call stay in the catalog but are never "content" entries. *)
Theorem content_entries_last_batch (tfidf : list string -> list (list Q))
  (cosine : list Q -> list Q -> Q) (e : Engine.t) (sid : string) (n : Z)
  (recs : list Recommendation) :
  loaded tfidf cosine e ->
  Engine.recommend cosine e sid n = Some recs ->
  Forall (fun r =>
            strategy r = "content" ->
            In (book_id (book r))
               (ContentBasedFilter.book_ids (Engine.content_filter e))
            /\ exists student,
                 Dict.get sid (Engine.students e) = Some student
                 /\ ~ In (book_id (book r)) (reading_history student))
         recs
  /\ forall books l records,
       ContentBasedFilter.book_ids
         (Engine.content_filter
            (Engine.load_borrowing_history cosine records
               (Engine.load_students l (Engine.load_catalog tfidf books e))))
       = map book_id books.
Proof.
  intros Hload H. split; [| reflexivity].
  destruct (loaded_store_ok tfidf cosine e Hload) as [Hok _].
  unfold Engine.recommend in H.
  destruct (Dict.get sid (Engine.students e)) as [student |] eqn:G.
  - destruct (CollaborativeFilter.recommend _ _ _) as [collab |];
      [| discriminate].
    cbn [bind] in H.
    destruct (ContentBasedFilter.recommend _ _ _ _) as [content |] eqn:Ec;
      [| discriminate].
    cbn [bind] in H. injection H as <-.
    set (P := fun r : Recommendation =>
                strategy r = "content" ->
                In (book_id (book r))
                   (ContentBasedFilter.book_ids (Engine.content_filter e))
                /\ exists student0,
                     Some student = Some student0
                     /\ ~ In (book_id (book r)) (reading_history student0)).
    apply Forall_forall. intros r Hr.
    apply slice_to_In in Hr. apply sorted_sub in Hr. revert r Hr.
    apply Forall_forall.
    assert (H2 : Forall P
                   (fold_left (Engine.add_content e student)
                      (Py.slice_to (n / 2) content)
                      (fold_left (Engine.add_collab e student)
                         (Py.slice_to (n / 2) collab) []))).
    { apply fold_left_Forall_in.
      - intros acc c Hc Hacc. unfold Engine.add_content.
        destruct (Dict.get (fst c) (Engine.books_catalog e)) as [b |] eqn:Gb;
          [| exact Hacc].
        destruct (negb (Engine.in_recs (fst c) acc)); [| exact Hacc].
        apply Forall_app. split; [exact Hacc |].
        constructor; [| constructor]. intros _. simpl.
        rewrite (catalog_id _ _ _ Hok Gb).
        apply slice_to_In in Hc.
        destruct (content_ids_fitted _ _ _ _ _ c Ec Hc) as [Hid Hread].
        split; [exact Hid |]. exists student. split; [reflexivity |].
        apply mem_not_In. exact Hread.
      - apply fold_left_Forall; [| constructor].
        intros acc c Hacc. unfold Engine.add_collab.
        destruct (Dict.get (fst c) (Engine.books_catalog e)) as [b |];
          [| exact Hacc].
        apply Forall_app. split; [exact Hacc |].
        constructor; [| constructor]. intro Hs. simpl in Hs. discriminate. }
    unfold Engine.diversity. destruct (_ <? n); [| exact H2].
    apply diversity_scan_Forall; [| exact H2].
    intros b Hs. simpl in Hs. discriminate.
  - injection H as <-. unfold Engine.get_popular_books.
    apply Forall_forall. intros r Hr. apply in_map_iff in Hr.
    destruct Hr as [b [<- _]]. intro Hs. simpl in Hs. discriminate.
Qed.

Lemma content_entries_last_batch_witness :
  exists recs,
    Engine.recommend Examples.exact_cosine
      (Engine.load_students [Scenarios.reader]
         (Engine.load_catalog (fun docs => map (fun _ => [1%Q]) docs)
            [Examples.bookX; Examples.bookZ]
            (Engine.load_catalog (fun docs => map (fun _ => [1%Q]) docs)
               [Examples.bookY] Engine.init))) "R" 4 = Some recs
    /\ tagged "content" recs <> []
    /\ Forall (fun r =>
                 strategy r = "content" ->
                 In (book_id (book r)) ["X"; "Z"]
                 /\ exists student,
                      Dict.get "R" [("R", Scenarios.reader)] = Some student
                      /\ ~ In (book_id (book r)) (reading_history student))
              recs.
Proof.
  eexists. split; [vm_compute; reflexivity |]. split; [discriminate |].
  refine (proj1 (content_entries_last_batch
                   (fun docs => map (fun _ => [1%Q]) docs)
                   Examples.exact_cosine
                   (Engine.load_students [Scenarios.reader]
                      (Engine.load_catalog
                         (fun docs => map (fun _ => [1%Q]) docs)
                         [Examples.bookX; Examples.bookZ]
                         (Engine.load_catalog
                            (fun docs => map (fun _ => [1%Q]) docs)
                            [Examples.bookY] Engine.init)))
                   "R" 4 _ _ _)).
  - repeat constructor.
  - vm_compute. reflexivity.
Defined.

(** ** Current similarities

    What [fit] establishes on a history with two users or more, for a
    similarity that is [sharp]: the state [fitted] in which [recommend]
    follows the specification. *)

Lemma record_value_nonzero (r : BorrowingRecord) :
  ~ (CollaborativeFilter.record_value r == 0)%Q.
Proof.
  unfold CollaborativeFilter.record_value.
  destruct (rating r) as [z |].
  - destruct (z =? 0) eqn:E.
    + destruct (completed r); intro H; vm_compute in H; discriminate.
    + apply Z.eqb_neq in E. intro H.
      unfold Qeq, Qdiv, Qmult, Qinv, inject_Z in H. simpl in H. lia.
  - destruct (completed r); intro H; vm_compute in H; discriminate.
Qed.

Lemma find_last_found {A} (p : A -> bool) (l : list A) (x : A) :
  In x l -> p x = true -> exists y, Spec.find_last p l = Some y.
Proof.
  intros Hin Hp. unfold Spec.find_last.
  destruct (find p (rev l)) as [y |] eqn:E; [exists y; reflexivity |].
  apply in_rev in Hin. pose proof (find_none _ _ E x Hin) as Hf.
  congruence.
Qed.

Lemma nth_map_in {A} (f : A -> Q) (l : list A) (d : A) (j : nat) :
  (j < List.length l)%nat -> nth j (map f l) 0%Q = f (nth j l d).
Proof.
  revert j. induction l as [| a l IH]; intros j Hj; simpl in *; [lia |].
  destruct j as [| j]; [reflexivity |]. apply IH. lia.
Qed.

Section Current.
Variable cosine : list Q -> list Q -> Q.
Variable records : list BorrowingRecord.

Let users := Py.set_list (map r_student_id records).
Let books := Py.set_list (map r_book_id records).
Let m := CollaborativeFilter.fill records (new_frame users books).
Let s := square_frame users
           (CollaborativeFilter.cosine_similarity cosine
              (frame_values m) (frame_values m)).

Lemma fit_weight_cell (u b : string) :
  In u users -> In b books -> cell m u b = pair_weight records u b.
Proof.
  intros Hu Hb. unfold cell, m, users, books. rewrite fit_matrix_loc.
  assert (Hu' : Py.mem u (map r_student_id records) = true)
    by (rewrite <- mem_set_list; apply mem_In; exact Hu).
  assert (Hb' : Py.mem b (map r_book_id records) = true)
    by (rewrite <- mem_set_list; apply mem_In; exact Hb).
  rewrite Hu', Hb'. reflexivity.
Qed.

Lemma fit_similarity_cell (u v : string) :
  In u users -> In v users ->
  cell s u v
  = cosine (student_weights records u) (student_weights records v).
Proof.
  intros Hu Hv. unfold cell, s, m, users, books.
  rewrite fit_values, square_frame_loc.
  apply mem_In in Hu, Hv. fold users. rewrite Hu, Hv. reflexivity.
Qed.

Lemma student_row_nonzero (t : string) :
  In t users ->
  exists a, In a (student_weights records t) /\ ~ (a == 0)%Q.
Proof.
  intro Ht. apply (proj1 (set_list_In _ _)) in Ht.
  apply in_map_iff in Ht. destruct Ht as [r [Hr Hin]].
  exists (pair_weight records t (r_book_id r)). split.
  - unfold student_weights. apply in_map. apply set_list_In.
    apply in_map. exact Hin.
  - unfold pair_weight.
    destruct (find_last_found
                (fun x => String.eqb (r_student_id x) t
                          && String.eqb (r_book_id x) (r_book_id r))
                records r Hin) as [y Hy].
    + rewrite Hr, !String.eqb_refl. reflexivity.
    + rewrite Hy. apply record_value_nonzero.
Qed.

Lemma fit_ties_inert (t : string) :
  sharp cosine -> In t users -> ties_inert m s t = true.
Proof.
  intros Hsharp Ht. unfold ties_inert.
  destruct (fit_matrix_ok records) as [_ [_ Hc]]. fold users books m in Hc.
  apply forallb_forall. intros u Hu. change (df_index s) with users in Hu.
  destruct (Qle_bool (cell s t t) (cell s u t)) eqn:E; [| reflexivity].
  cbn [implb]. apply forallb_forall. intros b Hb. rewrite Hc in Hb.
  destruct (Py.Qltb 0 (cell m u b)) eqn:Epos; [| reflexivity].
  cbn [implb]. apply negb_true_iff.
  destruct (Qeq_bool (cell m t b) 0) eqn:Ez; [exfalso | reflexivity].
  apply Qle_bool_iff in E. apply Qltb_lt in Epos. apply Qeq_bool_iff in Ez.
  rewrite !fit_similarity_cell in E by assumption.
  rewrite fit_weight_cell in Epos, Ez by assumption.
  destruct (In_nth books b ""%string Hb) as [j [Hj Hnth]].
  apply (Hsharp (student_weights records t) (student_weights records u)
           ltac:(unfold student_weights; rewrite !length_map; reflexivity)
           (student_row_nonzero t Ht) E j).
  - unfold student_weights. fold books.
    rewrite (nth_map_in _ books ""%string j Hj), Hnth. exact Epos.
  - unfold student_weights. fold books.
    rewrite (nth_map_in _ books ""%string j Hj), Hnth. exact Ez.
Qed.

(** [fit] on a history with two users or more leaves the filter in the
    state [fitted], for every user of the history and whatever state the
    filter was in. *)
Lemma fit_fitted (self : CollaborativeFilter.t) (t : string) :
  sharp cosine ->
  (1 < List.length users)%nat ->
  Py.mem t (map r_student_id records) = true ->
  CollaborativeFilter.user_item_matrix
    (CollaborativeFilter.fit cosine records self) = Some m
  /\ CollaborativeFilter.user_similarity_matrix
       (CollaborativeFilter.fit cosine records self) = Some s
  /\ fitted m s t = true.
Proof.
  intros Hsharp Hlen Ht.
  assert (Htu : In t users)
    by (apply mem_In; unfold users; rewrite mem_set_list; exact Ht).
  split; [reflexivity |]. split.
  - unfold CollaborativeFilter.fit, CollaborativeFilter.fit_with.
    cbn [CollaborativeFilter.user_similarity_matrix]. fold users.
    apply Nat.ltb_lt in Hlen. rewrite Hlen. reflexivity.
  - destruct (fit_matrix_ok records) as [Hok [Hi Hc]].
    fold users books m in Hok, Hi, Hc.
    unfold fitted. rewrite Hok, (fit_ties_inert t Hsharp Htu).
    change (df_index s) with users. change (df_columns s) with users.
    rewrite Hi, !list_eqb_refl. apply mem_In in Htu. rewrite Htu.
    rewrite !andb_true_r. unfold s. apply square_frame_ok.
    + apply set_list_NoDup.
    + unfold CollaborativeFilter.cosine_similarity, m, users, books.
      rewrite length_map, fit_values, length_map. reflexivity.
    + apply Forall_forall. intros row Hrow.
      unfold CollaborativeFilter.cosine_similarity in Hrow.
      apply in_map_iff in Hrow. destruct Hrow as [x [<- _]].
      unfold m, users, books.
      rewrite length_map, fit_values, length_map. reflexivity.
Qed.

(** After a fit on two users or more, [recommend] returns for every user
    of the history the top [n] of the scores accumulated over the 5 most
    similar other users. *)
Lemma collaborative_recommend_after_fit (self : CollaborativeFilter.t)
  (t : string) (n : Z) :
  sharp cosine ->
  (1 < List.length users)%nat ->
  Py.mem t (map r_student_id records) = true ->
  0 <= n ->
  CollaborativeFilter.recommend
    (CollaborativeFilter.fit cosine records self) t n
  = Some (Spec.collaborative m s t n).
Proof.
  intros Hsharp Hlen Ht Hn.
  destruct (fit_fitted self t Hsharp Hlen Ht) as [Hm [Hs Hfit]].
  apply (recommend_fitted m s t Hfit); assumption.
Qed.
End Current.

Lemma indicator_sharp : sharp indicator.
Proof.
  intros x y Hlen _ Hle j Hpos.
  assert (Hxx : indicator x x = 1%Q).
  { unfold indicator.
    assert (H : forallb (fun p => Qeq_bool (fst p) (snd p)) (combine x x)
                = true).
    { clear. induction x as [| a x IH]; [reflexivity |]. simpl.
      rewrite IH, andb_true_r. apply Qeq_bool_iff. reflexivity. }
    rewrite H. reflexivity. }
  rewrite Hxx in Hle. unfold indicator in Hle.
  destruct (forallb _ (combine y x)) eqn:E;
    [| exfalso; vm_compute in Hle; apply Hle; reflexivity].
  clear Hle Hxx. revert x j Hlen E Hpos.
  induction y as [| b y IH]; intros [| a x] j Hlen E Hpos;
    simpl in *; try discriminate.
  - destruct j; vm_compute in Hpos; discriminate.
  - apply andb_true_iff in E. destruct E as [Hab E].
    apply Qeq_bool_iff in Hab. destruct j as [| j].
    + intro Ha. rewrite Hab, Ha in Hpos. vm_compute in Hpos. discriminate.
    + apply (IH x j); [lia | exact E | exact Hpos].
Qed.

Lemma collaborative_recommend_after_fit_example :
  CollaborativeFilter.recommend
    (CollaborativeFilter.fit indicator Scenarios.trio_records
       (Reload.refitted indicator)) "U1" 3
  = Some [("Y", (4 # 5) * 0)%Q].
Proof.
  rewrite (collaborative_recommend_after_fit indicator
             Scenarios.trio_records (Reload.refitted indicator) "U1" 3
             indicator_sharp);
    [| simpl; lia | reflexivity | lia].
  vm_compute. reflexivity.
Qed.
